(** * Reverse-replication workflow: request normalisation, saga loop and
      the change-stream / dataflow-reader activities.

    Shallow embedding of
      - reverserepl/create.go
          (validateAndUpdateJobData, CreateWorkflow),
      - reverserepl/activity/prepare_change_stream.go
          (PrepareChangeStream.Transaction / Compensation),
      - reverserepl/activity/prepare_dataflow_reader.go
          (PrepareDataflowReader.Transaction, validateUpdateReaderTuningCfg),
      - accessors/dataflow/dataflow_accessor.go
          (LaunchFlexTemplate, UnmarshalDataflowTuningConfig),
      - the emulator wrapper
          (Start, Stop, ClientOptions, startEmulatorSubprocess, waitForReady)
        and the helpers of its tests
          (setup, cleanup, createInstance, createDatabase, deleteInstance).

    Go strings are byte sequences and are modelled by [string]; a Go [error]
    is modelled by its message, [nil] by [None]; a Go map is a [gmap] and a
    nil map is [None]; Go's [int] is [Z].  Calls that leave the process
    (Spanner, Dataflow, GCS, the job store) are oracles on an abstract
    [World] and every such call is recorded in a trace.  Logging
    ([logger.Log], [fmt.Println]) in the files of package reverserepl is
    not modelled; what the accessor, the emulator wrapper and the test
    helpers log or print is recorded in their traces. *)

From Stdlib Require Import ZArith String Ascii List Lia DecimalString.
From stdpp Require Import base option gmap strings list fin_maps.

Import ListNotations.
Local Open Scope string_scope.
Local Open Scope Z_scope.

(** ** Go runtime primitives used by the sources *)

(** An [error] value is represented by the text [Error()] returns. *)
Definition error := string.

(** [strings.HasPrefix(s, prefix)]. *)
Definition HasPrefix (s prefix : string) : bool := String.prefix prefix s.

(** [strings.Replace(s, old, new, -1)] where [old] and [new] are single
    bytes: every occurrence of the byte [old] becomes [new]. *)
Fixpoint ReplaceByte (old new : ascii) (s : string) : string :=
  match s with
  | EmptyString => EmptyString
  | String c rest =>
      String (if Ascii.eqb c old then new else c) (ReplaceByte old new rest)
  end.

(** Does the byte [b] occur in [s]? ([strings.IndexByte(s, b) >= 0].) *)
Fixpoint ContainsByte (b : ascii) (s : string) : bool :=
  match s with
  | EmptyString => false
  | String c rest => Ascii.eqb c b || ContainsByte b rest
  end.

(** The [%d] verb of [fmt] on a non-negative loop index. *)
Definition fmt_d (n : nat) : string := NilZero.string_of_uint (Nat.to_uint n).

(** [s == ""] *)
Definition isEmpty (s : string) : bool := String.eqb s "".

(** [utils.Contains(list, s)]: membership in a slice of strings. *)
Definition Contains (l : list string) (s : string) : bool :=
  existsb (String.eqb s) l.

(** ** Results and the state monad the code runs in *)

(** Outcome of running Go code: normal return or a runtime panic. *)
Inductive Res (A : Type) : Type :=
| Ret (a : A)
| Panic (msg : string).
Arguments Ret {A} a.
Arguments Panic {A} msg.

(** State-passing computations over a state [S] that may panic. *)
Definition M (S A : Type) : Type := S -> Res A * S.

Definition ret {S A} (a : A) : M S A := fun s => (Ret a, s).

Definition bind {S A B} (m : M S A) (k : A -> M S B) : M S B :=
  fun s =>
    match m s with
    | (Ret a, s') => k a s'
    | (Panic msg, s') => (Panic msg, s')
    end.

Definition panic {S A} (msg : string) : M S A := fun s => (Panic msg, s).

Declare Scope go_scope.
Delimit Scope go_scope with go.
Notation "x <- c1 ;; c2" := (bind c1 (fun x => c2))
  (at level 100, c1 at next level, right associativity) : go_scope.
Notation "c1 ;;; c2" := (bind c1 (fun _ => c2))
  (at level 100, right associativity) : go_scope.

(** Run a computation on a component of the state. *)
Definition zoom {S T A} (get : S -> T) (set : T -> S -> S) (m : M T A) : M S A :=
  fun s => let (r, t') := m (get s) in (r, set t' s).

(** A Go assignment [x = v] followed by the rest of the block, in which [x]
    stands for the new value. *)
Definition assign {A B} (v : A) (rest : A -> B) : B := rest v.
Notation "x <<- v ;; rest" := (assign v (fun x => rest))
  (at level 100, v at next level, right associativity) : go_scope.

(** ** Data model *)

(** The job request.  The declaration of [JobData] is not part of the
    sources at hand; the fields are those that create.go reads or writes,
    with the types their uses fix (string comparison with a literal, a
    boolean assignment, [TimerInterval < 1]). *)
Module JobData.
Record t : Type := mk {
  IsSMTBucketRequired : bool;
  SmtBucketName : string;
  SessionFilePath : string;
  SourceConnectionConfig : string;
  GcsDataDirectory : string;
  InstanceId : string;
  DatabaseId : string;
  SessionFileGcsPath : string;
  SourceConnectionConfigGcsPath : string;
  SpannerProjectId : string;
  JobName : string;
  SourceType : string;
  MetadataInstance : string;
  MetadataDatabase : string;
  ChangeStreamName : string;
  FiltrationMode : string;
  TimerInterval : Z;
  WindowDuration : string;
  ShardingCustomJarPath : string;
  ShardingCustomClassName : string;
  SpannerLocation : string;
  StartTimestamp : string;
  EndTimestamp : string;
  MetadataTableSuffix : string;
  SkipDirectoryName : string;
  ReaderCfg : string;
  WriterCfg : string;
  SourceDbTimezoneOffset : string
}.

(** Field assignments [request.F = v]. *)
Definition set_IsSMTBucketRequired (v : bool) (r : t) : t :=
  {| IsSMTBucketRequired := v; SmtBucketName := SmtBucketName r; SessionFilePath := SessionFilePath r;
     SourceConnectionConfig := SourceConnectionConfig r; GcsDataDirectory := GcsDataDirectory r; InstanceId := InstanceId r;
     DatabaseId := DatabaseId r; SessionFileGcsPath := SessionFileGcsPath r; SourceConnectionConfigGcsPath := SourceConnectionConfigGcsPath r;
     SpannerProjectId := SpannerProjectId r; JobName := JobName r; SourceType := SourceType r;
     MetadataInstance := MetadataInstance r; MetadataDatabase := MetadataDatabase r; ChangeStreamName := ChangeStreamName r;
     FiltrationMode := FiltrationMode r; TimerInterval := TimerInterval r; WindowDuration := WindowDuration r;
     ShardingCustomJarPath := ShardingCustomJarPath r; ShardingCustomClassName := ShardingCustomClassName r; SpannerLocation := SpannerLocation r;
     StartTimestamp := StartTimestamp r; EndTimestamp := EndTimestamp r; MetadataTableSuffix := MetadataTableSuffix r;
     SkipDirectoryName := SkipDirectoryName r; ReaderCfg := ReaderCfg r; WriterCfg := WriterCfg r;
     SourceDbTimezoneOffset := SourceDbTimezoneOffset r |}.
Definition set_SmtBucketName (v : string) (r : t) : t :=
  {| IsSMTBucketRequired := IsSMTBucketRequired r; SmtBucketName := v; SessionFilePath := SessionFilePath r;
     SourceConnectionConfig := SourceConnectionConfig r; GcsDataDirectory := GcsDataDirectory r; InstanceId := InstanceId r;
     DatabaseId := DatabaseId r; SessionFileGcsPath := SessionFileGcsPath r; SourceConnectionConfigGcsPath := SourceConnectionConfigGcsPath r;
     SpannerProjectId := SpannerProjectId r; JobName := JobName r; SourceType := SourceType r;
     MetadataInstance := MetadataInstance r; MetadataDatabase := MetadataDatabase r; ChangeStreamName := ChangeStreamName r;
     FiltrationMode := FiltrationMode r; TimerInterval := TimerInterval r; WindowDuration := WindowDuration r;
     ShardingCustomJarPath := ShardingCustomJarPath r; ShardingCustomClassName := ShardingCustomClassName r; SpannerLocation := SpannerLocation r;
     StartTimestamp := StartTimestamp r; EndTimestamp := EndTimestamp r; MetadataTableSuffix := MetadataTableSuffix r;
     SkipDirectoryName := SkipDirectoryName r; ReaderCfg := ReaderCfg r; WriterCfg := WriterCfg r;
     SourceDbTimezoneOffset := SourceDbTimezoneOffset r |}.
Definition set_SessionFileGcsPath (v : string) (r : t) : t :=
  {| IsSMTBucketRequired := IsSMTBucketRequired r; SmtBucketName := SmtBucketName r; SessionFilePath := SessionFilePath r;
     SourceConnectionConfig := SourceConnectionConfig r; GcsDataDirectory := GcsDataDirectory r; InstanceId := InstanceId r;
     DatabaseId := DatabaseId r; SessionFileGcsPath := v; SourceConnectionConfigGcsPath := SourceConnectionConfigGcsPath r;
     SpannerProjectId := SpannerProjectId r; JobName := JobName r; SourceType := SourceType r;
     MetadataInstance := MetadataInstance r; MetadataDatabase := MetadataDatabase r; ChangeStreamName := ChangeStreamName r;
     FiltrationMode := FiltrationMode r; TimerInterval := TimerInterval r; WindowDuration := WindowDuration r;
     ShardingCustomJarPath := ShardingCustomJarPath r; ShardingCustomClassName := ShardingCustomClassName r; SpannerLocation := SpannerLocation r;
     StartTimestamp := StartTimestamp r; EndTimestamp := EndTimestamp r; MetadataTableSuffix := MetadataTableSuffix r;
     SkipDirectoryName := SkipDirectoryName r; ReaderCfg := ReaderCfg r; WriterCfg := WriterCfg r;
     SourceDbTimezoneOffset := SourceDbTimezoneOffset r |}.
Definition set_SourceConnectionConfigGcsPath (v : string) (r : t) : t :=
  {| IsSMTBucketRequired := IsSMTBucketRequired r; SmtBucketName := SmtBucketName r; SessionFilePath := SessionFilePath r;
     SourceConnectionConfig := SourceConnectionConfig r; GcsDataDirectory := GcsDataDirectory r; InstanceId := InstanceId r;
     DatabaseId := DatabaseId r; SessionFileGcsPath := SessionFileGcsPath r; SourceConnectionConfigGcsPath := v;
     SpannerProjectId := SpannerProjectId r; JobName := JobName r; SourceType := SourceType r;
     MetadataInstance := MetadataInstance r; MetadataDatabase := MetadataDatabase r; ChangeStreamName := ChangeStreamName r;
     FiltrationMode := FiltrationMode r; TimerInterval := TimerInterval r; WindowDuration := WindowDuration r;
     ShardingCustomJarPath := ShardingCustomJarPath r; ShardingCustomClassName := ShardingCustomClassName r; SpannerLocation := SpannerLocation r;
     StartTimestamp := StartTimestamp r; EndTimestamp := EndTimestamp r; MetadataTableSuffix := MetadataTableSuffix r;
     SkipDirectoryName := SkipDirectoryName r; ReaderCfg := ReaderCfg r; WriterCfg := WriterCfg r;
     SourceDbTimezoneOffset := SourceDbTimezoneOffset r |}.
Definition set_JobName (v : string) (r : t) : t :=
  {| IsSMTBucketRequired := IsSMTBucketRequired r; SmtBucketName := SmtBucketName r; SessionFilePath := SessionFilePath r;
     SourceConnectionConfig := SourceConnectionConfig r; GcsDataDirectory := GcsDataDirectory r; InstanceId := InstanceId r;
     DatabaseId := DatabaseId r; SessionFileGcsPath := SessionFileGcsPath r; SourceConnectionConfigGcsPath := SourceConnectionConfigGcsPath r;
     SpannerProjectId := SpannerProjectId r; JobName := v; SourceType := SourceType r;
     MetadataInstance := MetadataInstance r; MetadataDatabase := MetadataDatabase r; ChangeStreamName := ChangeStreamName r;
     FiltrationMode := FiltrationMode r; TimerInterval := TimerInterval r; WindowDuration := WindowDuration r;
     ShardingCustomJarPath := ShardingCustomJarPath r; ShardingCustomClassName := ShardingCustomClassName r; SpannerLocation := SpannerLocation r;
     StartTimestamp := StartTimestamp r; EndTimestamp := EndTimestamp r; MetadataTableSuffix := MetadataTableSuffix r;
     SkipDirectoryName := SkipDirectoryName r; ReaderCfg := ReaderCfg r; WriterCfg := WriterCfg r;
     SourceDbTimezoneOffset := SourceDbTimezoneOffset r |}.
Definition set_SourceType (v : string) (r : t) : t :=
  {| IsSMTBucketRequired := IsSMTBucketRequired r; SmtBucketName := SmtBucketName r; SessionFilePath := SessionFilePath r;
     SourceConnectionConfig := SourceConnectionConfig r; GcsDataDirectory := GcsDataDirectory r; InstanceId := InstanceId r;
     DatabaseId := DatabaseId r; SessionFileGcsPath := SessionFileGcsPath r; SourceConnectionConfigGcsPath := SourceConnectionConfigGcsPath r;
     SpannerProjectId := SpannerProjectId r; JobName := JobName r; SourceType := v;
     MetadataInstance := MetadataInstance r; MetadataDatabase := MetadataDatabase r; ChangeStreamName := ChangeStreamName r;
     FiltrationMode := FiltrationMode r; TimerInterval := TimerInterval r; WindowDuration := WindowDuration r;
     ShardingCustomJarPath := ShardingCustomJarPath r; ShardingCustomClassName := ShardingCustomClassName r; SpannerLocation := SpannerLocation r;
     StartTimestamp := StartTimestamp r; EndTimestamp := EndTimestamp r; MetadataTableSuffix := MetadataTableSuffix r;
     SkipDirectoryName := SkipDirectoryName r; ReaderCfg := ReaderCfg r; WriterCfg := WriterCfg r;
     SourceDbTimezoneOffset := SourceDbTimezoneOffset r |}.
Definition set_MetadataInstance (v : string) (r : t) : t :=
  {| IsSMTBucketRequired := IsSMTBucketRequired r; SmtBucketName := SmtBucketName r; SessionFilePath := SessionFilePath r;
     SourceConnectionConfig := SourceConnectionConfig r; GcsDataDirectory := GcsDataDirectory r; InstanceId := InstanceId r;
     DatabaseId := DatabaseId r; SessionFileGcsPath := SessionFileGcsPath r; SourceConnectionConfigGcsPath := SourceConnectionConfigGcsPath r;
     SpannerProjectId := SpannerProjectId r; JobName := JobName r; SourceType := SourceType r;
     MetadataInstance := v; MetadataDatabase := MetadataDatabase r; ChangeStreamName := ChangeStreamName r;
     FiltrationMode := FiltrationMode r; TimerInterval := TimerInterval r; WindowDuration := WindowDuration r;
     ShardingCustomJarPath := ShardingCustomJarPath r; ShardingCustomClassName := ShardingCustomClassName r; SpannerLocation := SpannerLocation r;
     StartTimestamp := StartTimestamp r; EndTimestamp := EndTimestamp r; MetadataTableSuffix := MetadataTableSuffix r;
     SkipDirectoryName := SkipDirectoryName r; ReaderCfg := ReaderCfg r; WriterCfg := WriterCfg r;
     SourceDbTimezoneOffset := SourceDbTimezoneOffset r |}.
Definition set_MetadataDatabase (v : string) (r : t) : t :=
  {| IsSMTBucketRequired := IsSMTBucketRequired r; SmtBucketName := SmtBucketName r; SessionFilePath := SessionFilePath r;
     SourceConnectionConfig := SourceConnectionConfig r; GcsDataDirectory := GcsDataDirectory r; InstanceId := InstanceId r;
     DatabaseId := DatabaseId r; SessionFileGcsPath := SessionFileGcsPath r; SourceConnectionConfigGcsPath := SourceConnectionConfigGcsPath r;
     SpannerProjectId := SpannerProjectId r; JobName := JobName r; SourceType := SourceType r;
     MetadataInstance := MetadataInstance r; MetadataDatabase := v; ChangeStreamName := ChangeStreamName r;
     FiltrationMode := FiltrationMode r; TimerInterval := TimerInterval r; WindowDuration := WindowDuration r;
     ShardingCustomJarPath := ShardingCustomJarPath r; ShardingCustomClassName := ShardingCustomClassName r; SpannerLocation := SpannerLocation r;
     StartTimestamp := StartTimestamp r; EndTimestamp := EndTimestamp r; MetadataTableSuffix := MetadataTableSuffix r;
     SkipDirectoryName := SkipDirectoryName r; ReaderCfg := ReaderCfg r; WriterCfg := WriterCfg r;
     SourceDbTimezoneOffset := SourceDbTimezoneOffset r |}.
Definition set_GcsDataDirectory (v : string) (r : t) : t :=
  {| IsSMTBucketRequired := IsSMTBucketRequired r; SmtBucketName := SmtBucketName r; SessionFilePath := SessionFilePath r;
     SourceConnectionConfig := SourceConnectionConfig r; GcsDataDirectory := v; InstanceId := InstanceId r;
     DatabaseId := DatabaseId r; SessionFileGcsPath := SessionFileGcsPath r; SourceConnectionConfigGcsPath := SourceConnectionConfigGcsPath r;
     SpannerProjectId := SpannerProjectId r; JobName := JobName r; SourceType := SourceType r;
     MetadataInstance := MetadataInstance r; MetadataDatabase := MetadataDatabase r; ChangeStreamName := ChangeStreamName r;
     FiltrationMode := FiltrationMode r; TimerInterval := TimerInterval r; WindowDuration := WindowDuration r;
     ShardingCustomJarPath := ShardingCustomJarPath r; ShardingCustomClassName := ShardingCustomClassName r; SpannerLocation := SpannerLocation r;
     StartTimestamp := StartTimestamp r; EndTimestamp := EndTimestamp r; MetadataTableSuffix := MetadataTableSuffix r;
     SkipDirectoryName := SkipDirectoryName r; ReaderCfg := ReaderCfg r; WriterCfg := WriterCfg r;
     SourceDbTimezoneOffset := SourceDbTimezoneOffset r |}.
Definition set_ChangeStreamName (v : string) (r : t) : t :=
  {| IsSMTBucketRequired := IsSMTBucketRequired r; SmtBucketName := SmtBucketName r; SessionFilePath := SessionFilePath r;
     SourceConnectionConfig := SourceConnectionConfig r; GcsDataDirectory := GcsDataDirectory r; InstanceId := InstanceId r;
     DatabaseId := DatabaseId r; SessionFileGcsPath := SessionFileGcsPath r; SourceConnectionConfigGcsPath := SourceConnectionConfigGcsPath r;
     SpannerProjectId := SpannerProjectId r; JobName := JobName r; SourceType := SourceType r;
     MetadataInstance := MetadataInstance r; MetadataDatabase := MetadataDatabase r; ChangeStreamName := v;
     FiltrationMode := FiltrationMode r; TimerInterval := TimerInterval r; WindowDuration := WindowDuration r;
     ShardingCustomJarPath := ShardingCustomJarPath r; ShardingCustomClassName := ShardingCustomClassName r; SpannerLocation := SpannerLocation r;
     StartTimestamp := StartTimestamp r; EndTimestamp := EndTimestamp r; MetadataTableSuffix := MetadataTableSuffix r;
     SkipDirectoryName := SkipDirectoryName r; ReaderCfg := ReaderCfg r; WriterCfg := WriterCfg r;
     SourceDbTimezoneOffset := SourceDbTimezoneOffset r |}.
Definition set_FiltrationMode (v : string) (r : t) : t :=
  {| IsSMTBucketRequired := IsSMTBucketRequired r; SmtBucketName := SmtBucketName r; SessionFilePath := SessionFilePath r;
     SourceConnectionConfig := SourceConnectionConfig r; GcsDataDirectory := GcsDataDirectory r; InstanceId := InstanceId r;
     DatabaseId := DatabaseId r; SessionFileGcsPath := SessionFileGcsPath r; SourceConnectionConfigGcsPath := SourceConnectionConfigGcsPath r;
     SpannerProjectId := SpannerProjectId r; JobName := JobName r; SourceType := SourceType r;
     MetadataInstance := MetadataInstance r; MetadataDatabase := MetadataDatabase r; ChangeStreamName := ChangeStreamName r;
     FiltrationMode := v; TimerInterval := TimerInterval r; WindowDuration := WindowDuration r;
     ShardingCustomJarPath := ShardingCustomJarPath r; ShardingCustomClassName := ShardingCustomClassName r; SpannerLocation := SpannerLocation r;
     StartTimestamp := StartTimestamp r; EndTimestamp := EndTimestamp r; MetadataTableSuffix := MetadataTableSuffix r;
     SkipDirectoryName := SkipDirectoryName r; ReaderCfg := ReaderCfg r; WriterCfg := WriterCfg r;
     SourceDbTimezoneOffset := SourceDbTimezoneOffset r |}.
Definition set_TimerInterval (v : Z) (r : t) : t :=
  {| IsSMTBucketRequired := IsSMTBucketRequired r; SmtBucketName := SmtBucketName r; SessionFilePath := SessionFilePath r;
     SourceConnectionConfig := SourceConnectionConfig r; GcsDataDirectory := GcsDataDirectory r; InstanceId := InstanceId r;
     DatabaseId := DatabaseId r; SessionFileGcsPath := SessionFileGcsPath r; SourceConnectionConfigGcsPath := SourceConnectionConfigGcsPath r;
     SpannerProjectId := SpannerProjectId r; JobName := JobName r; SourceType := SourceType r;
     MetadataInstance := MetadataInstance r; MetadataDatabase := MetadataDatabase r; ChangeStreamName := ChangeStreamName r;
     FiltrationMode := FiltrationMode r; TimerInterval := v; WindowDuration := WindowDuration r;
     ShardingCustomJarPath := ShardingCustomJarPath r; ShardingCustomClassName := ShardingCustomClassName r; SpannerLocation := SpannerLocation r;
     StartTimestamp := StartTimestamp r; EndTimestamp := EndTimestamp r; MetadataTableSuffix := MetadataTableSuffix r;
     SkipDirectoryName := SkipDirectoryName r; ReaderCfg := ReaderCfg r; WriterCfg := WriterCfg r;
     SourceDbTimezoneOffset := SourceDbTimezoneOffset r |}.
Definition set_WindowDuration (v : string) (r : t) : t :=
  {| IsSMTBucketRequired := IsSMTBucketRequired r; SmtBucketName := SmtBucketName r; SessionFilePath := SessionFilePath r;
     SourceConnectionConfig := SourceConnectionConfig r; GcsDataDirectory := GcsDataDirectory r; InstanceId := InstanceId r;
     DatabaseId := DatabaseId r; SessionFileGcsPath := SessionFileGcsPath r; SourceConnectionConfigGcsPath := SourceConnectionConfigGcsPath r;
     SpannerProjectId := SpannerProjectId r; JobName := JobName r; SourceType := SourceType r;
     MetadataInstance := MetadataInstance r; MetadataDatabase := MetadataDatabase r; ChangeStreamName := ChangeStreamName r;
     FiltrationMode := FiltrationMode r; TimerInterval := TimerInterval r; WindowDuration := v;
     ShardingCustomJarPath := ShardingCustomJarPath r; ShardingCustomClassName := ShardingCustomClassName r; SpannerLocation := SpannerLocation r;
     StartTimestamp := StartTimestamp r; EndTimestamp := EndTimestamp r; MetadataTableSuffix := MetadataTableSuffix r;
     SkipDirectoryName := SkipDirectoryName r; ReaderCfg := ReaderCfg r; WriterCfg := WriterCfg r;
     SourceDbTimezoneOffset := SourceDbTimezoneOffset r |}.
Definition set_SpannerLocation (v : string) (r : t) : t :=
  {| IsSMTBucketRequired := IsSMTBucketRequired r; SmtBucketName := SmtBucketName r; SessionFilePath := SessionFilePath r;
     SourceConnectionConfig := SourceConnectionConfig r; GcsDataDirectory := GcsDataDirectory r; InstanceId := InstanceId r;
     DatabaseId := DatabaseId r; SessionFileGcsPath := SessionFileGcsPath r; SourceConnectionConfigGcsPath := SourceConnectionConfigGcsPath r;
     SpannerProjectId := SpannerProjectId r; JobName := JobName r; SourceType := SourceType r;
     MetadataInstance := MetadataInstance r; MetadataDatabase := MetadataDatabase r; ChangeStreamName := ChangeStreamName r;
     FiltrationMode := FiltrationMode r; TimerInterval := TimerInterval r; WindowDuration := WindowDuration r;
     ShardingCustomJarPath := ShardingCustomJarPath r; ShardingCustomClassName := ShardingCustomClassName r; SpannerLocation := v;
     StartTimestamp := StartTimestamp r; EndTimestamp := EndTimestamp r; MetadataTableSuffix := MetadataTableSuffix r;
     SkipDirectoryName := SkipDirectoryName r; ReaderCfg := ReaderCfg r; WriterCfg := WriterCfg r;
     SourceDbTimezoneOffset := SourceDbTimezoneOffset r |}.
End JobData.

(** The inputs of the seven activities, as the struct literals of
    [CreateWorkflow] fill them. *)
Module CreateSmtJobEntryInput.
Record t : Type := mk {
  SmtJobId : string; JobName : string; SpannerProjectId : string;
  InstanceId : string; DatabaseId : string; JobData : string
}.
End CreateSmtJobEntryInput.

Module PrepareGcsBucketInput.
Record t : Type := mk {
  SmtJobId : string; SmtBucketName : string; SpannerProjectId : string;
  SpannerLocation : string; SessionFilePath : string;
  SourceConnectionConfig : string; IsSMTBucketRequired : bool
}.
End PrepareGcsBucketInput.

Module PrepareChangeStreamInput.
Record t : Type := mk {
  SmtJobId : string; ChangeStreamName : string; DbURI : string
}.
End PrepareChangeStreamInput.

Module PrepareChangeStreamOutput.
Record t : Type := mk {
  Exists : bool; ExistsWithIncorrectOptions : bool; Created : bool
}.
(** The zero value [&PrepareChangeStreamOutput{}]. *)
Definition zero : t := mk false false false.
End PrepareChangeStreamOutput.

Module PrepareMetadataDbInput.
Record t : Type := mk { SmtJobId : string; DbURI : string }.
End PrepareMetadataDbInput.

Module PrepareDataflowReaderInput.
Record t : Type := mk {
  SmtJobId : string; ChangeStreamName : string; InstanceId : string;
  DatabaseId : string; SpannerProjectId : string; SessionFilePath : string;
  SourceShardsFilePath : string; MetadataInstance : string;
  MetadataDatabase : string; GcsOutputDirectory : string;
  StartTimestamp : string; EndTimestamp : string; WindowDuration : string;
  FiltrationMode : string; MetadataTableSuffix : string;
  SkipDirectoryName : string; ShardingCustomJarPath : string;
  ShardingCustomClassName : string; TuningCfg : string;
  SpannerLocation : string
}.
End PrepareDataflowReaderInput.

Module PrepareDataflowReaderOutput.
Record t : Type := mk { JobId : string }.
Definition zero : t := mk "".
End PrepareDataflowReaderOutput.

Module PrepareDataflowWriterInput.
Record t : Type := mk {
  SmtJobId : string; SourceShardsFilePath : string; SessionFilePath : string;
  SourceType : string; SourceDbTimezoneOffset : string; TimerInterval : Z;
  StartTimestamp : string; WindowDuration : string;
  GCSInputDirectoryPath : string; SpannerProjectId : string;
  MetadataInstance : string; MetadataDatabase : string;
  MetadataTableSuffix : string; TuningCfg : string; SpannerLocation : string
}.
End PrepareDataflowWriterInput.

Module UpdateSmtJobEntryInput.
Record t : Type := mk { SmtJobId : string; State : string }.
End UpdateSmtJobEntryInput.

(** [dataflowaccessor.DataflowTuningConfig].  Its declaration is not part
    of the sources at hand; these are the fields
    [validateUpdateReaderTuningCfg] touches.  [AdditionalUserLabels] is
    indexed by a string key and assigned a string, so it is a
    [map[string]string]: [None] is the nil map that [json.Unmarshal]
    leaves when the key is absent.  [AdditionalExperiments] is a
    [[]string], [None] being the nil slice. *)
Module DataflowTuningConfig.
Record t : Type := mk {
  ProjectId : string;
  JobName : string;
  Location : string;
  MaxWorkers : Z;
  NumWorkers : Z;
  MachineType : string;
  AdditionalUserLabels : option (gmap string string);
  GcsTemplatePath : string;
  AdditionalExperiments : option (list string);
  EnableStreamingEngine : bool
}.
(** The zero value [DataflowTuningConfig{}]. *)
Definition zero : t := mk "" "" "" 0 0 "" None "" None false.

(** Field assignments [cfg.F = v]. *)
Definition set_ProjectId (v : string) (c : t) : t :=
  {| ProjectId := v; JobName := JobName c; Location := Location c;
     MaxWorkers := MaxWorkers c; NumWorkers := NumWorkers c; MachineType := MachineType c;
     AdditionalUserLabels := AdditionalUserLabels c; GcsTemplatePath := GcsTemplatePath c; AdditionalExperiments := AdditionalExperiments c;
     EnableStreamingEngine := EnableStreamingEngine c |}.
Definition set_JobName (v : string) (c : t) : t :=
  {| ProjectId := ProjectId c; JobName := v; Location := Location c;
     MaxWorkers := MaxWorkers c; NumWorkers := NumWorkers c; MachineType := MachineType c;
     AdditionalUserLabels := AdditionalUserLabels c; GcsTemplatePath := GcsTemplatePath c; AdditionalExperiments := AdditionalExperiments c;
     EnableStreamingEngine := EnableStreamingEngine c |}.
Definition set_Location (v : string) (c : t) : t :=
  {| ProjectId := ProjectId c; JobName := JobName c; Location := v;
     MaxWorkers := MaxWorkers c; NumWorkers := NumWorkers c; MachineType := MachineType c;
     AdditionalUserLabels := AdditionalUserLabels c; GcsTemplatePath := GcsTemplatePath c; AdditionalExperiments := AdditionalExperiments c;
     EnableStreamingEngine := EnableStreamingEngine c |}.
Definition set_MaxWorkers (v : Z) (c : t) : t :=
  {| ProjectId := ProjectId c; JobName := JobName c; Location := Location c;
     MaxWorkers := v; NumWorkers := NumWorkers c; MachineType := MachineType c;
     AdditionalUserLabels := AdditionalUserLabels c; GcsTemplatePath := GcsTemplatePath c; AdditionalExperiments := AdditionalExperiments c;
     EnableStreamingEngine := EnableStreamingEngine c |}.
Definition set_NumWorkers (v : Z) (c : t) : t :=
  {| ProjectId := ProjectId c; JobName := JobName c; Location := Location c;
     MaxWorkers := MaxWorkers c; NumWorkers := v; MachineType := MachineType c;
     AdditionalUserLabels := AdditionalUserLabels c; GcsTemplatePath := GcsTemplatePath c; AdditionalExperiments := AdditionalExperiments c;
     EnableStreamingEngine := EnableStreamingEngine c |}.
Definition set_MachineType (v : string) (c : t) : t :=
  {| ProjectId := ProjectId c; JobName := JobName c; Location := Location c;
     MaxWorkers := MaxWorkers c; NumWorkers := NumWorkers c; MachineType := v;
     AdditionalUserLabels := AdditionalUserLabels c; GcsTemplatePath := GcsTemplatePath c; AdditionalExperiments := AdditionalExperiments c;
     EnableStreamingEngine := EnableStreamingEngine c |}.
Definition set_AdditionalUserLabels (v : option (gmap string string)) (c : t) : t :=
  {| ProjectId := ProjectId c; JobName := JobName c; Location := Location c;
     MaxWorkers := MaxWorkers c; NumWorkers := NumWorkers c; MachineType := MachineType c;
     AdditionalUserLabels := v; GcsTemplatePath := GcsTemplatePath c; AdditionalExperiments := AdditionalExperiments c;
     EnableStreamingEngine := EnableStreamingEngine c |}.
Definition set_GcsTemplatePath (v : string) (c : t) : t :=
  {| ProjectId := ProjectId c; JobName := JobName c; Location := Location c;
     MaxWorkers := MaxWorkers c; NumWorkers := NumWorkers c; MachineType := MachineType c;
     AdditionalUserLabels := AdditionalUserLabels c; GcsTemplatePath := v; AdditionalExperiments := AdditionalExperiments c;
     EnableStreamingEngine := EnableStreamingEngine c |}.
Definition set_AdditionalExperiments (v : option (list string)) (c : t) : t :=
  {| ProjectId := ProjectId c; JobName := JobName c; Location := Location c;
     MaxWorkers := MaxWorkers c; NumWorkers := NumWorkers c; MachineType := MachineType c;
     AdditionalUserLabels := AdditionalUserLabels c; GcsTemplatePath := GcsTemplatePath c; AdditionalExperiments := v;
     EnableStreamingEngine := EnableStreamingEngine c |}.
Definition set_EnableStreamingEngine (v : bool) (c : t) : t :=
  {| ProjectId := ProjectId c; JobName := JobName c; Location := Location c;
     MaxWorkers := MaxWorkers c; NumWorkers := NumWorkers c; MachineType := MachineType c;
     AdditionalUserLabels := AdditionalUserLabels c; GcsTemplatePath := GcsTemplatePath c; AdditionalExperiments := AdditionalExperiments c;
     EnableStreamingEngine := v |}.
End DataflowTuningConfig.

(** Package [constants].  The package is not part of the sources at hand. *)
Module constants.
(** Modelled from the spec: the external-storage URI scheme is the
    [gs://] prefix; the message of create.go line 104 spells it too. *)
Definition GCS_FILE_PREFIX : string := "gs://".
(** Modelled from the spec: the single supported source type; the message
    of create.go line 69 names it. *)
Definition MYSQL : string := "mysql".
End constants.

(** ** The outside world *)

(** The activities whose code is not part of the sources at hand, with the
    inputs [CreateWorkflow] gives them. *)
Inductive ExternalActivity : Type :=
| CreateSmtJobEntry (input : CreateSmtJobEntryInput.t)
| PrepareGcsBucket (input : PrepareGcsBucketInput.t)
| PrepareMetadataDb (input : PrepareMetadataDbInput.t)
| PrepareDataflowWriter (input : PrepareDataflowWriterInput.t)
| UpdateSmtJobEntry (input : UpdateSmtJobEntryInput.t).

(** What the code gets from outside: the remaining constants of package
    [constants], pure helpers, and calls to the resource managers, which
    read and change the [World].  A pair [(v, err)] is Go's two-valued
    return. *)
Record Env (World LaunchRequest : Type) : Type := mkEnv {
  RR_READER_FILTER_FWD : string;
  RR_READER_FILTER_NONE : string;
  RR_READER_REGULAR_MODE : string;
  REVERSE_REPLICATION_READER_TEMPLATE_PATH : string;
  (* utils, helpers, encoding/json *)
  GenerateHashStr : World -> string * World;
  GetSpannerUri : string -> string -> string;
  jsonMarshal : JobData.t -> string * option error;
  (* spanneraccessor *)
  GetSpannerLeaderLocation : string -> World -> (string * option error) * World;
  CheckIfChangeStreamExists : string -> string -> World -> (bool * option error) * World;
  ValidateChangeStreamOptions : string -> string -> World -> option error * World;
  (* helpers, dao *)
  CheckOrCreateMetadataDb : string -> string -> World -> World;
  GetOrCreateClient : string -> World -> option error * World;
  (* resource *)
  CreateChangeStreamSMTResource : string -> string -> string -> World -> option error * World;
  CreateDataflowSMTResource : string -> LaunchRequest -> World -> (string * option error) * World;
  (* dataflowutils *)
  UnmarshalDataflowTuningConfig : string -> World -> (DataflowTuningConfig.t * option error) * World;
  GetDataflowLaunchRequest :
    gmap string string -> DataflowTuningConfig.t -> World -> (LaunchRequest * option error) * World;
  (* activities defined elsewhere *)
  externalTransaction : ExternalActivity -> World -> option error * World;
  externalCompensation : ExternalActivity -> World -> option error * World
}.
Arguments mkEnv {World LaunchRequest}.
Arguments RR_READER_FILTER_FWD {World LaunchRequest} _.
Arguments RR_READER_FILTER_NONE {World LaunchRequest} _.
Arguments RR_READER_REGULAR_MODE {World LaunchRequest} _.
Arguments REVERSE_REPLICATION_READER_TEMPLATE_PATH {World LaunchRequest} _.
Arguments GenerateHashStr {World LaunchRequest} _ _.
Arguments GetSpannerUri {World LaunchRequest} _ _ _.
Arguments jsonMarshal {World LaunchRequest} _ _.
Arguments GetSpannerLeaderLocation {World LaunchRequest} _ _ _.
Arguments CheckIfChangeStreamExists {World LaunchRequest} _ _ _ _.
Arguments ValidateChangeStreamOptions {World LaunchRequest} _ _ _ _.
Arguments CheckOrCreateMetadataDb {World LaunchRequest} _ _ _ _.
Arguments GetOrCreateClient {World LaunchRequest} _ _ _.
Arguments CreateChangeStreamSMTResource {World LaunchRequest} _ _ _ _ _.
Arguments CreateDataflowSMTResource {World LaunchRequest} _ _ _ _.
Arguments UnmarshalDataflowTuningConfig {World LaunchRequest} _ _ _.
Arguments GetDataflowLaunchRequest {World LaunchRequest} _ _ _ _.
Arguments externalTransaction {World LaunchRequest} _ _ _.
Arguments externalCompensation {World LaunchRequest} _ _ _.

(** The calls that leave the process, as the trace records them. *)
Inductive ExtEvent (LaunchRequest : Type) : Type :=
| EvGetSpannerLeaderLocation (uri : string)
| EvCheckOrCreateMetadataDb (project instance : string)
| EvGetOrCreateClient (uri : string)
| EvCheckIfChangeStreamExists (name dbURI : string)
| EvValidateChangeStreamOptions (name dbURI : string)
| EvCreateChangeStreamSMTResource (jobId name dbURI : string)
| EvUnmarshalDataflowTuningConfig (path : string)
| EvGetDataflowLaunchRequest (params : gmap string string) (cfg : DataflowTuningConfig.t)
| EvCreateDataflowSMTResource (jobId : string) (req : LaunchRequest)
| EvExternalTransaction (a : ExternalActivity)
| EvExternalCompensation (a : ExternalActivity).
Arguments EvGetSpannerLeaderLocation {LaunchRequest}.
Arguments EvCheckOrCreateMetadataDb {LaunchRequest}.
Arguments EvGetOrCreateClient {LaunchRequest}.
Arguments EvCheckIfChangeStreamExists {LaunchRequest}.
Arguments EvValidateChangeStreamOptions {LaunchRequest}.
Arguments EvCreateChangeStreamSMTResource {LaunchRequest}.
Arguments EvUnmarshalDataflowTuningConfig {LaunchRequest}.
Arguments EvGetDataflowLaunchRequest {LaunchRequest}.
Arguments EvCreateDataflowSMTResource {LaunchRequest}.
Arguments EvExternalTransaction {LaunchRequest}.
Arguments EvExternalCompensation {LaunchRequest}.

(** The state an activity runs in: the world and the trace of calls made
    to it so far (oldest first). *)
Record ExtState (World LaunchRequest : Type) : Type := mkExt {
  world : World;
  events : list (ExtEvent LaunchRequest)
}.
Arguments mkExt {World LaunchRequest}.
Arguments world {World LaunchRequest}.
Arguments events {World LaunchRequest}.

(** An activity of package [rractivity] with its input and its output cell. *)
Module PrepareChangeStream.
Record t : Type := mk {
  Input : PrepareChangeStreamInput.t;
  Output : PrepareChangeStreamOutput.t
}.
End PrepareChangeStream.

Module PrepareDataflowReader.
Record t : Type := mk {
  Input : PrepareDataflowReaderInput.t;
  Output : PrepareDataflowReaderOutput.t
}.
End PrepareDataflowReader.

(** What the body of [CreateWorkflow] itself does, in order: it builds the
    slice of activities and it calls methods of the activity at an index. *)
Inductive Step : Type :=
| BuildActivities (n : nat)
| InvokeTransaction (i : nat)
| InvokeCompensation (i : nat).

(** Addresses of [JobData] variables. *)
Definition addr := positive.

(** The state [CreateWorkflow] runs in: the activities' state, its own
    steps so far (oldest first), and the [JobData] variables in memory. *)
Record OrchState (World LaunchRequest : Type) : Type := mkOrch {
  ext : ExtState World LaunchRequest;
  steps : list Step;
  heap : gmap addr JobData.t
}.
Arguments mkOrch {World LaunchRequest}.
Arguments ext {World LaunchRequest}.
Arguments steps {World LaunchRequest}.
Arguments heap {World LaunchRequest}.

(** ** The code *)

Section Code.
Context {World LaunchRequest : Type}.
Variable env : Env World LaunchRequest.

Abbreviation ES := (ExtState World LaunchRequest).
Abbreviation OS := (OrchState World LaunchRequest).
Local Open Scope go_scope.

(** A call that leaves the process: it is appended to the trace and the
    world moves on. *)
Definition call {A} (ev : ExtEvent LaunchRequest) (f : World -> A * World) : M ES A :=
  fun s => let (a, w') := f (world s) in (Ret a, mkExt w' (events s ++ [ev])).

(** [utils.GenerateHashStr()]: process-local randomness, not traced. *)
Definition hashStr : M ES string :=
  fun s => let (h, w') := GenerateHashStr env (world s) in (Ret h, mkExt w' (events s)).

(** *** create.go, [validateAndUpdateJobData]

    [request] is a pointer in the source; here the record it points to is
    threaded through: the argument is [*request] at entry and the first
    component of the result is [*request] at return, on every return
    path. *)
Definition validateAndUpdateJobData (request : JobData.t) (uuid : string)
  : M ES (JobData.t * option error) :=
  request <<- JobData.set_IsSMTBucketRequired true request ;;
  request <<- JobData.set_SmtBucketName ("smt-rr-gcs-" +:+ uuid) request ;;
  request <<-
    (if HasPrefix (JobData.SessionFilePath request) constants.GCS_FILE_PREFIX
       && HasPrefix (JobData.SourceConnectionConfig request) constants.GCS_FILE_PREFIX
       && negb (isEmpty (JobData.GcsDataDirectory request))
    then JobData.set_SmtBucketName "" (JobData.set_IsSMTBucketRequired false request)
    else request) ;;
  if isEmpty (JobData.InstanceId request) then
    ret (request, Some "found empty InstanceId which is a required parameter")
  else if isEmpty (JobData.DatabaseId request) then
    ret (request, Some "found empty DatabaseId which is a required parameter")
  else if isEmpty (JobData.SessionFilePath request) then
    ret (request, Some "found empty SessionFilePath which is a required parameter")
  else
  request <<-
    (if negb (HasPrefix (JobData.SessionFilePath request) constants.GCS_FILE_PREFIX)
    then JobData.set_SessionFileGcsPath
           (constants.GCS_FILE_PREFIX +:+ JobData.SmtBucketName request +:+ "/session.json") request
    else JobData.set_SessionFileGcsPath (JobData.SessionFilePath request) request) ;;
  if isEmpty (JobData.SourceConnectionConfig request) then
    ret (request, Some "found empty SourceConnectionConfig which is a required parameter")
  else
  request <<-
    (if negb (HasPrefix (JobData.SourceConnectionConfig request) constants.GCS_FILE_PREFIX)
    then JobData.set_SourceConnectionConfigGcsPath
           (constants.GCS_FILE_PREFIX +:+ JobData.SmtBucketName request
              +:+ "/source-connection-config.json") request
    else JobData.set_SourceConnectionConfigGcsPath (JobData.SourceConnectionConfig request) request) ;;
  if isEmpty (JobData.SpannerProjectId request) then
    ret (request, Some "found empty SpannerProjectId which is a required parameter")
  else
  request <<-
    (if isEmpty (JobData.JobName request)
    then JobData.set_JobName ("smt-job-" +:+ uuid) request else request) ;;
  request <<-
    (if isEmpty (JobData.SourceType request)
    then JobData.set_SourceType constants.MYSQL request else request) ;;
  if negb (String.eqb (JobData.SourceType request) constants.MYSQL) then
    ret (request,
         Some (JobData.SourceType request
               +:+ " is not a valid source type for reverse replication. Only supported source type is mysql"))
  else
  request <<-
    (if isEmpty (JobData.MetadataInstance request)
    then JobData.set_MetadataInstance (JobData.InstanceId request) request else request) ;;
  request <<-
    (if isEmpty (JobData.MetadataDatabase request)
    then JobData.set_MetadataDatabase ("smt-rr-metadata-" +:+ uuid) request else request) ;;
  (* lines 77-81: the [else if] branch is the one that returns *)
  if negb (isEmpty (JobData.GcsDataDirectory request))
     && negb (HasPrefix (JobData.GcsDataDirectory request) constants.GCS_FILE_PREFIX) then
    ret (request,
         Some ("invalid gcs path for GcsDataDirectory: " +:+ JobData.GcsDataDirectory request))
  else
  request <<-
    (if isEmpty (JobData.GcsDataDirectory request)
    then JobData.set_GcsDataDirectory
           ("gs://smt-rr-gcs-" +:+ uuid +:+ "/reverse-replication/data") request
    else request) ;;
  request <<-
    (if isEmpty (JobData.ChangeStreamName request)
    then JobData.set_ChangeStreamName ("smt-rr-cs-" +:+ uuid) request else request) ;;
  (* lines 85-89: the [else if] branch is the one that returns *)
  if negb (isEmpty (JobData.FiltrationMode request))
     && negb (Contains [RR_READER_FILTER_FWD env; RR_READER_FILTER_NONE env]
                       (JobData.FiltrationMode request)) then
    ret (request,
         Some ("found filtrationMode " +:+ JobData.FiltrationMode request
               +:+ ", only allowed values are [" +:+ RR_READER_FILTER_FWD env
               +:+ ", " +:+ RR_READER_FILTER_NONE env +:+ "]"))
  else
  request <<-
    (if isEmpty (JobData.FiltrationMode request)
    then JobData.set_FiltrationMode (RR_READER_FILTER_FWD env) request else request) ;;
  request <<-
    (if JobData.TimerInterval request <? 1
    then JobData.set_TimerInterval 1 request else request) ;;
  request <<-
    (if isEmpty (JobData.WindowDuration request)
    then JobData.set_WindowDuration "10s" request else request) ;;
  if negb (isEmpty (JobData.ShardingCustomJarPath request))
     && isEmpty (JobData.ShardingCustomClassName request) then
    ret (request,
         Some "found non-empty value for ShardingCustomJarPath, but empty value for ShardingCustomClassName")
  else if isEmpty (JobData.ShardingCustomJarPath request)
          && negb (isEmpty (JobData.ShardingCustomClassName request)) then
    ret (request,
         Some "found non-empty value for ShardingCustomClassName, but empty value for ShardingCustomJarPath")
  else if negb (isEmpty (JobData.ShardingCustomJarPath request))
          && negb (HasPrefix (JobData.ShardingCustomJarPath request) constants.GCS_FILE_PREFIX) then
    ret (request,
         Some "please specify a valid GCS path for ShardingCustomJarPath, starting with gs://")
  else
  (* Replace '-' with '_' since hyphens are not allowed in cs names. *)
  request <<-
    JobData.set_ChangeStreamName
      (ReplaceByte "-" "_" (JobData.ChangeStreamName request)) request ;;
  let uri := "projects/" +:+ JobData.SpannerProjectId request
             +:+ "/instances/" +:+ JobData.InstanceId request in
  x <- call (EvGetSpannerLeaderLocation uri) (GetSpannerLeaderLocation env uri) ;;
  ret (JobData.set_SpannerLocation (fst x) request, snd x).

(** *** prepare_change_stream.go

    The result carries [*p.Output] as the method leaves it. *)
Definition PrepareChangeStream_Transaction (p : PrepareChangeStream.t)
  : M ES (PrepareChangeStreamOutput.t * option error) :=
  let input := PrepareChangeStream.Input p in
  let output := PrepareChangeStream.Output p in
  let name := PrepareChangeStreamInput.ChangeStreamName input in
  let dbURI := PrepareChangeStreamInput.DbURI input in
  x <- call (EvCheckIfChangeStreamExists name dbURI)
            (CheckIfChangeStreamExists env name dbURI) ;;
  let csExists := fst x in
  match snd x with
  | Some err => ret (output, Some err)
  | None =>
      if csExists then
        err <- call (EvValidateChangeStreamOptions name dbURI)
                    (ValidateChangeStreamOptions env name dbURI) ;;
        match err with
        | Some err =>
            ret (PrepareChangeStreamOutput.mk
                   (PrepareChangeStreamOutput.Exists output)
                   true
                   (PrepareChangeStreamOutput.Created output),
                 Some err)
        | None =>
            ret (PrepareChangeStreamOutput.mk
                   true
                   (PrepareChangeStreamOutput.ExistsWithIncorrectOptions output)
                   (PrepareChangeStreamOutput.Created output),
                 None)
        end
      else
        let jobId := PrepareChangeStreamInput.SmtJobId input in
        err <- call (EvCreateChangeStreamSMTResource jobId name dbURI)
                    (CreateChangeStreamSMTResource env jobId name dbURI) ;;
        match err with
        | Some err =>
            ret (output, Some ("could not create changestream resource: " +:+ err))
        | None =>
            ret (PrepareChangeStreamOutput.mk
                   (PrepareChangeStreamOutput.Exists output)
                   (PrepareChangeStreamOutput.ExistsWithIncorrectOptions output)
                   true,
                 None)
        end
  end.

Definition PrepareChangeStream_Compensation (p : PrepareChangeStream.t)
  : M ES (option error) := ret None.

(** *** prepare_dataflow_reader.go *)

(** [validateUpdateReaderTuningCfg]: [cfg] is a pointer in the source; the
    result is [*cfg] at return.  Assigning to an entry of a nil map is a
    runtime panic in Go. *)
Definition validateUpdateReaderTuningCfg (cfg : DataflowTuningConfig.t)
    (spannerProjectId spannerLocation smtJobId : string)
  : M ES DataflowTuningConfig.t :=
  cfg <<-
    (if isEmpty (DataflowTuningConfig.ProjectId cfg)
    then DataflowTuningConfig.set_ProjectId spannerProjectId cfg else cfg) ;;
  cfg <- (if isEmpty (DataflowTuningConfig.JobName cfg)
          then h <- hashStr ;;
               ret (DataflowTuningConfig.set_JobName
                      ("smt-reverse-replication-reader-" +:+ h) cfg)
          else ret cfg) ;;
  cfg <<-
    (if isEmpty (DataflowTuningConfig.Location cfg)
    then DataflowTuningConfig.set_Location spannerLocation cfg else cfg) ;;
  cfg <<-
    (if DataflowTuningConfig.MaxWorkers cfg =? 0
    then DataflowTuningConfig.set_MaxWorkers 50 cfg else cfg) ;;
  cfg <<-
    (if DataflowTuningConfig.NumWorkers cfg =? 0
    then DataflowTuningConfig.set_NumWorkers 5 cfg else cfg) ;;
  cfg <<-
    (if isEmpty (DataflowTuningConfig.MachineType cfg)
    then DataflowTuningConfig.set_MachineType "n1-standard-2" cfg else cfg) ;;
  match DataflowTuningConfig.AdditionalUserLabels cfg with
  | None => panic "assignment to entry in nil map"
  | Some labels =>
      cfg <<-
        DataflowTuningConfig.set_AdditionalUserLabels
          (Some (<["smt-reverse-replication-reader" := smtJobId]> labels)) cfg ;;
      cfg <<-
        (if isEmpty (DataflowTuningConfig.GcsTemplatePath cfg)
        then DataflowTuningConfig.set_GcsTemplatePath
               (REVERSE_REPLICATION_READER_TEMPLATE_PATH env) cfg
        else cfg) ;;
      cfg <<-
        (match DataflowTuningConfig.AdditionalExperiments cfg with
        | None =>
            DataflowTuningConfig.set_AdditionalExperiments (Some ["use_runner_v2"]) cfg
        | Some exps =>
            if negb (Contains exps "use_runner_v2")
            then DataflowTuningConfig.set_AdditionalExperiments
                   (Some (exps ++ ["use_runner_v2"])%list) cfg
            else cfg
        end) ;;
      ret (DataflowTuningConfig.set_EnableStreamingEngine true cfg)
  end.

(** Lines 75-98 of [PrepareDataflowReader.Transaction]: the map literal
    and the conditional insertion of the two sharding keys. *)
Definition Transaction_params (input : PrepareDataflowReaderInput.t)
  : gmap string string :=
  let params : gmap string string :=
    <["changeStreamName" := PrepareDataflowReaderInput.ChangeStreamName input]> (
    <["instanceId" := PrepareDataflowReaderInput.InstanceId input]> (
    <["databaseId" := PrepareDataflowReaderInput.DatabaseId input]> (
    <["spannerProjectId" := PrepareDataflowReaderInput.SpannerProjectId input]> (
    <["metadataInstance" := PrepareDataflowReaderInput.MetadataInstance input]> (
    <["metadataDatabase" := PrepareDataflowReaderInput.MetadataDatabase input]> (
    <["gcsOutputDirectory" := PrepareDataflowReaderInput.GcsOutputDirectory input]> (
    <["sessionFilePath" := PrepareDataflowReaderInput.SessionFilePath input]> (
    <["sourceShardsFilePath" := PrepareDataflowReaderInput.SourceShardsFilePath input]> (
    <["endTimestamp" := PrepareDataflowReaderInput.EndTimestamp input]> (
    <["windowDuration" := PrepareDataflowReaderInput.WindowDuration input]> (
    <["filtrationMode" := PrepareDataflowReaderInput.FiltrationMode input]> (
    <["metadataTableSuffix" := PrepareDataflowReaderInput.MetadataTableSuffix input]> (
    <["skipDirectoryName" := PrepareDataflowReaderInput.SkipDirectoryName input]> (
    <["startTimestamp" := PrepareDataflowReaderInput.StartTimestamp input]> (
    <["runIdentifier" := PrepareDataflowReaderInput.SmtJobId input]> (
    <["runMode" := RR_READER_REGULAR_MODE env]> ∅)))))))))))))))) in
  (* Cannot send empty strings since the template expects GCS file paths. *)
  if negb (isEmpty (PrepareDataflowReaderInput.ShardingCustomJarPath input)) then
    <["shardingCustomClassName" := PrepareDataflowReaderInput.ShardingCustomClassName input]> (
    <["shardingCustomJarPath" := PrepareDataflowReaderInput.ShardingCustomJarPath input]> params)
  else params.

(** [PrepareDataflowReader.Transaction]; the result carries [*p.Output]
    as the method leaves it. *)
Definition PrepareDataflowReader_Transaction (p : PrepareDataflowReader.t)
  : M ES (PrepareDataflowReaderOutput.t * option error) :=
  let input := PrepareDataflowReader.Input p in
  let output := PrepareDataflowReader.Output p in
  let tuningCfg := PrepareDataflowReaderInput.TuningCfg input in
  x <- call (EvUnmarshalDataflowTuningConfig tuningCfg)
            (UnmarshalDataflowTuningConfig env tuningCfg) ;;
  match snd x with
  | Some err =>
      ret (output,
           Some ("error reading reader tuning config " +:+ tuningCfg +:+ ": " +:+ err))
  | None =>
      readerTuningCfg <-
        validateUpdateReaderTuningCfg (fst x)
          (PrepareDataflowReaderInput.SpannerProjectId input)
          (PrepareDataflowReaderInput.SpannerLocation input)
          (PrepareDataflowReaderInput.SmtJobId input) ;;
      let params := Transaction_params input in
      y <- call (EvGetDataflowLaunchRequest params readerTuningCfg)
                (GetDataflowLaunchRequest env params readerTuningCfg) ;;
      match snd y with
      | Some err => ret (output, Some err)
      | None =>
          let dfLaunchReq := fst y in
          let jobId := PrepareDataflowReaderInput.SmtJobId input in
          z <- call (EvCreateDataflowSMTResource jobId dfLaunchReq)
                    (CreateDataflowSMTResource env jobId dfLaunchReq) ;;
          match snd z with
          | Some err => ret (output, Some err)
          | None => ret (PrepareDataflowReaderOutput.mk (fst z), None)
          end
      end
  end.

Definition PrepareDataflowReader_Compensation (p : PrepareDataflowReader.t)
  : M ES (option error) := ret None.

(** *** package activity: the interface the workflow depends on *)

(** [activity.Activity]: a value with the two methods. *)
Record Activity : Type := mkActivity {
  Transaction : M ES (option error);
  Compensation : M ES (option error)
}.

(** The activities of the other files, as interface values. *)
Definition externalActivity (a : ExternalActivity) : Activity :=
  {| Transaction := call (EvExternalTransaction a) (externalTransaction env a);
     Compensation := call (EvExternalCompensation a) (externalCompensation env a) |}.

(** [&rractivity.PrepareChangeStream{...}] as an [activity.Activity];
    [CreateWorkflow] never reads the output cell. *)
Definition activityOfPrepareChangeStream (p : PrepareChangeStream.t) : Activity :=
  {| Transaction := (x <- PrepareChangeStream_Transaction p ;; ret (snd x));
     Compensation := PrepareChangeStream_Compensation p |}.

Definition activityOfPrepareDataflowReader (p : PrepareDataflowReader.t) : Activity :=
  {| Transaction := (x <- PrepareDataflowReader_Transaction p ;; ret (snd x));
     Compensation := PrepareDataflowReader_Compensation p |}.

(** *** create.go, [CreateWorkflow] *)

Definition liftE {A} (m : M ES A) : M OS A :=
  zoom ext (fun e s => mkOrch e (steps s) (heap s)) m.

Definition step (x : Step) : M OS unit :=
  fun s => (Ret tt, mkOrch (ext s) (steps s ++ [x]) (heap s)).

(** A [JobData] variable comes into being at an unused address. *)
Definition alloc (v : JobData.t) : M OS addr :=
  fun s =>
    let p := fresh (dom (heap s)) in
    (Ret p, mkOrch (ext s) (steps s) (<[p := v]> (heap s))).

Definition load (p : addr) : M OS JobData.t :=
  fun s =>
    match heap s !! p with
    | Some v => (Ret v, s)
    | None => (Panic "invalid memory address or nil pointer dereference", s)
    end.

Definition store (p : addr) (v : JobData.t) : M OS unit :=
  fun s => (Ret tt, mkOrch (ext s) (steps s) (<[p := v]> (heap s))).

(** The call [validateAndUpdateJobData(ctx, &request, uuid)]: the callee
    works on the variable at address [request]. *)
Definition validateAndUpdateJobData_at (request : addr) (uuid : string)
  : M OS (option error) :=
  r <- load request ;;
  x <- liftE (validateAndUpdateJobData r uuid) ;;
  store request (fst x) ;;;
  ret (snd x).

(** Lines 232-242: [for i, activity := range activities], from index
    [i] on.  The rollback loop in the body is commented out in the
    source; nothing of it runs. *)
Fixpoint CreateWorkflow_loop (i : nat) (activities : list Activity)
  : M OS (option error) :=
  match activities with
  | [] => ret None
  | activity :: rest =>
      step (InvokeTransaction i) ;;;
      err <- liftE (Transaction activity) ;;
      match err with
      | Some err =>
          ret (Some ("error executing activity #" +:+ fmt_d i +:+ ": " +:+ err))
      | None => CreateWorkflow_loop (S i) rest
      end
  end.

(** Lines 143-231: the slice literal. *)
Definition CreateWorkflow_activities (request : JobData.t) (smtJobId jobData : string)
  : list Activity :=
  [ externalActivity (CreateSmtJobEntry
      (CreateSmtJobEntryInput.mk smtJobId (JobData.JobName request)
         (JobData.SpannerProjectId request) (JobData.InstanceId request)
         (JobData.DatabaseId request) jobData));
    externalActivity (PrepareGcsBucket
      (PrepareGcsBucketInput.mk smtJobId (JobData.SmtBucketName request)
         (JobData.SpannerProjectId request) (JobData.SpannerLocation request)
         (JobData.SessionFilePath request) (JobData.SourceConnectionConfig request)
         (JobData.IsSMTBucketRequired request)));
    activityOfPrepareChangeStream
      (PrepareChangeStream.mk
         (PrepareChangeStreamInput.mk smtJobId (JobData.ChangeStreamName request)
            ("projects/" +:+ JobData.SpannerProjectId request +:+ "/instances/"
               +:+ JobData.InstanceId request +:+ "/databases/"
               +:+ JobData.DatabaseId request))
         PrepareChangeStreamOutput.zero);
    externalActivity (PrepareMetadataDb
      (PrepareMetadataDbInput.mk smtJobId
         ("projects/" +:+ JobData.SpannerProjectId request +:+ "/instances/"
            +:+ JobData.MetadataInstance request +:+ "/databases/"
            +:+ JobData.MetadataDatabase request)));
    activityOfPrepareDataflowReader
      (PrepareDataflowReader.mk
         {| PrepareDataflowReaderInput.SmtJobId := smtJobId;
            PrepareDataflowReaderInput.ChangeStreamName := JobData.ChangeStreamName request;
            PrepareDataflowReaderInput.InstanceId := JobData.InstanceId request;
            PrepareDataflowReaderInput.DatabaseId := JobData.DatabaseId request;
            PrepareDataflowReaderInput.SpannerProjectId := JobData.SpannerProjectId request;
            PrepareDataflowReaderInput.SessionFilePath := JobData.SessionFileGcsPath request;
            PrepareDataflowReaderInput.SourceShardsFilePath :=
              JobData.SourceConnectionConfigGcsPath request;
            PrepareDataflowReaderInput.MetadataInstance := JobData.MetadataInstance request;
            PrepareDataflowReaderInput.MetadataDatabase := JobData.MetadataDatabase request;
            PrepareDataflowReaderInput.GcsOutputDirectory := JobData.GcsDataDirectory request;
            PrepareDataflowReaderInput.StartTimestamp := JobData.StartTimestamp request;
            PrepareDataflowReaderInput.EndTimestamp := JobData.EndTimestamp request;
            PrepareDataflowReaderInput.WindowDuration := JobData.WindowDuration request;
            PrepareDataflowReaderInput.FiltrationMode := JobData.FiltrationMode request;
            PrepareDataflowReaderInput.MetadataTableSuffix := JobData.MetadataTableSuffix request;
            PrepareDataflowReaderInput.SkipDirectoryName := JobData.SkipDirectoryName request;
            PrepareDataflowReaderInput.ShardingCustomJarPath :=
              JobData.ShardingCustomJarPath request;
            PrepareDataflowReaderInput.ShardingCustomClassName :=
              JobData.ShardingCustomClassName request;
            PrepareDataflowReaderInput.TuningCfg := JobData.ReaderCfg request;
            PrepareDataflowReaderInput.SpannerLocation := JobData.SpannerLocation request |}
         PrepareDataflowReaderOutput.zero);
    externalActivity (PrepareDataflowWriter
      {| PrepareDataflowWriterInput.SmtJobId := smtJobId;
         PrepareDataflowWriterInput.SourceShardsFilePath :=
           JobData.SourceConnectionConfigGcsPath request;
         PrepareDataflowWriterInput.SessionFilePath := JobData.SessionFileGcsPath request;
         PrepareDataflowWriterInput.SourceType := JobData.SourceType request;
         PrepareDataflowWriterInput.SourceDbTimezoneOffset :=
           JobData.SourceDbTimezoneOffset request;
         PrepareDataflowWriterInput.TimerInterval := JobData.TimerInterval request;
         PrepareDataflowWriterInput.StartTimestamp := JobData.StartTimestamp request;
         PrepareDataflowWriterInput.WindowDuration := JobData.WindowDuration request;
         PrepareDataflowWriterInput.GCSInputDirectoryPath := JobData.GcsDataDirectory request;
         PrepareDataflowWriterInput.SpannerProjectId := JobData.SpannerProjectId request;
         PrepareDataflowWriterInput.MetadataInstance := JobData.MetadataInstance request;
         PrepareDataflowWriterInput.MetadataDatabase := JobData.MetadataDatabase request;
         PrepareDataflowWriterInput.MetadataTableSuffix := JobData.MetadataTableSuffix request;
         PrepareDataflowWriterInput.TuningCfg := JobData.WriterCfg request;
         PrepareDataflowWriterInput.SpannerLocation := JobData.SpannerLocation request |});
    externalActivity (UpdateSmtJobEntry (UpdateSmtJobEntryInput.mk smtJobId "RUNNING")) ].

(** [CreateWorkflow(ctx, request)].  [request] is passed by value: the
    parameter is a variable of the callee, initialised with a copy of the
    argument; its address is taken at line 122. *)
Definition CreateWorkflow (request : JobData.t) : M OS (option error) :=
  request <- alloc request ;;
  uuid <- liftE hashStr ;;
  err <- validateAndUpdateJobData_at request uuid ;;
  match err with
  | Some err => ret (Some ("error in validateCreateRequest: " +:+ err))
  | None =>
      r <- load request ;;
      (* Check or create the internal metadata database for all flows. *)
      liftE (call (EvCheckOrCreateMetadataDb (JobData.SpannerProjectId r) (JobData.InstanceId r))
               (fun w => (tt, CheckOrCreateMetadataDb env (JobData.SpannerProjectId r)
                                (JobData.InstanceId r) w))) ;;;
      let smtMetadataDBURI :=
        GetSpannerUri env (JobData.SpannerProjectId r) (JobData.InstanceId r) in
      err <- liftE (call (EvGetOrCreateClient smtMetadataDBURI)
                      (GetOrCreateClient env smtMetadataDBURI)) ;;
      match err with
      | Some err => ret (Some ("error starting dao client: " +:+ err))
      | None =>
          let smtJobId := "smt-job-" +:+ uuid in
          r <- load request ;;
          match jsonMarshal env r with
          | (_, Some err) =>
              ret (Some ("error converting job data to string: " +:+ err))
          | (jobData, None) =>
              let activities := CreateWorkflow_activities r smtJobId jobData in
              step (BuildActivities (length activities)) ;;;
              CreateWorkflow_loop 0 activities
          end
      end
  end.

(** A caller that holds its request in the variable at [caller] and
    calls [CreateWorkflow(ctx, *caller)]. *)
Definition callCreateWorkflow (caller : addr) : M OS (option error) :=
  r <- load caller ;;
  CreateWorkflow r.
End Code.

(** ** Vocabulary of the specification *)

(** The five required request fields, each with the name the validation
    message uses for it. *)
Definition requiredFields (request : JobData.t) : list (string * string) :=
  [ ("InstanceId", JobData.InstanceId request);
    ("DatabaseId", JobData.DatabaseId request);
    ("SessionFilePath", JobData.SessionFilePath request);
    ("SourceConnectionConfig", JobData.SourceConnectionConfig request);
    ("SpannerProjectId", JobData.SpannerProjectId request) ].

(** The message [validateAndUpdateJobData] gives for an empty required
    field. *)
Definition missingFieldError (field : string) : error :=
  "found empty " +:+ field +:+ " which is a required parameter".

(** Both descriptions are already hosted under [gs://] and a staging data
    directory is supplied. *)
Definition alreadyStaged (request : JobData.t) : bool :=
  HasPrefix (JobData.SessionFilePath request) constants.GCS_FILE_PREFIX
  && HasPrefix (JobData.SourceConnectionConfig request) constants.GCS_FILE_PREFIX
  && negb (isEmpty (JobData.GcsDataDirectory request)).

(** A value "of the form <prefix>-<run-id>". *)
Definition prefixRunIdForm (uuid v : string) : Prop :=
  exists prefix : string, v = prefix +:+ "-" +:+ uuid.

(** The fixed keys of the reader's launch parameters with the values the
    map literal gives them. *)
Definition fixedReaderParams {World LaunchRequest} (env : Env World LaunchRequest)
    (input : PrepareDataflowReaderInput.t) : list (string * string) :=
  [ ("changeStreamName", PrepareDataflowReaderInput.ChangeStreamName input);
    ("instanceId", PrepareDataflowReaderInput.InstanceId input);
    ("databaseId", PrepareDataflowReaderInput.DatabaseId input);
    ("spannerProjectId", PrepareDataflowReaderInput.SpannerProjectId input);
    ("metadataInstance", PrepareDataflowReaderInput.MetadataInstance input);
    ("metadataDatabase", PrepareDataflowReaderInput.MetadataDatabase input);
    ("gcsOutputDirectory", PrepareDataflowReaderInput.GcsOutputDirectory input);
    ("sessionFilePath", PrepareDataflowReaderInput.SessionFilePath input);
    ("sourceShardsFilePath", PrepareDataflowReaderInput.SourceShardsFilePath input);
    ("endTimestamp", PrepareDataflowReaderInput.EndTimestamp input);
    ("windowDuration", PrepareDataflowReaderInput.WindowDuration input);
    ("filtrationMode", PrepareDataflowReaderInput.FiltrationMode input);
    ("metadataTableSuffix", PrepareDataflowReaderInput.MetadataTableSuffix input);
    ("skipDirectoryName", PrepareDataflowReaderInput.SkipDirectoryName input);
    ("startTimestamp", PrepareDataflowReaderInput.StartTimestamp input);
    ("runIdentifier", PrepareDataflowReaderInput.SmtJobId input);
    ("runMode", RR_READER_REGULAR_MODE env) ].

(** The indices whose [Transaction] resp. [Compensation] was invoked, in
    order of invocation. *)
Definition transactionsInvoked (l : list Step) : list nat :=
  flat_map (fun s => match s with InvokeTransaction i => [i] | _ => [] end) l.

Definition compensationsInvoked (l : list Step) : list nat :=
  flat_map (fun s => match s with InvokeCompensation i => [i] | _ => [] end) l.

(** ** Concrete runs *)

(** A small world for running the code: the world is a journal of the
    effects that took place, the resource managers answer from a fixed
    setup. *)
Module Scenario.
Definition World : Type := list string.
Definition LaunchRequest : Type := gmap string string.

Record Setup : Type := mkSetup {
  hash : string;                           (* what GenerateHashStr returns *)
  csExists : bool;                         (* does the change stream exist *)
  csOptions : option error;                (* ValidateChangeStreamOptions *)
  tuning : DataflowTuningConfig.t;         (* the unmarshalled tuning blob *)
  failing : ExternalActivity -> option error
}.

Definition env (s : Setup) : Env World LaunchRequest :=
  {| RR_READER_FILTER_FWD := "forward_migration";
     RR_READER_FILTER_NONE := "none";
     RR_READER_REGULAR_MODE := "regular";
     REVERSE_REPLICATION_READER_TEMPLATE_PATH := "gs://templates/reader";
     GenerateHashStr := fun w => (hash s, w);
     GetSpannerUri := fun p i => "projects/" +:+ p +:+ "/instances/" +:+ i;
     jsonMarshal := fun r => ("{}", None);
     GetSpannerLeaderLocation := fun _ w => (("us-central1", None), w);
     CheckIfChangeStreamExists := fun _ _ w => ((csExists s, None), w);
     ValidateChangeStreamOptions := fun _ _ w => (csOptions s, w);
     CheckOrCreateMetadataDb := fun _ _ w => w;
     GetOrCreateClient := fun _ w => (None, w);
     CreateChangeStreamSMTResource :=
       fun _ name _ w => (None, (w ++ ["created change stream " +:+ name])%list);
     CreateDataflowSMTResource :=
       fun jobId _ w => (("df-" +:+ jobId, None), (w ++ ["launched " +:+ jobId])%list);
     UnmarshalDataflowTuningConfig := fun _ w => ((tuning s, None), w);
     GetDataflowLaunchRequest := fun params _ w => ((params, None), w);
     externalTransaction := fun a w => (failing s a, w);
     externalCompensation := fun _ w => (None, w) |}.

(** A tuning blob that sets the label map. *)
Definition labelledTuning : DataflowTuningConfig.t :=
  DataflowTuningConfig.set_AdditionalUserLabels (Some ∅) DataflowTuningConfig.zero.

Definition setup : Setup := mkSetup "abc" false None labelledTuning (fun _ => None).

(** A request that gives the three places of its descriptions and data,
    the target, and the sharding plugin, and nothing else. *)
Definition mkRequest
    (session source directory instance database project jar class : string)
  : JobData.t :=
  {| JobData.IsSMTBucketRequired := false; JobData.SmtBucketName := "";
     JobData.SessionFilePath := session;
     JobData.SourceConnectionConfig := source;
     JobData.GcsDataDirectory := directory; JobData.InstanceId := instance;
     JobData.DatabaseId := database; JobData.SessionFileGcsPath := "";
     JobData.SourceConnectionConfigGcsPath := ""; JobData.SpannerProjectId := project;
     JobData.JobName := ""; JobData.SourceType := ""; JobData.MetadataInstance := "";
     JobData.MetadataDatabase := ""; JobData.ChangeStreamName := "";
     JobData.FiltrationMode := ""; JobData.TimerInterval := 0;
     JobData.WindowDuration := ""; JobData.ShardingCustomJarPath := jar;
     JobData.ShardingCustomClassName := class; JobData.SpannerLocation := "";
     JobData.StartTimestamp := ""; JobData.EndTimestamp := "";
     JobData.MetadataTableSuffix := ""; JobData.SkipDirectoryName := "";
     JobData.ReaderCfg := ""; JobData.WriterCfg := "";
     JobData.SourceDbTimezoneOffset := "" |}.

(** A request naming only what has no default. *)
Definition request : JobData.t :=
  mkRequest "session.json" "gs://cfg/source.json" "" "inst-1" "db-1" "p1" "" "".

(** The same without a target database. *)
Definition requestNoDatabase : JobData.t :=
  mkRequest "session.json" "gs://cfg/source.json" "" "inst-1" "" "p1" "" "".

(** The same with a local staging data directory. *)
Definition requestBadDirectory : JobData.t :=
  mkRequest "session.json" "gs://cfg/source.json" "/tmp/data" "inst-1" "db-1" "p1" "" "".

(** Both descriptions hosted and a staging data directory given. *)
Definition requestStaged : JobData.t :=
  mkRequest "gs://cfg/session.json" "gs://cfg/source.json" "gs://data/rr"
    "inst-1" "db-1" "p1" "" "".

(** Setups: a tuning blob without labels; a stream that exists with wrong
    options; a stream that exists with the right ones. *)
Definition setupNoLabels : Setup :=
  mkSetup "abc" false None DataflowTuningConfig.zero (fun _ => None).
Definition setupWrongOptions : Setup :=
  mkSetup "abc" true (Some "change stream options do not match") labelledTuning
    (fun _ => None).
Definition setupRightOptions : Setup :=
  mkSetup "abc" true None labelledTuning (fun _ => None).

Definition changeStream : PrepareChangeStream.t :=
  PrepareChangeStream.mk
    (PrepareChangeStreamInput.mk "smt-job-abc" "smt_rr_cs_abc"
       "projects/p1/instances/inst-1/databases/db-1")
    PrepareChangeStreamOutput.zero.

(** A reader with a sharding plugin, and one without. *)
Definition readerInput (jar class : string) : PrepareDataflowReaderInput.t :=
  {| PrepareDataflowReaderInput.SmtJobId := "smt-job-abc";
     PrepareDataflowReaderInput.ChangeStreamName := "smt_rr_cs_abc";
     PrepareDataflowReaderInput.InstanceId := "inst-1";
     PrepareDataflowReaderInput.DatabaseId := "db-1";
     PrepareDataflowReaderInput.SpannerProjectId := "p1";
     PrepareDataflowReaderInput.SessionFilePath := "gs://cfg/session.json";
     PrepareDataflowReaderInput.SourceShardsFilePath := "gs://cfg/source.json";
     PrepareDataflowReaderInput.MetadataInstance := "inst-1";
     PrepareDataflowReaderInput.MetadataDatabase := "smt-rr-metadata-abc";
     PrepareDataflowReaderInput.GcsOutputDirectory := "gs://data/rr";
     PrepareDataflowReaderInput.StartTimestamp := "";
     PrepareDataflowReaderInput.EndTimestamp := "";
     PrepareDataflowReaderInput.WindowDuration := "10s";
     PrepareDataflowReaderInput.FiltrationMode := "forward_migration";
     PrepareDataflowReaderInput.MetadataTableSuffix := "";
     PrepareDataflowReaderInput.SkipDirectoryName := "";
     PrepareDataflowReaderInput.ShardingCustomJarPath := jar;
     PrepareDataflowReaderInput.ShardingCustomClassName := class;
     PrepareDataflowReaderInput.TuningCfg := "";
     PrepareDataflowReaderInput.SpannerLocation := "us-central1" |}.

Definition reader (jar class : string) : PrepareDataflowReader.t :=
  PrepareDataflowReader.mk (readerInput jar class) PrepareDataflowReaderOutput.zero.

Definition es0 : ExtState World LaunchRequest := mkExt [] [].
Definition os0 : OrchState World LaunchRequest := mkOrch es0 [] ∅.

(** A caller that holds [request] in the variable at address 1. *)
Definition callerState : OrchState World LaunchRequest :=
  mkOrch es0 [] {[ 1%positive := request ]}.

(** Seven activities that only write the journal: the [n]-th (counted
    from 1) appends [T<n>] when its [Transaction] runs and [C<n>] when its
    [Compensation] runs; the one numbered [bad] fails with [boom]. *)
Definition journalling (bad n : nat) : @Activity World LaunchRequest :=
  {| Transaction := fun s =>
       (Ret (if Nat.eqb n bad then Some "boom" else None),
        mkExt (world s ++ ["T" +:+ fmt_d n])%list (events s));
     Compensation := fun s =>
       (Ret None, mkExt (world s ++ ["C" +:+ fmt_d n])%list (events s)) |}.

Definition sevenActivities (bad : nat) : list (@Activity World LaunchRequest) :=
  map (journalling bad) [1; 2; 3; 4; 5; 6; 7]%nat.
End Scenario.

(** ** Summaries of the normaliser *)

(** The conjunction of the checks [validateAndUpdateJobData] makes before
    its last statement, each written on the request as it is at entry. *)
Definition passesChecks {World LaunchRequest} (env : Env World LaunchRequest)
    (request : JobData.t) : bool :=
  negb (isEmpty (JobData.InstanceId request))
  && negb (isEmpty (JobData.DatabaseId request))
  && negb (isEmpty (JobData.SessionFilePath request))
  && negb (isEmpty (JobData.SourceConnectionConfig request))
  && negb (isEmpty (JobData.SpannerProjectId request))
  && (isEmpty (JobData.SourceType request)
      || String.eqb (JobData.SourceType request) constants.MYSQL)
  && (isEmpty (JobData.GcsDataDirectory request)
      || HasPrefix (JobData.GcsDataDirectory request) constants.GCS_FILE_PREFIX)
  && (isEmpty (JobData.FiltrationMode request)
      || Contains [RR_READER_FILTER_FWD env; RR_READER_FILTER_NONE env]
                  (JobData.FiltrationMode request))
  && Bool.eqb (isEmpty (JobData.ShardingCustomJarPath request))
              (isEmpty (JobData.ShardingCustomClassName request))
  && (isEmpty (JobData.ShardingCustomJarPath request)
      || HasPrefix (JobData.ShardingCustomJarPath request) constants.GCS_FILE_PREFIX).

(** The argument of the leader-location lookup at line 109. *)
Definition instanceUri (request : JobData.t) : string :=
  "projects/" +:+ JobData.SpannerProjectId request
  +:+ "/instances/" +:+ JobData.InstanceId request.

(** The request as the assignments of lines 33-109 leave it when no check
    returns, with [loc] the location the lookup gave. *)
Definition normalized {World LaunchRequest} (env : Env World LaunchRequest)
    (request : JobData.t) (uuid loc : string) : JobData.t :=
  let bucket := if alreadyStaged request then "" else "smt-rr-gcs-" +:+ uuid in
  {| JobData.IsSMTBucketRequired := negb (alreadyStaged request);
     JobData.SmtBucketName := bucket;
     JobData.SessionFilePath := JobData.SessionFilePath request;
     JobData.SourceConnectionConfig := JobData.SourceConnectionConfig request;
     JobData.GcsDataDirectory :=
       if isEmpty (JobData.GcsDataDirectory request)
       then "gs://smt-rr-gcs-" +:+ uuid +:+ "/reverse-replication/data"
       else JobData.GcsDataDirectory request;
     JobData.InstanceId := JobData.InstanceId request;
     JobData.DatabaseId := JobData.DatabaseId request;
     JobData.SessionFileGcsPath :=
       if HasPrefix (JobData.SessionFilePath request) constants.GCS_FILE_PREFIX
       then JobData.SessionFilePath request
       else constants.GCS_FILE_PREFIX +:+ bucket +:+ "/session.json";
     JobData.SourceConnectionConfigGcsPath :=
       if HasPrefix (JobData.SourceConnectionConfig request) constants.GCS_FILE_PREFIX
       then JobData.SourceConnectionConfig request
       else constants.GCS_FILE_PREFIX +:+ bucket +:+ "/source-connection-config.json";
     JobData.SpannerProjectId := JobData.SpannerProjectId request;
     JobData.JobName :=
       if isEmpty (JobData.JobName request)
       then "smt-job-" +:+ uuid else JobData.JobName request;
     JobData.SourceType :=
       if isEmpty (JobData.SourceType request)
       then constants.MYSQL else JobData.SourceType request;
     JobData.MetadataInstance :=
       if isEmpty (JobData.MetadataInstance request)
       then JobData.InstanceId request else JobData.MetadataInstance request;
     JobData.MetadataDatabase :=
       if isEmpty (JobData.MetadataDatabase request)
       then "smt-rr-metadata-" +:+ uuid else JobData.MetadataDatabase request;
     JobData.ChangeStreamName :=
       ReplaceByte "-" "_"
         (if isEmpty (JobData.ChangeStreamName request)
          then "smt-rr-cs-" +:+ uuid else JobData.ChangeStreamName request);
     JobData.FiltrationMode :=
       if isEmpty (JobData.FiltrationMode request)
       then RR_READER_FILTER_FWD env else JobData.FiltrationMode request;
     JobData.TimerInterval :=
       if JobData.TimerInterval request <? 1 then 1 else JobData.TimerInterval request;
     JobData.WindowDuration :=
       if isEmpty (JobData.WindowDuration request)
       then "10s" else JobData.WindowDuration request;
     JobData.ShardingCustomJarPath := JobData.ShardingCustomJarPath request;
     JobData.ShardingCustomClassName := JobData.ShardingCustomClassName request;
     JobData.SpannerLocation := loc;
     JobData.StartTimestamp := JobData.StartTimestamp request;
     JobData.EndTimestamp := JobData.EndTimestamp request;
     JobData.MetadataTableSuffix := JobData.MetadataTableSuffix request;
     JobData.SkipDirectoryName := JobData.SkipDirectoryName request;
     JobData.ReaderCfg := JobData.ReaderCfg request;
     JobData.WriterCfg := JobData.WriterCfg request;
     JobData.SourceDbTimezoneOffset := JobData.SourceDbTimezoneOffset request |}.

(** The checks of [validateAndUpdateJobData] in the order the body makes
    them, each with its message, written on the request as it is at
    entry: the message of the first check that fails, if any does. *)
Definition failedCheck {World LaunchRequest} (env : Env World LaunchRequest)
    (request : JobData.t) : option error :=
  if isEmpty (JobData.InstanceId request) then
    Some "found empty InstanceId which is a required parameter"
  else if isEmpty (JobData.DatabaseId request) then
    Some "found empty DatabaseId which is a required parameter"
  else if isEmpty (JobData.SessionFilePath request) then
    Some "found empty SessionFilePath which is a required parameter"
  else if isEmpty (JobData.SourceConnectionConfig request) then
    Some "found empty SourceConnectionConfig which is a required parameter"
  else if isEmpty (JobData.SpannerProjectId request) then
    Some "found empty SpannerProjectId which is a required parameter"
  else if negb (String.eqb
                  (if isEmpty (JobData.SourceType request)
                   then constants.MYSQL else JobData.SourceType request)
                  constants.MYSQL) then
    Some ((if isEmpty (JobData.SourceType request)
           then constants.MYSQL else JobData.SourceType request)
          +:+ " is not a valid source type for reverse replication. Only supported source type is mysql")
  else if negb (isEmpty (JobData.GcsDataDirectory request))
          && negb (HasPrefix (JobData.GcsDataDirectory request) constants.GCS_FILE_PREFIX) then
    Some ("invalid gcs path for GcsDataDirectory: " +:+ JobData.GcsDataDirectory request)
  else if negb (isEmpty (JobData.FiltrationMode request))
          && negb (Contains [RR_READER_FILTER_FWD env; RR_READER_FILTER_NONE env]
                            (JobData.FiltrationMode request)) then
    Some ("found filtrationMode " +:+ JobData.FiltrationMode request
          +:+ ", only allowed values are [" +:+ RR_READER_FILTER_FWD env
          +:+ ", " +:+ RR_READER_FILTER_NONE env +:+ "]")
  else if negb (isEmpty (JobData.ShardingCustomJarPath request))
          && isEmpty (JobData.ShardingCustomClassName request) then
    Some "found non-empty value for ShardingCustomJarPath, but empty value for ShardingCustomClassName"
  else if isEmpty (JobData.ShardingCustomJarPath request)
          && negb (isEmpty (JobData.ShardingCustomClassName request)) then
    Some "found non-empty value for ShardingCustomClassName, but empty value for ShardingCustomJarPath"
  else if negb (isEmpty (JobData.ShardingCustomJarPath request))
          && negb (HasPrefix (JobData.ShardingCustomJarPath request) constants.GCS_FILE_PREFIX) then
    Some "please specify a valid GCS path for ShardingCustomJarPath, starting with gs://"
  else None.


(** ** More requests to run the code on *)
Module Requests.
(** A request with a sharding plugin hosted under [gs://]. *)
Definition sharded : JobData.t :=
  Scenario.mkRequest "session.json" "gs://cfg/source.json" "" "inst-1" "db-1" "p1"
    "gs://plugins/shard.jar" "com.example.Shard".

(** The same with the plugin on the local disk. *)
Definition shardedLocal : JobData.t :=
  Scenario.mkRequest "session.json" "gs://cfg/source.json" "" "inst-1" "db-1" "p1"
    "/opt/shard.jar" "com.example.Shard".

(** A request for another kind of source database. *)
Definition postgres : JobData.t :=
  JobData.set_SourceType "postgres" Scenario.request.

(** A request with a filtration mode that does not exist. *)
Definition filtered : JobData.t :=
  JobData.set_FiltrationMode "backward" Scenario.request.


(** Both descriptions hosted, no staging data directory. *)
Definition hosted : JobData.t :=
  Scenario.mkRequest "gs://cfg/session.json" "gs://cfg/source.json" ""
    "inst-1" "db-1" "p1" "" "".
(** A request that names its change stream, with hyphens. *)
Definition named : JobData.t :=
  JobData.set_ChangeStreamName "a-b-c" Scenario.request.
End Requests.


(** ** The activities of a run, as data *)

(** The three kinds of activity [CreateWorkflow] puts in its slice, each
    with the struct the slice literal builds for it. *)
Inductive ActivityDesc : Type :=
| DExternal (a : ExternalActivity)
| DChangeStream (p : PrepareChangeStream.t)
| DReader (p : PrepareDataflowReader.t).

(** The interface value of a described activity. *)
Definition activityOf {World LaunchRequest} (env : Env World LaunchRequest)
    (d : ActivityDesc) : @Activity World LaunchRequest :=
  match d with
  | DExternal a => externalActivity env a
  | DChangeStream p => activityOfPrepareChangeStream env p
  | DReader p => activityOfPrepareDataflowReader env p
  end.

(** The slice literal of lines 143-231 as descriptions: the elements of
    [CreateWorkflow_activities] before they are made interface values. *)
Definition CreateWorkflow_descs (request : JobData.t) (smtJobId jobData : string)
  : list ActivityDesc :=
  [ DExternal (CreateSmtJobEntry
      (CreateSmtJobEntryInput.mk smtJobId (JobData.JobName request)
         (JobData.SpannerProjectId request) (JobData.InstanceId request)
         (JobData.DatabaseId request) jobData));
    DExternal (PrepareGcsBucket
      (PrepareGcsBucketInput.mk smtJobId (JobData.SmtBucketName request)
         (JobData.SpannerProjectId request) (JobData.SpannerLocation request)
         (JobData.SessionFilePath request) (JobData.SourceConnectionConfig request)
         (JobData.IsSMTBucketRequired request)));
    DChangeStream
      (PrepareChangeStream.mk
         (PrepareChangeStreamInput.mk smtJobId (JobData.ChangeStreamName request)
            ("projects/" +:+ JobData.SpannerProjectId request +:+ "/instances/"
               +:+ JobData.InstanceId request +:+ "/databases/"
               +:+ JobData.DatabaseId request))
         PrepareChangeStreamOutput.zero);
    DExternal (PrepareMetadataDb
      (PrepareMetadataDbInput.mk smtJobId
         ("projects/" +:+ JobData.SpannerProjectId request +:+ "/instances/"
            +:+ JobData.MetadataInstance request +:+ "/databases/"
            +:+ JobData.MetadataDatabase request)));
    DReader
      (PrepareDataflowReader.mk
         {| PrepareDataflowReaderInput.SmtJobId := smtJobId;
            PrepareDataflowReaderInput.ChangeStreamName := JobData.ChangeStreamName request;
            PrepareDataflowReaderInput.InstanceId := JobData.InstanceId request;
            PrepareDataflowReaderInput.DatabaseId := JobData.DatabaseId request;
            PrepareDataflowReaderInput.SpannerProjectId := JobData.SpannerProjectId request;
            PrepareDataflowReaderInput.SessionFilePath := JobData.SessionFileGcsPath request;
            PrepareDataflowReaderInput.SourceShardsFilePath :=
              JobData.SourceConnectionConfigGcsPath request;
            PrepareDataflowReaderInput.MetadataInstance := JobData.MetadataInstance request;
            PrepareDataflowReaderInput.MetadataDatabase := JobData.MetadataDatabase request;
            PrepareDataflowReaderInput.GcsOutputDirectory := JobData.GcsDataDirectory request;
            PrepareDataflowReaderInput.StartTimestamp := JobData.StartTimestamp request;
            PrepareDataflowReaderInput.EndTimestamp := JobData.EndTimestamp request;
            PrepareDataflowReaderInput.WindowDuration := JobData.WindowDuration request;
            PrepareDataflowReaderInput.FiltrationMode := JobData.FiltrationMode request;
            PrepareDataflowReaderInput.MetadataTableSuffix := JobData.MetadataTableSuffix request;
            PrepareDataflowReaderInput.SkipDirectoryName := JobData.SkipDirectoryName request;
            PrepareDataflowReaderInput.ShardingCustomJarPath :=
              JobData.ShardingCustomJarPath request;
            PrepareDataflowReaderInput.ShardingCustomClassName :=
              JobData.ShardingCustomClassName request;
            PrepareDataflowReaderInput.TuningCfg := JobData.ReaderCfg request;
            PrepareDataflowReaderInput.SpannerLocation := JobData.SpannerLocation request |}
         PrepareDataflowReaderOutput.zero);
    DExternal (PrepareDataflowWriter
      {| PrepareDataflowWriterInput.SmtJobId := smtJobId;
         PrepareDataflowWriterInput.SourceShardsFilePath :=
           JobData.SourceConnectionConfigGcsPath request;
         PrepareDataflowWriterInput.SessionFilePath := JobData.SessionFileGcsPath request;
         PrepareDataflowWriterInput.SourceType := JobData.SourceType request;
         PrepareDataflowWriterInput.SourceDbTimezoneOffset :=
           JobData.SourceDbTimezoneOffset request;
         PrepareDataflowWriterInput.TimerInterval := JobData.TimerInterval request;
         PrepareDataflowWriterInput.StartTimestamp := JobData.StartTimestamp request;
         PrepareDataflowWriterInput.WindowDuration := JobData.WindowDuration request;
         PrepareDataflowWriterInput.GCSInputDirectoryPath := JobData.GcsDataDirectory request;
         PrepareDataflowWriterInput.SpannerProjectId := JobData.SpannerProjectId request;
         PrepareDataflowWriterInput.MetadataInstance := JobData.MetadataInstance request;
         PrepareDataflowWriterInput.MetadataDatabase := JobData.MetadataDatabase request;
         PrepareDataflowWriterInput.MetadataTableSuffix := JobData.MetadataTableSuffix request;
         PrepareDataflowWriterInput.TuningCfg := JobData.WriterCfg request;
         PrepareDataflowWriterInput.SpannerLocation := JobData.SpannerLocation request |});
    DExternal (UpdateSmtJobEntry (UpdateSmtJobEntryInput.mk smtJobId "RUNNING")) ].

(** The calls a described activity can make from its [Transaction]. *)
Definition eventOf {World LaunchRequest} (env : Env World LaunchRequest)
    (d : ActivityDesc) (ev : ExtEvent LaunchRequest) : Prop :=
  match d with
  | DExternal a => ev = EvExternalTransaction a
  | DChangeStream p =>
      let input := PrepareChangeStream.Input p in
      let name := PrepareChangeStreamInput.ChangeStreamName input in
      let dbURI := PrepareChangeStreamInput.DbURI input in
      ev = EvCheckIfChangeStreamExists name dbURI
      \/ ev = EvValidateChangeStreamOptions name dbURI
      \/ ev = EvCreateChangeStreamSMTResource
                (PrepareChangeStreamInput.SmtJobId input) name dbURI
  | DReader p =>
      let input := PrepareDataflowReader.Input p in
      ev = EvUnmarshalDataflowTuningConfig (PrepareDataflowReaderInput.TuningCfg input)
      \/ (exists cfg, ev = EvGetDataflowLaunchRequest (Transaction_params env input) cfg)
      \/ (exists req,
            ev = EvCreateDataflowSMTResource
                   (PrepareDataflowReaderInput.SmtJobId input) req)
  end.

(** The prefix of a trace that [CreateWorkflow] itself adds before it
    enters the loop, for a request that passed normalisation. *)
Definition preamble {World LaunchRequest} (env : Env World LaunchRequest)
    (request : JobData.t) : list (ExtEvent LaunchRequest) :=
  [ EvGetSpannerLeaderLocation (instanceUri request);
    EvCheckOrCreateMetadataDb (JobData.SpannerProjectId request) (JobData.InstanceId request);
    EvGetOrCreateClient
      (GetSpannerUri env (JobData.SpannerProjectId request) (JobData.InstanceId request)) ].


(** What a call made during a run of [CreateWorkflow] on [request] with
    run identifier [uuid] carries, by kind of call. *)
Definition handedOver {World LaunchRequest} (env : Env World LaunchRequest)
    (request : JobData.t) (uuid : string) (ev : ExtEvent LaunchRequest) : Prop :=
  let smtJobId := "smt-job-" +:+ uuid in
  let dbURI := "projects/" +:+ JobData.SpannerProjectId request +:+ "/instances/"
               +:+ JobData.InstanceId request +:+ "/databases/"
               +:+ JobData.DatabaseId request in
  match ev with
  | EvGetSpannerLeaderLocation uri => uri = instanceUri request
  | EvCheckOrCreateMetadataDb project instance =>
      project = JobData.SpannerProjectId request /\ instance = JobData.InstanceId request
  | EvGetOrCreateClient uri =>
      uri = GetSpannerUri env (JobData.SpannerProjectId request) (JobData.InstanceId request)
  | EvCheckIfChangeStreamExists name uri
  | EvValidateChangeStreamOptions name uri =>
      ContainsByte "-" name = false /\ name <> "" /\ uri = dbURI
  | EvCreateChangeStreamSMTResource jobId name uri =>
      jobId = smtJobId /\ ContainsByte "-" name = false /\ name <> "" /\ uri = dbURI
  | EvUnmarshalDataflowTuningConfig path => path = JobData.ReaderCfg request
  | EvGetDataflowLaunchRequest params _ => params !! "runIdentifier" = Some smtJobId
  | EvCreateDataflowSMTResource jobId _ => jobId = smtJobId
  | EvExternalTransaction (CreateSmtJobEntry input) =>
      CreateSmtJobEntryInput.SmtJobId input = smtJobId
      /\ CreateSmtJobEntryInput.JobName input
         = (if isEmpty (JobData.JobName request) then smtJobId else JobData.JobName request)
      /\ CreateSmtJobEntryInput.SpannerProjectId input = JobData.SpannerProjectId request
      /\ CreateSmtJobEntryInput.InstanceId input = JobData.InstanceId request
      /\ CreateSmtJobEntryInput.DatabaseId input = JobData.DatabaseId request
  | EvExternalTransaction (PrepareGcsBucket input) =>
      PrepareGcsBucketInput.SmtJobId input = smtJobId
      /\ PrepareGcsBucketInput.IsSMTBucketRequired input = negb (alreadyStaged request)
      /\ PrepareGcsBucketInput.SmtBucketName input
         = (if alreadyStaged request then "" else "smt-rr-gcs-" +:+ uuid)
      /\ PrepareGcsBucketInput.SessionFilePath input = JobData.SessionFilePath request
      /\ PrepareGcsBucketInput.SourceConnectionConfig input
         = JobData.SourceConnectionConfig request
  | EvExternalTransaction (PrepareMetadataDb input) =>
      PrepareMetadataDbInput.SmtJobId input = smtJobId
      /\ PrepareMetadataDbInput.DbURI input
         = "projects/" +:+ JobData.SpannerProjectId request +:+ "/instances/"
           +:+ (if isEmpty (JobData.MetadataInstance request)
                then JobData.InstanceId request else JobData.MetadataInstance request)
           +:+ "/databases/"
           +:+ (if isEmpty (JobData.MetadataDatabase request)
                then "smt-rr-metadata-" +:+ uuid else JobData.MetadataDatabase request)
  | EvExternalTransaction (PrepareDataflowWriter input) =>
      PrepareDataflowWriterInput.SmtJobId input = smtJobId
      /\ PrepareDataflowWriterInput.SourceType input = constants.MYSQL
      /\ 1 <= PrepareDataflowWriterInput.TimerInterval input
      /\ PrepareDataflowWriterInput.WindowDuration input <> ""
      /\ HasPrefix (PrepareDataflowWriterInput.SessionFilePath input)
           constants.GCS_FILE_PREFIX = true
      /\ HasPrefix (PrepareDataflowWriterInput.SourceShardsFilePath input)
           constants.GCS_FILE_PREFIX = true
      /\ HasPrefix (PrepareDataflowWriterInput.GCSInputDirectoryPath input)
           constants.GCS_FILE_PREFIX = true
      /\ PrepareDataflowWriterInput.TuningCfg input = JobData.WriterCfg request
  | EvExternalTransaction (UpdateSmtJobEntry input) =>
      input = UpdateSmtJobEntryInput.mk smtJobId "RUNNING"
  | EvExternalCompensation _ => False
  end.


(** ** Runs in which a call fails *)
Module Failures.
(** The call that fails in a run, if any. *)
Inductive Failure : Type :=
| NoFailure
| LookupFails
| DaoFails
| MarshalFails
| CheckFails
| CreateStreamFails
| ReadTuningFails
| LaunchRequestFails
| CreateJobFails.

Definition fails (f g : Failure) : bool :=
  match f, g with
  | NoFailure, NoFailure | LookupFails, LookupFails | DaoFails, DaoFails
  | MarshalFails, MarshalFails | CheckFails, CheckFails
  | CreateStreamFails, CreateStreamFails | ReadTuningFails, ReadTuningFails
  | LaunchRequestFails, LaunchRequestFails | CreateJobFails, CreateJobFails => true
  | _, _ => false
  end.

(** The world of [Scenario], in which the call [f] returns an error. *)
Definition env (f : Failure) : Env Scenario.World Scenario.LaunchRequest :=
  {| RR_READER_FILTER_FWD := "forward_migration";
     RR_READER_FILTER_NONE := "none";
     RR_READER_REGULAR_MODE := "regular";
     REVERSE_REPLICATION_READER_TEMPLATE_PATH := "gs://templates/reader";
     GenerateHashStr := fun w => ("abc", w);
     GetSpannerUri := fun p i => "projects/" +:+ p +:+ "/instances/" +:+ i;
     jsonMarshal := fun r =>
       if fails f MarshalFails then ("", Some "unsupported value") else ("{}", None);
     GetSpannerLeaderLocation := fun _ w =>
       if fails f LookupFails then (("", Some "instance not found"), w)
       else (("us-central1", None), w);
     CheckIfChangeStreamExists := fun _ _ w =>
       if fails f CheckFails then ((true, Some "permission denied"), w)
       else ((false, None), w);
     ValidateChangeStreamOptions := fun _ _ w => (None, w);
     CheckOrCreateMetadataDb := fun _ _ w => w;
     GetOrCreateClient := fun _ w =>
       if fails f DaoFails then (Some "no credentials", w) else (None, w);
     CreateChangeStreamSMTResource := fun _ name _ w =>
       if fails f CreateStreamFails then (Some "quota exceeded", w)
       else (None, (w ++ ["created change stream " +:+ name])%list);
     CreateDataflowSMTResource := fun jobId _ w =>
       if fails f CreateJobFails then (("", Some "launch refused"), w)
       else (("df-" +:+ jobId, None), (w ++ ["launched " +:+ jobId])%list);
     UnmarshalDataflowTuningConfig := fun _ w =>
       if fails f ReadTuningFails then ((DataflowTuningConfig.zero, Some "no such object"), w)
       else ((Scenario.labelledTuning, None), w);
     GetDataflowLaunchRequest := fun params _ w =>
       if fails f LaunchRequestFails then ((∅, Some "bad template"), w)
       else ((params, None), w);
     externalTransaction := fun _ w => (None, w);
     externalCompensation := fun _ w => (None, w) |}.

(** A tuning config that names its job and its workers, and one with
    experiments of its own. *)
Definition tuned : DataflowTuningConfig.t :=
  DataflowTuningConfig.set_JobName "my-reader"
    (DataflowTuningConfig.set_MaxWorkers 8 Scenario.labelledTuning).

Definition experimental : DataflowTuningConfig.t :=
  DataflowTuningConfig.set_AdditionalExperiments (Some ["enable_prime"])
    Scenario.labelledTuning.
(** A tuning config that brings labels of its own, one of them under
    the key the resolver writes. *)
Definition labels : gmap string string :=
  <["smt-reverse-replication-reader" := "mine"]> (<["team" := "data"]> ∅).

Definition labelled : DataflowTuningConfig.t :=
  DataflowTuningConfig.set_AdditionalUserLabels (Some labels) tuned.
End Failures.

(** Kinds of call, for looking them up in a trace. *)
Definition isLaunchRequest {LaunchRequest} (ev : ExtEvent LaunchRequest) : bool :=
  match ev with
  | EvGetDataflowLaunchRequest _ _ => true
  | _ => false
  end.

Definition isJobEntryUpdate {LaunchRequest} (ev : ExtEvent LaunchRequest) : bool :=
  match ev with
  | EvExternalTransaction (UpdateSmtJobEntry _) => true
  | _ => false
  end.


(** * accessors/dataflow/dataflow_accessor.go *)

Module DataflowAccessor.
(** The calls the two functions make, as the trace records them. *)
Inductive Event (Client Request : Type) : Type :=
| EvGetOrCreateClient
| EvLaunchFlexTemplate (client : Client) (req : Request)
| EvLogError (req : Request)
| EvReadAnyFile (filePath : string).
Arguments EvGetOrCreateClient {Client Request}.
Arguments EvLaunchFlexTemplate {Client Request}.
Arguments EvLogError {Client Request}.
Arguments EvReadAnyFile {Client Request}.

Record State (World Client Request : Type) : Type := mkState {
  world : World;
  events : list (Event Client Request)
}.
Arguments mkState {World Client Request}.
Arguments world {World Client Request}.
Arguments events {World Client Request}.

(** What the functions get from outside.  [jsonUnmarshal s v] is
    [json.Unmarshal([]byte(s), &v)]: what it leaves in [v], which may be
    partly filled in when it fails, and its error. *)
Record Env (World Client Request Response : Type) : Type := mkEnv {
  GetOrCreateClient : World -> (Client * option error) * World;
  clientLaunchFlexTemplate :
    Client -> Request -> World -> (option Response * option error) * World;
  ReadAnyFile : string -> World -> (string * option error) * World;
  jsonUnmarshal :
    string -> DataflowTuningConfig.t -> DataflowTuningConfig.t * option error
}.
Arguments mkEnv {World Client Request Response}.
Arguments GetOrCreateClient {World Client Request Response} _ _.
Arguments clientLaunchFlexTemplate {World Client Request Response} _ _ _ _.
Arguments ReadAnyFile {World Client Request Response} _ _ _.
Arguments jsonUnmarshal {World Client Request Response} _ _ _.

Section Code.
Context {World Client Request Response CallOption : Type}.
Variable env : Env World Client Request Response.
Local Open Scope go_scope.

Definition call {A} (ev : Event Client Request) (f : World -> A * World)
  : M (State World Client Request) A :=
  fun s => let (a, w') := f (world s) in (Ret a, mkState w' (events s ++ [ev])).

(** [DataflowAccessorImpl.LaunchFlexTemplate]; [nil] for the response
    pointer is [None]. *)
Definition LaunchFlexTemplate (req : Request) (opts : list CallOption)
  : M (State World Client Request) (option Response * option error) :=
  x <- call EvGetOrCreateClient (GetOrCreateClient env) ;;
  let dfClient := fst x in
  match snd x with
  | Some err => ret (None, Some err)
  | None =>
      y <- call (EvLaunchFlexTemplate dfClient req)
                (clientLaunchFlexTemplate env dfClient req) ;;
      let respDf := fst y in
      match snd y with
      | Some err =>
          call (EvLogError req) (fun w => (tt, w)) ;;;
          ret (None, Some ("error launching dataflow template: " +:+ err))
      | None => ret (respDf, None)
      end
  end.

(** [UnmarshalDataflowTuningConfig(ctx, filePath)]. *)
Definition UnmarshalDataflowTuningConfig (filePath : string)
  : M (State World Client Request) (DataflowTuningConfig.t * option error) :=
  x <- call (EvReadAnyFile filePath) (ReadAnyFile env filePath) ;;
  let jsonStr := fst x in
  match snd x with
  | Some err => ret (DataflowTuningConfig.zero, Some err)
  | None =>
      tuningCfg <<- DataflowTuningConfig.zero ;;
      let y := jsonUnmarshal env jsonStr tuningCfg in
      tuningCfg <<- fst y ;;
      match snd y with
      | Some err => ret (DataflowTuningConfig.zero, Some err)
      | None => ret (tuningCfg, None)
      end
  end.
End Code.
End DataflowAccessor.


(** * The emulator wrapper *)

Module Emulator.
(** [Options]; a nil [io.Writer] is [None]. *)
Record Options (Writer : Type) : Type := mkOptions {
  EmulatorAddress : string;
  LogEmulatorRequests : bool;
  EmulatorStdout : option Writer;
  EmulatorStderr : option Writer
}.
Arguments mkOptions {Writer}.
Arguments EmulatorAddress {Writer}.
Arguments LogEmulatorRequests {Writer}.
Arguments EmulatorStdout {Writer}.
Arguments EmulatorStderr {Writer}.

(** Where a stream of the subprocess goes. *)
Inductive Stream (Writer : Type) : Type :=
| OsStdout
| OsStderr
| To (w : Writer).
Arguments OsStdout {Writer}.
Arguments OsStderr {Writer}.
Arguments To {Writer}.

Inductive Signal : Type := SIGKILL.

(** [exec.Cmd], the fields the wrapper sets.  [Args] holds the program
    name first, as [exec.Command] fills it; [Process] is nil until the
    command has been started. *)
Record Cmd (Writer Pid : Type) : Type := mkCmd {
  Path : string;
  Args : list string;
  Pdeathsig : option Signal;
  Stdout : option (Stream Writer);
  Stderr : option (Stream Writer);
  Process : option Pid
}.
Arguments mkCmd {Writer Pid}.
Arguments Path {Writer Pid}.
Arguments Args {Writer Pid}.
Arguments Pdeathsig {Writer Pid}.
Arguments Stdout {Writer Pid}.
Arguments Stderr {Writer Pid}.
Arguments Process {Writer Pid}.

(** [exec.Command(name, arg...)] for a [name] that is a path. *)
Definition Command {Writer Pid} (name : string) (arg : list string) : Cmd Writer Pid :=
  mkCmd name (name :: arg) None None None None.

(** [Emulator]; [once] tells whether the [sync.Once] has fired. *)
Record t (Writer Pid : Type) : Type := mk {
  opts : Options Writer;
  hostport : string;
  cmd : option (Cmd Writer Pid);
  once : bool
}.
Arguments mk {Writer Pid}.
Arguments opts {Writer Pid}.
Arguments hostport {Writer Pid}.
Arguments cmd {Writer Pid}.
Arguments once {Writer Pid}.

Inductive DialOption : Type := WithBlock | WithInsecure.

Inductive ClientOption : Type :=
| WithEndpoint (url : string)
| WithoutAuthentication
| WithGRPCDialOption (opt : DialOption).

(** The outcome of [exec.Cmd.Start] and of the iterator's [Next]. *)
Inductive StartResult (Pid : Type) : Type :=
| Started (pid : Pid)
| StartFailed (err : error).
Arguments Started {Pid}.
Arguments StartFailed {Pid}.

Inductive NextResult : Type :=
| Item
| Done
| NextFailed (err : error).

(** What happens outside the wrapper, as the trace records it:
    [EvRelease] is a handle given up, [EvKill] a kill signal sent. *)
Inductive Event (Writer Pid : Type) : Type :=
| EvStat (path : string)
| EvCmdStart (c : Cmd Writer Pid)
| EvRelease (pid : Pid)
| EvKill (pid : Pid)
| EvNewInstanceAdminClient (dialOptions : list ClientOption)
| EvListInstanceConfigs (parent : string)
| EvCancel
| EvPrintf (text : string).
Arguments EvStat {Writer Pid}.
Arguments EvCmdStart {Writer Pid}.
Arguments EvRelease {Writer Pid}.
Arguments EvKill {Writer Pid}.
Arguments EvNewInstanceAdminClient {Writer Pid}.
Arguments EvListInstanceConfigs {Writer Pid}.
Arguments EvCancel {Writer Pid}.
Arguments EvPrintf {Writer Pid}.

(** The operating system and the emulator's admin service.
    [statNotExist path] is [os.IsNotExist(err)] for the error of
    [os.Stat(path)]. *)
Record Env (World Writer Pid Admin : Type) : Type := mkEnv {
  filepathAbs : string -> World -> string * option error;
  statNotExist : string -> World -> bool;
  cmdStart : Cmd Writer Pid -> World -> StartResult Pid * World;
  processRelease : Pid -> World -> World;
  processKill : Pid -> World -> World;
  NewInstanceAdminClient : list ClientOption -> World -> (Admin * option error) * World;
  ListInstanceConfigsNext : Admin -> string -> World -> NextResult * World
}.
Arguments mkEnv {World Writer Pid Admin}.
Arguments filepathAbs {World Writer Pid Admin} _ _ _.
Arguments statNotExist {World Writer Pid Admin} _ _ _.
Arguments cmdStart {World Writer Pid Admin} _ _ _.
Arguments processRelease {World Writer Pid Admin} _ _ _.
Arguments processKill {World Writer Pid Admin} _ _ _.
Arguments NewInstanceAdminClient {World Writer Pid Admin} _ _ _.
Arguments ListInstanceConfigsNext {World Writer Pid Admin} _ _ _ _.

(** The state the wrapper runs in: the world, the trace, and the
    [Emulator] values in memory. *)
Record State (World Writer Pid : Type) : Type := mkState {
  world : World;
  events : list (Event Writer Pid);
  heap : gmap addr (t Writer Pid)
}.
Arguments mkState {World Writer Pid}.
Arguments world {World Writer Pid}.
Arguments events {World Writer Pid}.
Arguments heap {World Writer Pid}.

(** Replace with relative path to binary. *)
Definition emulatorBinary : string := "../emulator_main".

(** The text of the run-time error Go panics with at a nil pointer. *)
Definition nilDereference : string :=
  "runtime error: invalid memory address or nil pointer dereference".

(** What [Kill] of [os.Process] answers on a handle that has been
    released. *)
Definition processReleased : error := "os: process already released".

Section Code.
Context {World Writer Pid Admin : Type}.
Variable env : Env World Writer Pid Admin.
Local Open Scope go_scope.

Abbreviation ST := (State World Writer Pid).

Definition call {A} (ev : Event Writer Pid) (f : World -> A * World) : M ST A :=
  fun s => let (a, w') := f (world s) in
           (Ret a, mkState w' (events s ++ [ev]) (heap s)).

Definition alloc (v : t Writer Pid) : M ST addr :=
  fun s =>
    let p := fresh (dom (heap s)) in
    (Ret p, mkState (world s) (events s) (<[p := v]> (heap s))).

(** Reading through a pointer; [None] is the nil pointer. *)
Definition load (p : option addr) : M ST (t Writer Pid) :=
  fun s =>
    match p with
    | None => (Panic nilDereference, s)
    | Some p =>
        match heap s !! p with
        | Some v => (Ret v, s)
        | None => (Panic nilDereference, s)
        end
    end.

Definition store (p : addr) (v : t Writer Pid) : M ST unit :=
  fun s => (Ret tt, mkState (world s) (events s) (<[p := v]> (heap s))).

(** [(p *os.Process).Release()] on the handle of process [pid]: the
    resources of the handle are given up, and the handle is released
    from then on.  The result tells so. *)
Definition Process_Release (pid : Pid) : M ST bool :=
  call (EvRelease pid) (fun w => (true, processRelease env pid w)).

(** [(p *os.Process).Kill()] on the handle of process [pid].  On a
    handle that has been [released] the os package sends no signal and
    answers [os: process already released]; only on a handle that is
    still held does the kill signal go out. *)
Definition Process_Kill (pid : Pid) (released : bool) : M ST (option error) :=
  if released then ret (Some processReleased)
  else call (EvKill pid) (fun w => (None, processKill env pid w)).

(** [(emu *Emulator) Stop()].  The receiver may be nil: taking the
    address of [emu.once] then panics.  [Process.Release] on the nil
    [Process] of a command that was not started panics as well.  What
    [Release] and [Kill] return is dropped. *)
Definition Stop (emu : option addr) : M ST unit :=
  match emu with
  | None => panic nilDereference
  | Some p =>
      e <- load emu ;;
      if once e then ret tt
      else
        e <<- mk (opts e) (hostport e) (cmd e) true ;;
        store p e ;;;
        match cmd e with
        | None => ret tt
        | Some c =>
            match Process c with
            | None => panic nilDereference
            | Some pid =>
                (* Release resources e.g., network ports associated with
                   the process. *)
                released <- Process_Release pid ;;
                (* Send a kill signal to emulator process, non-blocking. *)
                Process_Kill pid released ;;;
                store p (mk (opts e) (hostport e) None (once e))
            end
        end
  end.

(** [(emu *Emulator) ClientOptions()]. *)
Definition ClientOptions (e : t Writer Pid) : list ClientOption :=
  [ WithEndpoint (hostport e); WithoutAuthentication; WithGRPCDialOption WithInsecure ].

(** [(emu *Emulator) startEmulatorSubprocess()], on a receiver that is
    not nil.  The error of [filepath.Abs] is overwritten by that of
    [os.Stat] before it is read. *)
Definition startEmulatorSubprocess (emu : addr) : M ST (option error) :=
  e <- load (Some emu) ;;
  emulatorPath <- (fun s => (Ret (fst (filepathAbs env emulatorBinary (world s))), s)) ;;
  notExist <- call (EvStat emulatorPath) (fun w => (statNotExist env emulatorPath w, w)) ;;
  if notExist : bool then
    ret (Some ("cannot find cloud spanner emulator binary at " +:+ emulatorPath))
  else
    e <<- mk (opts e) (EmulatorAddress (opts e)) (cmd e) (once e) ;;
    e <<- (if isEmpty (hostport e)
           then mk (opts e) "localhost:9010" (cmd e) (once e) else e) ;;
    logRequests <<- "--nolog_requests" ;;
    logRequests <<- (if LogEmulatorRequests (opts e) then "--log_requests"
                     else logRequests) ;;
    c <<- Command emulatorPath ["--host_port"; hostport e; logRequests] ;;
    (* Terminate the emulator server if the main process is terminated. *)
    c <<- mkCmd (Path c) (Args c) (Some SIGKILL) (Stdout c) (Stderr c) (Process c) ;;
    c <<- mkCmd (Path c) (Args c) (Pdeathsig c)
            (Some (match EmulatorStdout (opts e) with
                   | Some w => To w
                   | None => OsStdout
                   end))
            (Stderr c) (Process c) ;;
    c <<- mkCmd (Path c) (Args c) (Pdeathsig c) (Stdout c)
            (Some (match EmulatorStderr (opts e) with
                   | Some w => To w
                   | None => OsStderr
                   end))
            (Process c) ;;
    e <<- mk (opts e) (hostport e) (Some c) (once e) ;;
    store emu e ;;;
    r <- call (EvCmdStart c) (cmdStart env c) ;;
    match r with
    | StartFailed err =>
        ret (Some ("error starting emulator subprocess: " +:+ err))
    | Started pid =>
        store emu
          (mk (opts e) (hostport e)
              (Some (mkCmd (Path c) (Args c) (Pdeathsig c) (Stdout c) (Stderr c)
                           (Some pid)))
              (once e)) ;;;
        ret None
    end.

(** [(emu *Emulator) waitForReady(ctx)], on a receiver that is not nil.
    The deferred [cancel()] runs at every return. *)
Definition waitForReady (emu : addr) : M ST (option error) :=
  e <- load (Some emu) ;;
  let dialOptions := ([WithGRPCDialOption WithBlock] ++ ClientOptions e)%list in
  x <- call (EvNewInstanceAdminClient dialOptions) (NewInstanceAdminClient env dialOptions) ;;
  match snd x with
  | Some err =>
      call EvCancel (fun w => (tt, w)) ;;;
      ret (Some ("failed to create an instance admin client for emulator: " +:+ err))
  | None =>
      (* To test whether the server is up, wait for ListInstanceConfigs to
         respond for a dummy project. *)
      r <- call (EvListInstanceConfigs "projects/test-project")
                (ListInstanceConfigsNext env (fst x) "projects/test-project") ;;
      match r with
      | NextFailed err =>
          call EvCancel (fun w => (tt, w)) ;;;
          ret (Some ("emulator failed to come up at " +:+ hostport e
                     +:+ " within 30s deadline: " +:+ err))
      | Item | Done =>
          call EvCancel (fun w => (tt, w)) ;;;
          ret None
      end
  end.

(** The body of [Start]: what its [return] statements assign to the
    named results [(emu, err)]. *)
Definition Start_body (opts : Options Writer) : M ST (option addr * option error) :=
  emu <- alloc (mk opts "" None false) ;;
  err <- startEmulatorSubprocess emu ;;
  match err with
  | Some err =>
      ret (None, Some ("Error bringing up emulator subprocess: " +:+ err))
  | None =>
      err <- waitForReady emu ;;
      match err with
      | Some err =>
          ret (None, Some ("Error waiting for emulator to start: " +:+ err))
      | None =>
          e <- load (Some emu) ;;
          call (EvPrintf ("Cloud spanner emulator listening at: " +:+ hostport e))
               (fun w => (tt, w)) ;;;
          ret (Some emu, None)
      end
  end.

(** [Start(ctx, opts)]: the body, then the deferred function, which
    reads the named results as the [return] statement left them. *)
Definition Start (opts : Options Writer) : M ST (option addr * option error) :=
  res <- Start_body opts ;;
  let emu := fst res in
  let err := snd res in
  match err with
  | Some _ => Stop emu ;;; ret res
  | None => ret res
  end.
End Code.
End Emulator.

(** ** Summaries of the emulator wrapper *)

(** The address the wrapper runs the emulator at. *)
Definition hostportOf {Writer} (opts : Emulator.Options Writer) : string :=
  if isEmpty (Emulator.EmulatorAddress opts) then "localhost:9010"
  else Emulator.EmulatorAddress opts.

(** The command [startEmulatorSubprocess] has built when it calls
    [Start] on it, for the binary at [path]. *)
Definition subprocessCommand {Writer Pid} (opts : Emulator.Options Writer) (path : string)
  : Emulator.Cmd Writer Pid :=
  Emulator.mkCmd path
    [path; "--host_port"; hostportOf opts;
     if Emulator.LogEmulatorRequests opts then "--log_requests" else "--nolog_requests"]
    (Some Emulator.SIGKILL)
    (Some (match Emulator.EmulatorStdout opts with
           | Some w => Emulator.To w
           | None => Emulator.OsStdout
           end))
    (Some (match Emulator.EmulatorStderr opts with
           | Some w => Emulator.To w
           | None => Emulator.OsStderr
           end))
    None.

(** The same command once started as process [pid]. *)
Definition startedCommand {Writer Pid} (opts : Emulator.Options Writer) (path : string)
    (pid : Pid) : Emulator.Cmd Writer Pid :=
  let c : Emulator.Cmd Writer Pid := subprocessCommand opts path in
  Emulator.mkCmd (Emulator.Path c) (Emulator.Args c) (Emulator.Pdeathsig c)
    (Emulator.Stdout c) (Emulator.Stderr c) (Some pid).

(** The options [waitForReady] dials the emulator at [hostport] with. *)
Definition readyDialOptions (hostport : string) : list Emulator.ClientOption :=
  [ Emulator.WithGRPCDialOption Emulator.WithBlock;
    Emulator.WithEndpoint hostport;
    Emulator.WithoutAuthentication;
    Emulator.WithGRPCDialOption Emulator.WithInsecure ].

(** What gives up the handle of a process or signals the process. *)
Definition endsProcess {Writer Pid} (ev : Emulator.Event Writer Pid) : bool :=
  match ev with
  | Emulator.EvRelease _ | Emulator.EvKill _ => true
  | _ => false
  end.

Definition isKill {Writer Pid} (ev : Emulator.Event Writer Pid) : bool :=
  match ev with
  | Emulator.EvKill _ => true
  | _ => false
  end.

(** The answers of the emulator that [waitForReady] takes for ready. *)
Definition cameUp (answer : Emulator.NextResult) : bool :=
  match answer with
  | Emulator.NextFailed _ => false
  | Emulator.Item | Emulator.Done => true
  end.

Definition isCancel {Writer Pid} (ev : Emulator.Event Writer Pid) : bool :=
  match ev with
  | Emulator.EvCancel => true
  | _ => false
  end.


(** ** Runs of the emulator wrapper *)
Module EmulatorRun.
Definition World : Type := list string.
Definition Writer : Type := unit.
Definition Pid : Type := nat.
Definition Admin : Type := unit.

(** A machine on which the binary is there or not ([missing]), and on
    which the emulator, once started as process 4711, answers the first
    request with the end of the list.  The world lists what has
    happened to processes. *)
Definition env (missing : bool) : Emulator.Env World Writer Pid Admin :=
  {| Emulator.filepathAbs := fun _ _ => ("/work/emulator_main", None);
     Emulator.statNotExist := fun _ _ => missing;
     Emulator.cmdStart := fun _ w => (Emulator.Started 4711%nat, (w ++ ["started"])%list);
     Emulator.processRelease := fun _ w => (w ++ ["released"])%list;
     Emulator.processKill := fun _ w => (w ++ ["killed"])%list;
     Emulator.NewInstanceAdminClient := fun _ w => ((tt, None), w);
     Emulator.ListInstanceConfigsNext := fun _ _ w => (Emulator.Done, w) |}.

Definition options : Emulator.Options Writer :=
  Emulator.mkOptions "" false None None.

Definition st0 : Emulator.State World Writer Pid := Emulator.mkState [] [] ∅.

(** An emulator that has not been started, and one that is running. *)
Definition fresh : Emulator.t Writer Pid := Emulator.mk options "" None false.

Definition running : Emulator.t Writer Pid :=
  Emulator.mk options "localhost:9010"
    (Some (startedCommand options "/work/emulator_main" 4711%nat)) false.

Definition holding (e : Emulator.t Writer Pid) : Emulator.State World Writer Pid :=
  Emulator.mkState [] [] (<[1%positive := e]> ∅).
End EmulatorRun.


(** * The emulator's tests: helpers *)

Module EmulatorTest.
Definition testProjectID : string := "test-project".
Definition testInstanceID : string := "test-instance".
Definition testDBName : string := "test-database".

Definition schemaDDL : list string :=
  [ "CREATE TABLE Users (
	   ID   INT64 NOT NULL,
		 Name STRING(MAX),
		 Age  INT64
	 ) PRIMARY KEY (ID)" ].

(** The requests the helpers send, with the fields they fill. *)
Record CreateInstanceRequest : Type := mkCreateInstanceRequest {
  ci_Parent : string;
  ci_InstanceId : string;
  ci_DisplayName : string;
  ci_NodeCount : Z
}.

Record CreateDatabaseRequest : Type := mkCreateDatabaseRequest {
  cd_Parent : string;
  cd_CreateStatement : string;
  cd_ExtraStatements : list string
}.

Inductive Event : Type :=
| EvNewInstanceAdminClient (opts : list Emulator.ClientOption)
| EvCreateInstance (req : CreateInstanceRequest)
| EvWaitInstance
| EvNewDatabaseAdminClient (opts : list Emulator.ClientOption)
| EvCreateDatabase (req : CreateDatabaseRequest)
| EvWaitDatabase
| EvDeleteInstance (name : string)
| EvPrintln (args : list string).

Record State (World : Type) : Type := mkState {
  world : World;
  events : list Event
}.
Arguments mkState {World}.
Arguments world {World}.
Arguments events {World}.

(** The admin services of the emulator. *)
Record Env (World InstanceAdmin DatabaseAdmin InstanceOp DatabaseOp : Type) : Type := mkEnv {
  NewInstanceAdminClient :
    list Emulator.ClientOption -> World -> (InstanceAdmin * option error) * World;
  CreateInstance :
    InstanceAdmin -> CreateInstanceRequest -> World -> (InstanceOp * option error) * World;
  WaitInstance : InstanceOp -> World -> option error * World;
  NewDatabaseAdminClient :
    list Emulator.ClientOption -> World -> (DatabaseAdmin * option error) * World;
  CreateDatabase :
    DatabaseAdmin -> CreateDatabaseRequest -> World -> (DatabaseOp * option error) * World;
  WaitDatabase : DatabaseOp -> World -> option error * World;
  DeleteInstance : InstanceAdmin -> string -> World -> option error * World
}.
Arguments mkEnv {World InstanceAdmin DatabaseAdmin InstanceOp DatabaseOp}.
Arguments NewInstanceAdminClient {World InstanceAdmin DatabaseAdmin InstanceOp DatabaseOp} _ _ _.
Arguments CreateInstance {World InstanceAdmin DatabaseAdmin InstanceOp DatabaseOp} _ _ _ _.
Arguments WaitInstance {World InstanceAdmin DatabaseAdmin InstanceOp DatabaseOp} _ _ _.
Arguments NewDatabaseAdminClient {World InstanceAdmin DatabaseAdmin InstanceOp DatabaseOp} _ _ _.
Arguments CreateDatabase {World InstanceAdmin DatabaseAdmin InstanceOp DatabaseOp} _ _ _ _.
Arguments WaitDatabase {World InstanceAdmin DatabaseAdmin InstanceOp DatabaseOp} _ _ _.
Arguments DeleteInstance {World InstanceAdmin DatabaseAdmin InstanceOp DatabaseOp} _ _ _ _.

Section Code.
Context {World InstanceAdmin DatabaseAdmin InstanceOp DatabaseOp Writer Pid : Type}.
Variable env : Env World InstanceAdmin DatabaseAdmin InstanceOp DatabaseOp.
Local Open Scope go_scope.

Definition call {A} (ev : Event) (f : World -> A * World) : M (State World) A :=
  fun s => let (a, w') := f (world s) in (Ret a, mkState w' (events s ++ [ev])).

Definition createInstance (instanceAdmin : InstanceAdmin) (projectID instanceID : string)
  : M (State World) (string * option error) :=
  let projectURI := "projects/" +:+ projectID in
  let instanceURI := projectURI +:+ "/instances/" +:+ instanceID in
  let req := mkCreateInstanceRequest projectURI instanceID instanceID 1 in
  x <- call (EvCreateInstance req) (CreateInstance env instanceAdmin req) ;;
  match snd x with
  | Some err =>
      ret ("", Some ("cannot create instance " +:+ instanceURI +:+ ": " +:+ err))
  | None =>
      err <- call EvWaitInstance (WaitInstance env (fst x)) ;;
      match err with
      | Some err =>
          ret ("", Some ("cannot create instance " +:+ instanceURI +:+ ": " +:+ err))
      | None => ret (instanceURI, None)
      end
  end.

Definition createDatabase (databaseAdmin : DatabaseAdmin) (instanceURI databaseID : string)
    (extraStatements : list string) : M (State World) (string * option error) :=
  let dbURI := instanceURI +:+ "/databases/" +:+ databaseID in
  let req := mkCreateDatabaseRequest instanceURI
               ("CREATE DATABASE `" +:+ databaseID +:+ "`") extraStatements in
  x <- call (EvCreateDatabase req) (CreateDatabase env databaseAdmin req) ;;
  match snd x with
  | Some err =>
      ret ("", Some ("cannot create testing DB " +:+ dbURI +:+ ": " +:+ err))
  | None =>
      err <- call EvWaitDatabase (WaitDatabase env (fst x)) ;;
      match err with
      | Some err =>
          ret ("", Some ("cannot create testing DB " +:+ dbURI +:+ ": " +:+ err))
      | None => ret (dbURI, None)
      end
  end.

Definition deleteInstance (instanceAdmin : InstanceAdmin) (projectID instanceID : string)
  : M (State World) (option error) :=
  let projectURI := "projects/" +:+ projectID in
  let instanceURI := projectURI +:+ "/instances/" +:+ instanceID in
  err <- call (EvDeleteInstance instanceURI) (DeleteInstance env instanceAdmin instanceURI) ;;
  match err with
  | Some err =>
      ret (Some ("cannot delete instance " +:+ instanceURI +:+ ": " +:+ err))
  | None => ret None
  end.

(** [setup(ctx, emu)], for an emulator [emu] that is not nil. *)
Definition setup (emu : Emulator.t Writer Pid) : M (State World) (string * option error) :=
  (* Create a new instance in emulator. *)
  x <- call (EvNewInstanceAdminClient (Emulator.ClientOptions emu))
            (NewInstanceAdminClient env (Emulator.ClientOptions emu)) ;;
  match snd x with
  | Some err =>
      ret ("", Some ("Failed to create an instance admin client for emulator: " +:+ err))
  | None =>
      y <- createInstance (fst x) testProjectID testInstanceID ;;
      match snd y with
      | Some err =>
          ret ("", Some ("Failed to create an instance in emulator: " +:+ err))
      | None =>
          let instanceURI := fst y in
          (* Create a new database in emulator. *)
          z <- call (EvNewDatabaseAdminClient (Emulator.ClientOptions emu))
                    (NewDatabaseAdminClient env (Emulator.ClientOptions emu)) ;;
          match snd z with
          | Some err =>
              ret ("", Some ("Failed to create an database admin client for emulator: "
                             +:+ err))
          | None =>
              u <- createDatabase (fst z) instanceURI testDBName schemaDDL ;;
              match snd u with
              | Some err =>
                  ret ("", Some ("Failed to create a database in emulator: " +:+ err))
              | None => ret (fst u, None)
              end
          end
      end
  end.

(** [cleanup(ctx, emu)], for an emulator [emu] that is not nil. *)
Definition cleanup (emu : Emulator.t Writer Pid) : M (State World) (option error) :=
  x <- call (EvNewInstanceAdminClient (Emulator.ClientOptions emu))
            (NewInstanceAdminClient env (Emulator.ClientOptions emu)) ;;
  match snd x with
  | Some err =>
      ret (Some ("Failed to create an instance admin client for emulator: " +:+ err))
  | None =>
      err <- deleteInstance (fst x) testProjectID testInstanceID ;;
      match err with
      | Some err =>
          call (EvPrintln [" couldnt clean up"; err]) (fun w => (tt, w)) ;;;
          ret (Some ("Failed to delete instance in emulator: " +:+ err))
      | None =>
          call (EvPrintln ["cleaned up"]) (fun w => (tt, w)) ;;;
          ret None
      end
  end.

(** The value [TestCreateDatabase] compares the result of [setup] with. *)
Definition want : string :=
  "projects/" +:+ testProjectID +:+ "/instances/" +:+ testInstanceID
  +:+ "/databases/" +:+ testDBName.
End Code.
End EmulatorTest.

(** * Proofs *)

(** ** Helper lemmas and tactics *)

Lemma if_same {A} (b : bool) (x : A) : (if b then x else x) = x.
Proof. by destruct b. Qed.

Lemma assign_eq {A B} (v : A) (k : A -> B) : assign v k = k v.
Proof. reflexivity. Qed.

Lemma isEmpty_true (s : string) : isEmpty s = true <-> s = "".
Proof. unfold isEmpty. apply String.eqb_eq. Qed.

Lemma isEmpty_false (s : string) : isEmpty s = false <-> s <> "".
Proof. unfold isEmpty. apply String.eqb_neq. Qed.

(** A conditional between two requests, field by field. *)
Lemma JobData_if_flat (b : bool) (x y : JobData.t) :
  (if b then x else y) =
  JobData.mk
    (if b then JobData.IsSMTBucketRequired x else JobData.IsSMTBucketRequired y)
    (if b then JobData.SmtBucketName x else JobData.SmtBucketName y)
    (if b then JobData.SessionFilePath x else JobData.SessionFilePath y)
    (if b then JobData.SourceConnectionConfig x else JobData.SourceConnectionConfig y)
    (if b then JobData.GcsDataDirectory x else JobData.GcsDataDirectory y)
    (if b then JobData.InstanceId x else JobData.InstanceId y)
    (if b then JobData.DatabaseId x else JobData.DatabaseId y)
    (if b then JobData.SessionFileGcsPath x else JobData.SessionFileGcsPath y)
    (if b then JobData.SourceConnectionConfigGcsPath x
     else JobData.SourceConnectionConfigGcsPath y)
    (if b then JobData.SpannerProjectId x else JobData.SpannerProjectId y)
    (if b then JobData.JobName x else JobData.JobName y)
    (if b then JobData.SourceType x else JobData.SourceType y)
    (if b then JobData.MetadataInstance x else JobData.MetadataInstance y)
    (if b then JobData.MetadataDatabase x else JobData.MetadataDatabase y)
    (if b then JobData.ChangeStreamName x else JobData.ChangeStreamName y)
    (if b then JobData.FiltrationMode x else JobData.FiltrationMode y)
    (if b then JobData.TimerInterval x else JobData.TimerInterval y)
    (if b then JobData.WindowDuration x else JobData.WindowDuration y)
    (if b then JobData.ShardingCustomJarPath x else JobData.ShardingCustomJarPath y)
    (if b then JobData.ShardingCustomClassName x else JobData.ShardingCustomClassName y)
    (if b then JobData.SpannerLocation x else JobData.SpannerLocation y)
    (if b then JobData.StartTimestamp x else JobData.StartTimestamp y)
    (if b then JobData.EndTimestamp x else JobData.EndTimestamp y)
    (if b then JobData.MetadataTableSuffix x else JobData.MetadataTableSuffix y)
    (if b then JobData.SkipDirectoryName x else JobData.SkipDirectoryName y)
    (if b then JobData.ReaderCfg x else JobData.ReaderCfg y)
    (if b then JobData.WriterCfg x else JobData.WriterCfg y)
    (if b then JobData.SourceDbTimezoneOffset x else JobData.SourceDbTimezoneOffset y).
Proof. by destruct b, x, y. Qed.

(** Reduce field reads of field writes, and nothing else. *)
Ltac jd_cbn :=
  cbn beta iota delta
    [JobData.IsSMTBucketRequired JobData.SmtBucketName JobData.SessionFilePath
     JobData.SourceConnectionConfig JobData.GcsDataDirectory JobData.InstanceId
     JobData.DatabaseId JobData.SessionFileGcsPath JobData.SourceConnectionConfigGcsPath
     JobData.SpannerProjectId JobData.JobName JobData.SourceType JobData.MetadataInstance
     JobData.MetadataDatabase JobData.ChangeStreamName JobData.FiltrationMode
     JobData.TimerInterval JobData.WindowDuration JobData.ShardingCustomJarPath
     JobData.ShardingCustomClassName JobData.SpannerLocation JobData.StartTimestamp
     JobData.EndTimestamp JobData.MetadataTableSuffix JobData.SkipDirectoryName
     JobData.ReaderCfg JobData.WriterCfg JobData.SourceDbTimezoneOffset
     JobData.set_IsSMTBucketRequired JobData.set_SmtBucketName JobData.set_SessionFileGcsPath
     JobData.set_SourceConnectionConfigGcsPath JobData.set_JobName JobData.set_SourceType
     JobData.set_MetadataInstance JobData.set_MetadataDatabase JobData.set_GcsDataDirectory
     JobData.set_ChangeStreamName JobData.set_FiltrationMode JobData.set_TimerInterval
     JobData.set_WindowDuration JobData.set_SpannerLocation
     fst snd].

(** The same for tuning configs. *)
Lemma DataflowTuningConfig_if_flat (b : bool) (x y : DataflowTuningConfig.t) :
  (if b then x else y) =
  DataflowTuningConfig.mk
    (if b then DataflowTuningConfig.ProjectId x else DataflowTuningConfig.ProjectId y)
    (if b then DataflowTuningConfig.JobName x else DataflowTuningConfig.JobName y)
    (if b then DataflowTuningConfig.Location x else DataflowTuningConfig.Location y)
    (if b then DataflowTuningConfig.MaxWorkers x else DataflowTuningConfig.MaxWorkers y)
    (if b then DataflowTuningConfig.NumWorkers x else DataflowTuningConfig.NumWorkers y)
    (if b then DataflowTuningConfig.MachineType x else DataflowTuningConfig.MachineType y)
    (if b then DataflowTuningConfig.AdditionalUserLabels x
     else DataflowTuningConfig.AdditionalUserLabels y)
    (if b then DataflowTuningConfig.GcsTemplatePath x
     else DataflowTuningConfig.GcsTemplatePath y)
    (if b then DataflowTuningConfig.AdditionalExperiments x
     else DataflowTuningConfig.AdditionalExperiments y)
    (if b then DataflowTuningConfig.EnableStreamingEngine x
     else DataflowTuningConfig.EnableStreamingEngine y).
Proof. by destruct b, x, y. Qed.

Ltac cfg_cbn :=
  cbn beta iota delta
    [DataflowTuningConfig.ProjectId DataflowTuningConfig.JobName
     DataflowTuningConfig.Location DataflowTuningConfig.MaxWorkers
     DataflowTuningConfig.NumWorkers DataflowTuningConfig.MachineType
     DataflowTuningConfig.AdditionalUserLabels DataflowTuningConfig.GcsTemplatePath
     DataflowTuningConfig.AdditionalExperiments DataflowTuningConfig.EnableStreamingEngine
     DataflowTuningConfig.set_ProjectId DataflowTuningConfig.set_JobName
     DataflowTuningConfig.set_Location DataflowTuningConfig.set_MaxWorkers
     DataflowTuningConfig.set_NumWorkers DataflowTuningConfig.set_MachineType
     DataflowTuningConfig.set_AdditionalUserLabels DataflowTuningConfig.set_GcsTemplatePath
     DataflowTuningConfig.set_AdditionalExperiments
     DataflowTuningConfig.set_EnableStreamingEngine
     world events fst snd].

(** One assignment [x <<- v ;; rest] at the head of the goal: a [v] that
    is a conditional between two records is brought into constructor form
    by [flat], and the new record is handed to the rest of the body. *)
Ltac assign_step_with flat norm :=
  lazymatch goal with
  | |- context [assign ?A ?k ?st] =>
      lazymatch A with
      | (if ?c then ?x else ?y) => rewrite (flat c x y); norm; rewrite ?if_same
      | _ => idtac
      end;
      rewrite assign_eq; cbv beta; norm
  end.

Ltac assign_step := assign_step_with JobData_if_flat ltac:(jd_cbn).

(** One [if] of the body whose first branch returns. *)
Ltac branch_step :=
  lazymatch goal with
  | |- context [(if ?c then ?a else ?b) ?st] => destruct c eqn:?
  end.

(** The last statement: the call to [GetSpannerLeaderLocation]. *)
Ltac lookup_step env :=
  unfold bind, call;
  lazymatch goal with
  | |- context [GetSpannerLeaderLocation env ?uri ?w] =>
      let loc := fresh "loc" in
      let lerr := fresh "lerr" in
      let w' := fresh "w'" in
      destruct (GetSpannerLeaderLocation env uri w) as [[loc lerr] w'] eqn:?
  end.

(** Run [validateAndUpdateJobData] on a request in constructor form down
    to its return statements; [k] finishes each of them. *)
Ltac run_validate env k :=
  cbv delta [validateAndUpdateJobData]; cbv beta; jd_cbn;
  repeat first
    [ assign_step
    | branch_step; [ unfold ret; jd_cbn; k | ] ];
  lookup_step env; unfold ret; jd_cbn; k.

(** One [if] of the body whose condition is settled by a hypothesis. *)
Ltac known_branch_step :=
  lazymatch goal with
  | |- context [(if ?c then ?a else ?b) ?st] =>
      lazymatch goal with
      | H : c = _ |- _ => rewrite H; cbv iota
      end
  end.

(** Run the workflow's state monad; the normaliser stays folded. *)
Ltac run_monad :=
  cbv beta iota zeta delta
    [bind ret panic liftE zoom step alloc load store call hashStr
     validateAndUpdateJobData_at CreateWorkflow callCreateWorkflow
     ext steps heap world events fst snd].

(** ** Change-stream name normalisation *)

Lemma ReplaceByte_removes (old new : ascii) (s : string) :
  old <> new -> ContainsByte old (ReplaceByte old new s) = false.
Proof.
  intros Hne. induction s as [|c s IH]; [done|].
  simpl. rewrite IH, orb_false_r.
  destruct (Ascii.eqb c old) eqn:E; [|done].
  apply Ascii.eqb_neq. congruence.
Qed.

Lemma ReplaceByte_absent (old new : ascii) (s : string) :
  ContainsByte old s = false -> ReplaceByte old new s = s.
Proof.
  induction s as [|c s IH]; [done|].
  simpl. intros [Hc Hs]%orb_false_iff. by rewrite Hc, IH.
Qed.

Lemma ReplaceByte_get (old new : ascii) (s : string) (i : nat) :
  String.get i (ReplaceByte old new s)
  = (fun c => if Ascii.eqb c old then new else c) <$> String.get i s.
Proof.
  revert i. induction s as [|c s IH]; intros i; [done|].
  destruct i; simpl; [done|apply IH].
Qed.

Lemma ReplaceByte_length (old new : ascii) (s : string) :
  String.length (ReplaceByte old new s) = String.length s.
Proof. induction s as [|c s IH]; simpl; congruence. Qed.

(** ** Request normalisation *)

Section Normalizer.
Context {World LaunchRequest : Type} (env : Env World LaunchRequest).

(** C5: on every return path of [validateAndUpdateJobData], the request
    it leaves behind has staging marked unnecessary and an empty bucket
    name exactly when both descriptions are under [gs://] and a staging
    data directory was supplied; otherwise staging is marked required and
    the bucket name is [smt-rr-gcs-<run-id>]. *)
Theorem validateAndUpdateJobData_staging_bucket
    (request : JobData.t) (uuid : string) (st : ExtState World LaunchRequest) :
  exists r' e st',
    validateAndUpdateJobData env request uuid st = (Ret (r', e), st')
    /\ JobData.IsSMTBucketRequired r' = negb (alreadyStaged request)
    /\ JobData.SmtBucketName r'
       = (if alreadyStaged request then "" else "smt-rr-gcs-" +:+ uuid)
    /\ ((JobData.IsSMTBucketRequired r' = false /\ JobData.SmtBucketName r' = "")
        <-> alreadyStaged request = true).
Proof.
  remember (validateAndUpdateJobData env request uuid st) as R eqn:E.
  revert E. destruct request. unfold alreadyStaged.
  run_validate env
    ltac:(intros ->; do 3 eexists; split; [reflexivity|]; jd_cbn;
          lazymatch goal with
          | |- context [if ?c then false else true] => destruct c
          end; simpl; intuition congruence).
Qed.
End Normalizer.

Section ValidationFailure.
Context {World LaunchRequest : Type} (env : Env World LaunchRequest).

(** When normalisation fails, [CreateWorkflow] returns at line 124: it
    has taken no step of its own and the activities' state is the one
    normalisation left. *)
Lemma CreateWorkflow_validation_error
    (request r' : JobData.t) (st : OrchState World LaunchRequest)
    (uuid : string) (w1 : World) (e : error) (es' : ExtState World LaunchRequest) :
  GenerateHashStr env (world (ext st)) = (uuid, w1) ->
  validateAndUpdateJobData env request uuid (mkExt w1 (events (ext st)))
    = (Ret (r', Some e), es') ->
  exists h',
    CreateWorkflow env request st
    = (Ret (Some ("error in validateCreateRequest: " +:+ e)),
       mkOrch es' (steps st) h').
Proof.
  destruct st as [[w ev] sts hp]. run_monad.
  intros Hh Hv. eexists.
  rewrite Hh. run_monad. rewrite lookup_insert_eq. run_monad.
  rewrite Hv. run_monad. reflexivity.
Qed.

(** With a required field empty, normalisation returns the message for
    the first empty one, in the order of the checks, and calls nothing. *)
Lemma validateAndUpdateJobData_missing_field (request : JobData.t) :
  (exists f, In f (requiredFields request) /\ snd f = "") ->
  exists f, In f (requiredFields request) /\ snd f = ""
    /\ forall uuid (es : ExtState World LaunchRequest),
         exists r',
           validateAndUpdateJobData env request uuid es
           = (Ret (r', Some (missingFieldError (fst f))), es).
Proof.
  destruct request. unfold requiredFields. jd_cbn.
  intros [f [Hin Hf]].
  assert (Hsome : isEmpty InstanceId || isEmpty DatabaseId || isEmpty SessionFilePath
                  || isEmpty SourceConnectionConfig || isEmpty SpannerProjectId = true).
  { simpl in Hin.
    repeat (destruct Hin as [<-|Hin]; [simpl in Hf; subst; simpl;
             rewrite ?orb_true_r; reflexivity |]).
    destruct Hin. }
  clear f Hin Hf.
  destruct (isEmpty InstanceId) eqn:H1;
    [exists ("InstanceId", InstanceId)
    |destruct (isEmpty DatabaseId) eqn:H2;
      [exists ("DatabaseId", DatabaseId)
      |destruct (isEmpty SessionFilePath) eqn:H3;
        [exists ("SessionFilePath", SessionFilePath)
        |destruct (isEmpty SourceConnectionConfig) eqn:H4;
          [exists ("SourceConnectionConfig", SourceConnectionConfig)
          |destruct (isEmpty SpannerProjectId) eqn:H5;
            [exists ("SpannerProjectId", SpannerProjectId)
            |discriminate Hsome]]]]].
  all: clear Hsome.
  all: split; [simpl; tauto|].
  all: split; [simpl; by apply isEmpty_true|].
  all: intros uuid es;
    lazymatch goal with
    | |- context [validateAndUpdateJobData env ?r uuid es] =>
        remember (validateAndUpdateJobData env r uuid es) as R eqn:E; revert E
    end;
    cbv delta [validateAndUpdateJobData]; cbv beta; jd_cbn;
    repeat first [ assign_step | known_branch_step ];
    intros ->; eexists; reflexivity.
Qed.

(** C3: a request with any of the five required fields empty makes
    normalisation return the validation error naming an empty field, and
    [CreateWorkflow] returns that error without building the activity
    list, invoking a [Transaction], or calling any resource manager. *)
Theorem CreateWorkflow_missing_required_field
    (request : JobData.t) (st : OrchState World LaunchRequest) :
  (exists f, In f (requiredFields request) /\ snd f = "") ->
  exists f, In f (requiredFields request) /\ snd f = ""
    /\ (forall uuid (es : ExtState World LaunchRequest),
          exists r',
            validateAndUpdateJobData env request uuid es
            = (Ret (r', Some (missingFieldError (fst f))), es))
    /\ exists st',
         CreateWorkflow env request st
         = (Ret (Some ("error in validateCreateRequest: "
                       +:+ missingFieldError (fst f))), st')
         /\ steps st' = steps st
         /\ transactionsInvoked (steps st') = transactionsInvoked (steps st)
         /\ events (ext st') = events (ext st).
Proof.
  intros H.
  destruct (validateAndUpdateJobData_missing_field request H) as (f & Hin & Hf & Hv).
  exists f. repeat split; [done..|].
  destruct (GenerateHashStr env (world (ext st))) as [uuid w1] eqn:Hh.
  destruct (Hv uuid (mkExt w1 (events (ext st)))) as [r' Hr].
  destruct (CreateWorkflow_validation_error request r' st uuid w1 _ _ Hh Hr) as [h' ->].
  eexists. split; [reflexivity|]. done.
Qed.
End ValidationFailure.

Section Defaults.
Context {World LaunchRequest : Type} (env : Env World LaunchRequest).

(** What a request that passed normalisation holds in the fields that
    have a default. *)
Lemma validateAndUpdateJobData_success
    (request r' : JobData.t) (uuid : string) (st st' : ExtState World LaunchRequest) :
  validateAndUpdateJobData env request uuid st = (Ret (r', None), st') ->
  JobData.JobName r'
    = (if isEmpty (JobData.JobName request)
       then "smt-job-" +:+ uuid else JobData.JobName request)
  /\ JobData.MetadataInstance r'
    = (if isEmpty (JobData.MetadataInstance request)
       then JobData.InstanceId request else JobData.MetadataInstance request)
  /\ JobData.MetadataDatabase r'
    = (if isEmpty (JobData.MetadataDatabase request)
       then "smt-rr-metadata-" +:+ uuid else JobData.MetadataDatabase request)
  /\ JobData.GcsDataDirectory r'
    = (if isEmpty (JobData.GcsDataDirectory request)
       then "gs://smt-rr-gcs-" +:+ uuid +:+ "/reverse-replication/data"
       else JobData.GcsDataDirectory request)
  /\ JobData.ChangeStreamName r'
    = ReplaceByte "-" "_"
        (if isEmpty (JobData.ChangeStreamName request)
         then "smt-rr-cs-" +:+ uuid else JobData.ChangeStreamName request).
Proof.
  destruct request.
  run_validate env ltac:(try discriminate).
  intros [= <- -> <-]. jd_cbn. done.
Qed.

(** A staging data directory that is given but not under [gs://] fails
    normalisation, whatever else the request holds, before any lookup. *)
Lemma validateAndUpdateJobData_bad_data_directory
    (request : JobData.t) (uuid : string) (st : ExtState World LaunchRequest) :
  JobData.GcsDataDirectory request <> "" ->
  HasPrefix (JobData.GcsDataDirectory request) constants.GCS_FILE_PREFIX = false ->
  exists r' e, validateAndUpdateJobData env request uuid st = (Ret (r', Some e), st).
Proof.
  destruct request. jd_cbn. intros Hne%isEmpty_false Hpre.
  assert (Hbad : negb (isEmpty GcsDataDirectory)
                 && negb (HasPrefix GcsDataDirectory constants.GCS_FILE_PREFIX) = true)
    by (by rewrite Hne, Hpre).
  remember (validateAndUpdateJobData env _ uuid st) as R eqn:E. revert E.
  cbv delta [validateAndUpdateJobData]; cbv beta; jd_cbn.
  repeat first
    [ assign_step
    | known_branch_step
    | branch_step; [ unfold ret; intros ->; do 2 eexists; reflexivity | ] ].
  unfold ret; intros ->; do 2 eexists; reflexivity.
Qed.

(** C4 (amended): for a request that passes normalisation, an unset job
    name becomes [smt-job-<run-id>] and an unset metadata database
    [smt-rr-metadata-<run-id>], both of the form <prefix>-<run-id>; an
    unset metadata instance becomes the target instance identifier; an
    unset staging data directory becomes
    [gs://smt-rr-gcs-<run-id>/reverse-replication/data]; an unset
    change-stream name becomes [smt-rr-cs-<run-id>] with its hyphens
    replaced by underscores.  And for every request, a staging data
    directory that is supplied without the [gs://] prefix makes
    normalisation fail. *)
Theorem validateAndUpdateJobData_defaults
    (request : JobData.t) (uuid : string) (st : ExtState World LaunchRequest) :
  (forall r' st',
     validateAndUpdateJobData env request uuid st = (Ret (r', None), st') ->
     (JobData.JobName request = "" ->
        JobData.JobName r' = "smt-job-" +:+ uuid
        /\ prefixRunIdForm uuid (JobData.JobName r'))
     /\ (JobData.MetadataDatabase request = "" ->
        JobData.MetadataDatabase r' = "smt-rr-metadata-" +:+ uuid
        /\ prefixRunIdForm uuid (JobData.MetadataDatabase r'))
     /\ (JobData.MetadataInstance request = "" ->
        JobData.MetadataInstance r' = JobData.InstanceId request)
     /\ (JobData.GcsDataDirectory request = "" ->
        JobData.GcsDataDirectory r'
        = "gs://smt-rr-gcs-" +:+ uuid +:+ "/reverse-replication/data")
     /\ (JobData.ChangeStreamName request = "" ->
        JobData.ChangeStreamName r' = ReplaceByte "-" "_" ("smt-rr-cs-" +:+ uuid)))
  /\ (JobData.GcsDataDirectory request <> "" ->
      HasPrefix (JobData.GcsDataDirectory request) constants.GCS_FILE_PREFIX = false ->
      exists r' e,
        validateAndUpdateJobData env request uuid st = (Ret (r', Some e), st)).
Proof.
  split.
  - intros r' st' H.
    destruct (validateAndUpdateJobData_success _ _ _ _ _ H) as (Hj & Hmi & Hmd & Hg & Hc).
    split; [|split; [|split; [|split]]].
    + intros E. rewrite Hj, E. simpl. split; [done|]. by exists "smt-job".
    + intros E. rewrite Hmd, E. simpl. split; [done|]. by exists "smt-rr-metadata".
    + intros E. by rewrite Hmi, E.
    + intros E. by rewrite Hg, E.
    + intros E. by rewrite Hc, E.
  - apply validateAndUpdateJobData_bad_data_directory.
Qed.
End Defaults.

(** ** The normaliser in one piece *)

Section NormalizerSummary.
Context {World LaunchRequest : Type} (env : Env World LaunchRequest).

(** A request that passes the checks reaches the lookup, and what
    normalisation returns is the lookup's outcome around the normalised
    request. *)
Lemma validateAndUpdateJobData_passes
    (request : JobData.t) (uuid : string) (st : ExtState World LaunchRequest) :
  passesChecks env request = true ->
  validateAndUpdateJobData env request uuid st
  = (Ret (normalized env request uuid
            (fst (fst (GetSpannerLeaderLocation env (instanceUri request) (world st)))),
          snd (fst (GetSpannerLeaderLocation env (instanceUri request) (world st)))),
     mkExt (snd (GetSpannerLeaderLocation env (instanceUri request) (world st)))
           (events st ++ [EvGetSpannerLeaderLocation (instanceUri request)])).
Proof.
  destruct request. unfold passesChecks, normalized, instanceUri, alreadyStaged. jd_cbn.
  intros H.
  repeat (apply andb_prop in H; destruct H as [H ?]).
  repeat match goal with
         | H : negb _ = true |- _ => apply negb_true_iff in H
         end.
  assert (Hst : negb (String.eqb (if isEmpty SourceType then constants.MYSQL else SourceType)
                        constants.MYSQL) = false).
  { destruct (isEmpty SourceType); [done|]. simpl in *. by apply negb_false_iff. }
  assert (Hgcs : negb (isEmpty GcsDataDirectory)
                 && negb (HasPrefix GcsDataDirectory constants.GCS_FILE_PREFIX) = false).
  { destruct (isEmpty GcsDataDirectory); [done|]. simpl in *.
    by apply negb_false_iff. }
  assert (Hfm : negb (isEmpty FiltrationMode)
                && negb (Contains [RR_READER_FILTER_FWD env; RR_READER_FILTER_NONE env]
                           FiltrationMode) = false).
  { destruct (isEmpty FiltrationMode); [done|].
    rewrite orb_false_l in *. by apply andb_false_iff; right; apply negb_false_iff. }
  assert (Hs1 : negb (isEmpty ShardingCustomJarPath) && isEmpty ShardingCustomClassName
                = false).
  { by destruct (isEmpty ShardingCustomJarPath), (isEmpty ShardingCustomClassName). }
  assert (Hs2 : isEmpty ShardingCustomJarPath && negb (isEmpty ShardingCustomClassName)
                = false).
  { by destruct (isEmpty ShardingCustomJarPath), (isEmpty ShardingCustomClassName). }
  assert (Hs3 : negb (isEmpty ShardingCustomJarPath)
                && negb (HasPrefix ShardingCustomJarPath constants.GCS_FILE_PREFIX) = false).
  { destruct (isEmpty ShardingCustomJarPath); [done|]. simpl in *.
    by apply negb_false_iff. }
  cbv delta [validateAndUpdateJobData]; cbv beta; jd_cbn.
  repeat first [ assign_step | known_branch_step ].
  unfold bind, call, ret.
  lazymatch goal with
  | |- context [GetSpannerLeaderLocation env ?uri ?w] =>
      destruct (GetSpannerLeaderLocation env uri w) as [[loc lerr] w']
  end.
  by destruct (HasPrefix SessionFilePath constants.GCS_FILE_PREFIX),
             (HasPrefix SourceConnectionConfig constants.GCS_FILE_PREFIX).
Qed.

(** A request that fails a check is returned with the message of the
    first failing check, before the lookup: nothing is called. *)
Lemma validateAndUpdateJobData_rejects
    (request : JobData.t) (uuid : string) (st : ExtState World LaunchRequest) (e : error) :
  failedCheck env request = Some e ->
  exists r', validateAndUpdateJobData env request uuid st = (Ret (r', Some e), st).
Proof.
  remember (validateAndUpdateJobData env request uuid st) as R eqn:E.
  revert E. destruct request. unfold failedCheck. jd_cbn.
  cbv delta [validateAndUpdateJobData]; cbv beta; jd_cbn.
  repeat first
    [ assign_step
    | branch_step;
      [ unfold ret; jd_cbn; intros -> He;
        repeat match goal with
               | Hb : _ = true |- _ => rewrite Hb in He; clear Hb
               | Hb : _ = false |- _ => rewrite Hb in He; clear Hb
               end;
        injection He as <-; eexists; reflexivity | ] ].
  intros _ He.
  repeat match goal with
         | Hb : _ = false |- _ => rewrite Hb in He; clear Hb
         end.
  discriminate He.
Qed.

(** No check fails exactly when all of them pass. *)
Lemma failedCheck_None (request : JobData.t) :
  failedCheck env request = None <-> passesChecks env request = true.
Proof.
  destruct request. unfold failedCheck, passesChecks. jd_cbn.
  destruct (isEmpty InstanceId); [done|].
  destruct (isEmpty DatabaseId); [done|].
  destruct (isEmpty SessionFilePath); [done|].
  destruct (isEmpty SourceConnectionConfig); [done|].
  destruct (isEmpty SpannerProjectId); [done|].
  cbn [negb andb].
  destruct (isEmpty SourceType); cbn [orb];
    [change (constants.MYSQL =? constants.MYSQL)%string with true
    |destruct (SourceType =? constants.MYSQL)%string]; cbn [negb andb]; try done.
  all: destruct (isEmpty GcsDataDirectory); cbn [negb andb orb];
    [|destruct (HasPrefix GcsDataDirectory constants.GCS_FILE_PREFIX)];
    cbn [negb andb orb]; try done.
  all: destruct (isEmpty FiltrationMode); cbn [negb andb orb];
    [|destruct (Contains _ FiltrationMode)]; cbn [negb andb orb]; try done.
  all: destruct (isEmpty ShardingCustomJarPath), (isEmpty ShardingCustomClassName);
    cbn [negb andb orb Bool.eqb]; try done.
  all: by destruct (HasPrefix ShardingCustomJarPath constants.GCS_FILE_PREFIX).
Qed.

(** Every run of the normaliser returns; it is one of the two above. *)
Lemma validateAndUpdateJobData_cases
    (request : JobData.t) (uuid : string) (st : ExtState World LaunchRequest) :
  (passesChecks env request = true
   /\ validateAndUpdateJobData env request uuid st
      = (Ret (normalized env request uuid
                (fst (fst (GetSpannerLeaderLocation env (instanceUri request) (world st)))),
              snd (fst (GetSpannerLeaderLocation env (instanceUri request) (world st)))),
         mkExt (snd (GetSpannerLeaderLocation env (instanceUri request) (world st)))
               (events st ++ [EvGetSpannerLeaderLocation (instanceUri request)])))
  \/ (exists e r', failedCheck env request = Some e
        /\ passesChecks env request = false
        /\ validateAndUpdateJobData env request uuid st = (Ret (r', Some e), st)).
Proof.
  destruct (failedCheck env request) as [e|] eqn:Hf.
  - right. destruct (validateAndUpdateJobData_rejects request uuid st e Hf) as [r' Hr].
    exists e, r'. split; [done|]. split; [|done].
    destruct (passesChecks env request) eqn:Hp; [|done].
    apply failedCheck_None in Hp. congruence.
  - left. apply failedCheck_None in Hf. split; [done|].
    by apply validateAndUpdateJobData_passes.
Qed.

(** A run that returns [nil]: the checks passed, the lookup gave no error,
    and the request is the normalised one. *)
Lemma validateAndUpdateJobData_nil
    (request r' : JobData.t) (uuid : string) (st st' : ExtState World LaunchRequest) :
  validateAndUpdateJobData env request uuid st = (Ret (r', None), st') ->
  passesChecks env request = true
  /\ exists loc w',
       GetSpannerLeaderLocation env (instanceUri request) (world st) = ((loc, None), w')
       /\ r' = normalized env request uuid loc
       /\ st' = mkExt w' (events st ++ [EvGetSpannerLeaderLocation (instanceUri request)]).
Proof.
  destruct (validateAndUpdateJobData_cases request uuid st)
    as [[Hp ->]|(e & r0 & _ & _ & ->)]; [|done].
  destruct (GetSpannerLeaderLocation env (instanceUri request) (world st))
    as [[loc lerr] w']. cbn [fst snd].
  intros [= <- -> <-]. split; [done|]. by exists loc, w'.
Qed.
End NormalizerSummary.

(** ** The change-stream name a request leaves with *)

Section ChangeStreamName.
Context {World LaunchRequest : Type} (env : Env World LaunchRequest).

(** C9: normalising a change-stream name replaces every hyphen by an
    underscore and leaves every other byte alone; a name without hyphens
    is unchanged; normalising twice is normalising once; ["a-b-c"]
    becomes ["a_b_c"].  And [validateAndUpdateJobData] does normalise
    the name: on every request that passes its checks it returns,
    whatever the lookup answers, with the normalised given name, or with
    the normalised default name [smt-rr-cs-<run-id>] when none was
    given.  So the name it leaves has no hyphen, and a name that was
    given is left as it is exactly when it had none. *)
Theorem changeStreamName_normalization :
  (forall s i,
      String.get i (ReplaceByte "-" "_" s)
      = (fun c => if Ascii.eqb c "-" then "_"%char else c) <$> String.get i s)
  /\ (forall s, String.length (ReplaceByte "-" "_" s) = String.length s)
  /\ (forall s, ContainsByte "-" (ReplaceByte "-" "_" s) = false)
  /\ (forall s, ContainsByte "-" s = false -> ReplaceByte "-" "_" s = s)
  /\ (forall s, ReplaceByte "-" "_" (ReplaceByte "-" "_" s) = ReplaceByte "-" "_" s)
  /\ ReplaceByte "-" "_" "a-b-c" = "a_b_c"
  /\ (forall request uuid (st : ExtState World LaunchRequest),
        passesChecks env request = true ->
        exists r' e st',
          validateAndUpdateJobData env request uuid st = (Ret (r', e), st')
          /\ JobData.ChangeStreamName r'
             = ReplaceByte "-" "_"
                 (if isEmpty (JobData.ChangeStreamName request)
                  then "smt-rr-cs-" +:+ uuid else JobData.ChangeStreamName request)
          /\ ContainsByte "-" (JobData.ChangeStreamName r') = false
          /\ (isEmpty (JobData.ChangeStreamName request) = false ->
              (JobData.ChangeStreamName r' = JobData.ChangeStreamName request
               <-> ContainsByte "-" (JobData.ChangeStreamName request) = false))
          /\ (isEmpty (JobData.ChangeStreamName request) = true ->
              JobData.ChangeStreamName r' = "smt_rr_cs_" +:+ ReplaceByte "-" "_" uuid))
  /\ (forall request uuid (st : ExtState World LaunchRequest) r' st',
        validateAndUpdateJobData env request uuid st = (Ret (r', None), st') ->
        JobData.ChangeStreamName r'
        = ReplaceByte "-" "_"
            (if isEmpty (JobData.ChangeStreamName request)
             then "smt-rr-cs-" +:+ uuid else JobData.ChangeStreamName request)).
Proof.
  assert (Hnorm : forall request uuid loc,
            JobData.ChangeStreamName (normalized env request uuid loc)
            = ReplaceByte "-" "_"
                (if isEmpty (JobData.ChangeStreamName request)
                 then "smt-rr-cs-" +:+ uuid else JobData.ChangeStreamName request)).
  { intros request uuid loc. destruct request.
    unfold normalized. cbv zeta. jd_cbn.
    by destruct (isEmpty ChangeStreamName). }
  split; [intros s i; apply ReplaceByte_get|].
  split; [intros s; apply ReplaceByte_length|].
  split; [intros s; by apply ReplaceByte_removes|].
  split; [intros s; apply ReplaceByte_absent|].
  split; [intros s; apply ReplaceByte_absent; by apply ReplaceByte_removes|].
  split; [reflexivity|].
  split.
  - intros request uuid st Hp.
    rewrite (validateAndUpdateJobData_passes env request uuid st Hp).
    do 3 eexists. split; [reflexivity|]. rewrite Hnorm.
    split; [reflexivity|]. split; [by apply ReplaceByte_removes|].
    split.
    + intros ->. split.
      * intros <-. by apply ReplaceByte_removes.
      * apply ReplaceByte_absent.
    + intros ->. reflexivity.
  - intros request uuid st r' st'
      (_ & loc & w' & _ & -> & _)%validateAndUpdateJobData_nil.
    apply Hnorm.
Qed.
End ChangeStreamName.


(** ** The activity loop *)

Lemma transactionsInvoked_app (l1 l2 : list Step) :
  transactionsInvoked (l1 ++ l2) = (transactionsInvoked l1 ++ transactionsInvoked l2)%list.
Proof. unfold transactionsInvoked. by rewrite flat_map_app. Qed.

Lemma compensationsInvoked_app (l1 l2 : list Step) :
  compensationsInvoked (l1 ++ l2) = (compensationsInvoked l1 ++ compensationsInvoked l2)%list.
Proof. unfold compensationsInvoked. by rewrite flat_map_app. Qed.

Lemma transactionsInvoked_map (l : list nat) :
  transactionsInvoked (map InvokeTransaction l) = l.
Proof. induction l as [|i l IH]; simpl; congruence. Qed.

Lemma compensationsInvoked_map (l : list nat) :
  compensationsInvoked (map InvokeTransaction l) = [].
Proof. induction l as [|i l IH]; simpl; congruence. Qed.


Section Loop.
Context {World LaunchRequest : Type}.
Implicit Types (st : OrchState World LaunchRequest)
               (es : ExtState World LaunchRequest)
               (a : @Activity World LaunchRequest)
               (acts pre post : list (@Activity World LaunchRequest)).

(** One turn of the loop. *)
Lemma CreateWorkflow_loop_cons (i : nat) a acts st :
  CreateWorkflow_loop i (a :: acts) st
  = match Transaction a (ext st) with
    | (Ret (Some err), es) =>
        (Ret (Some ("error executing activity #" +:+ fmt_d i +:+ ": " +:+ err)),
         mkOrch es (steps st ++ [InvokeTransaction i]) (heap st))
    | (Ret None, es) =>
        CreateWorkflow_loop (S i) acts
          (mkOrch es (steps st ++ [InvokeTransaction i]) (heap st))
    | (Panic msg, es) =>
        (Panic msg, mkOrch es (steps st ++ [InvokeTransaction i]) (heap st))
    end.
Proof.
  destruct st as [e s h].
  cbn [CreateWorkflow_loop]. unfold bind, step, liftE, zoom, ret. cbn [ext steps heap].
  destruct (Transaction a e) as [[[err|]|msg] es]; reflexivity.
Qed.

(** Whatever the outcome, the loop has invoked the [Transaction]s of a
    prefix of the slice, in order, and nothing else; it does not touch
    the [JobData] variables. *)
Lemma CreateWorkflow_loop_steps acts (i : nat) st :
  exists k, (k <= length acts)%nat
    /\ steps (snd (CreateWorkflow_loop i acts st))
       = (steps st ++ map InvokeTransaction (seq i k))%list
    /\ heap (snd (CreateWorkflow_loop i acts st)) = heap st.
Proof.
  revert i st. induction acts as [|a acts IH]; intros i st.
  - exists 0%nat. simpl. by rewrite app_nil_r.
  - rewrite CreateWorkflow_loop_cons.
    destruct (Transaction a (ext st)) as [[[err|]|msg] es].
    + exists 1%nat. simpl. split; [lia|done].
    + destruct (IH (S i) (mkOrch es (steps st ++ [InvokeTransaction i]) (heap st)))
        as (k & Hk & Hs & Hh).
      exists (S k). split; [simpl; lia|]. rewrite Hs, Hh. simpl.
      by rewrite <- app_assoc.
    + exists 1%nat. simpl. split; [lia|done].
Qed.




(** In no run, failing or not, does the loop invoke a [Compensation]. *)
Lemma CreateWorkflow_loop_compensations acts (i : nat) st :
  compensationsInvoked (steps (snd (CreateWorkflow_loop i acts st)))
  = compensationsInvoked (steps st).
Proof.
  destruct (CreateWorkflow_loop_steps acts i st) as (k & _ & Hs & _).
  by rewrite Hs, compensationsInvoked_app, compensationsInvoked_map, app_nil_r.
Qed.
End Loop.

(** ** The change-stream activity *)

Section ChangeStream.
Context {World LaunchRequest : Type} (env : Env World LaunchRequest).

(** C6: [PrepareChangeStream.Transaction] first asks whether the stream
    exists.  If it exists and its options are wrong, the validation
    error is returned, [ExistsWithIncorrectOptions] is set, and the only
    calls made are the existence check and the validation.  If it exists
    with the right options, [nil] is returned, [Exists] is set, and again
    only those two calls are made.  If it does not exist, the stream is
    created.  In every run, a creation call is made only after the
    existence check answered "no". *)
Theorem PrepareChangeStream_Transaction_cases
    (p : PrepareChangeStream.t) (st : ExtState World LaunchRequest) :
  let input := PrepareChangeStream.Input p in
  let out := PrepareChangeStream.Output p in
  let name := PrepareChangeStreamInput.ChangeStreamName input in
  let dbURI := PrepareChangeStreamInput.DbURI input in
  let jobId := PrepareChangeStreamInput.SmtJobId input in
  (forall w1 w2 err,
      CheckIfChangeStreamExists env name dbURI (world st) = ((true, None), w1) ->
      ValidateChangeStreamOptions env name dbURI w1 = (Some err, w2) ->
      PrepareChangeStream_Transaction env p st
      = (Ret (PrepareChangeStreamOutput.mk
                (PrepareChangeStreamOutput.Exists out) true
                (PrepareChangeStreamOutput.Created out),
              Some err),
         mkExt w2 (events st ++ [EvCheckIfChangeStreamExists name dbURI;
                                 EvValidateChangeStreamOptions name dbURI])))
  /\ (forall w1 w2,
      CheckIfChangeStreamExists env name dbURI (world st) = ((true, None), w1) ->
      ValidateChangeStreamOptions env name dbURI w1 = (None, w2) ->
      PrepareChangeStream_Transaction env p st
      = (Ret (PrepareChangeStreamOutput.mk
                true (PrepareChangeStreamOutput.ExistsWithIncorrectOptions out)
                (PrepareChangeStreamOutput.Created out),
              None),
         mkExt w2 (events st ++ [EvCheckIfChangeStreamExists name dbURI;
                                 EvValidateChangeStreamOptions name dbURI])))
  /\ (forall w1 w2,
      CheckIfChangeStreamExists env name dbURI (world st) = ((false, None), w1) ->
      CreateChangeStreamSMTResource env jobId name dbURI w1 = (None, w2) ->
      PrepareChangeStream_Transaction env p st
      = (Ret (PrepareChangeStreamOutput.mk
                (PrepareChangeStreamOutput.Exists out)
                (PrepareChangeStreamOutput.ExistsWithIncorrectOptions out) true,
              None),
         mkExt w2 (events st ++ [EvCheckIfChangeStreamExists name dbURI;
                                 EvCreateChangeStreamSMTResource jobId name dbURI])))
  /\ (forall j n u,
      In (EvCreateChangeStreamSMTResource j n u)
         (events (snd (PrepareChangeStream_Transaction env p st))) ->
      In (EvCreateChangeStreamSMTResource j n u) (events st)
      \/ exists w1,
           CheckIfChangeStreamExists env name dbURI (world st) = ((false, None), w1)).
Proof.
  destruct st as [w ev]. destruct p as [[jobId name dbURI] out].
  cbn [PrepareChangeStream.Input PrepareChangeStream.Output
       PrepareChangeStreamInput.ChangeStreamName PrepareChangeStreamInput.DbURI
       PrepareChangeStreamInput.SmtJobId world events].
  unfold PrepareChangeStream_Transaction, bind, call, ret.
  cbn [PrepareChangeStream.Input PrepareChangeStream.Output
       PrepareChangeStreamInput.ChangeStreamName PrepareChangeStreamInput.DbURI
       PrepareChangeStreamInput.SmtJobId world events].
  repeat split.
  - intros w1 w2 err -> . cbn. intros ->. by rewrite <- app_assoc.
  - intros w1 w2 -> . cbn. intros ->. by rewrite <- app_assoc.
  - intros w1 w2 -> . cbn. intros ->. by rewrite <- app_assoc.
  - intros j n u.
    destruct (CheckIfChangeStreamExists env name dbURI w) as [[[|] [e|]] w1]; cbn.
    + rewrite in_app_iff. simpl. intuition (discriminate || eauto).
    + destruct (ValidateChangeStreamOptions env name dbURI w1) as [[e|] w2]; cbn;
        rewrite !in_app_iff; simpl; intuition (discriminate || eauto).
    + rewrite in_app_iff. simpl. intuition (discriminate || eauto).
    + intros _. right. by eexists.
Qed.
End ChangeStream.

(** ** The reader activity *)

Section Reader.
Context {World LaunchRequest : Type} (env : Env World LaunchRequest).

(** The resolver on a config in constructor form: it calls no resource
    manager; it panics at the label write exactly when the label map is
    nil, and otherwise returns with the run identifier written. *)
Lemma validateUpdateReaderTuningCfg_outcome
    (cfg : DataflowTuningConfig.t) (p l j : string) (st : ExtState World LaunchRequest) :
  exists st', events st' = events st
    /\ match DataflowTuningConfig.AdditionalUserLabels cfg with
       | None =>
           validateUpdateReaderTuningCfg env cfg p l j st
           = (Panic "assignment to entry in nil map", st')
       | Some labels =>
           exists cfg',
             validateUpdateReaderTuningCfg env cfg p l j st = (Ret cfg', st')
             /\ DataflowTuningConfig.AdditionalUserLabels cfg'
                = Some (<["smt-reverse-replication-reader" := j]> labels)
             /\ DataflowTuningConfig.EnableStreamingEngine cfg' = true
       end.
Proof.
  destruct st as [w ev], cfg. cfg_cbn.
  remember (validateUpdateReaderTuningCfg env _ p l j _) as R eqn:E.
  assert (exists w', snd R = mkExt w' ev
            /\ match AdditionalUserLabels with
               | None => fst R = Panic "assignment to entry in nil map"
               | Some labels =>
                   exists cfg', fst R = Ret cfg'
                     /\ DataflowTuningConfig.AdditionalUserLabels cfg'
                        = Some (<["smt-reverse-replication-reader" := j]> labels)
                     /\ DataflowTuningConfig.EnableStreamingEngine cfg' = true
               end) as (w' & Hs & Hr).
  { revert E.
    cbv delta [validateUpdateReaderTuningCfg]; cbv beta; cfg_cbn.
    assign_step_with DataflowTuningConfig_if_flat ltac:(cfg_cbn).
    unfold bind at 1.
    destruct AdditionalExperiments as [exps|], AdditionalUserLabels as [labels|];
      (destruct (isEmpty JobName); unfold bind, hashStr, ret, panic; cfg_cbn;
       [destruct (GenerateHashStr env w) as [h w1]|]);
      repeat assign_step_with DataflowTuningConfig_if_flat ltac:(cfg_cbn);
      intros ->; eexists; (split; [reflexivity|]); cfg_cbn; try reflexivity;
      eexists; (split; [reflexivity|]); cfg_cbn; done. }
  exists (snd R). rewrite Hs. split; [done|].
  destruct R as [r s]. simpl in *. subst s.
  destruct AdditionalUserLabels; [|by subst r].
  destruct Hr as (cfg' & -> & ? & ?). by exists cfg'.
Qed.

(** The label write: a panic on a nil map, the run identifier in the map
    otherwise. *)
Lemma validateUpdateReaderTuningCfg_label_cases
    (cfg : DataflowTuningConfig.t) (p l j : string) (st : ExtState World LaunchRequest) :
  (exists st',
      validateUpdateReaderTuningCfg env
        (DataflowTuningConfig.set_AdditionalUserLabels None cfg) p l j st
      = (Panic "assignment to entry in nil map", st'))
  /\ (exists st',
      validateUpdateReaderTuningCfg env DataflowTuningConfig.zero p l j st
      = (Panic "assignment to entry in nil map", st'))
  /\ (forall labels, exists cfg' labels' st',
      validateUpdateReaderTuningCfg env
        (DataflowTuningConfig.set_AdditionalUserLabels (Some labels) cfg) p l j st
      = (Ret cfg', st')
      /\ DataflowTuningConfig.AdditionalUserLabels cfg' = Some labels'
      /\ labels' !! "smt-reverse-replication-reader" = Some j).
Proof.
  split; [|split].
  - destruct (validateUpdateReaderTuningCfg_outcome
                (DataflowTuningConfig.set_AdditionalUserLabels None cfg) p l j st)
      as (st' & _ & H).
    by exists st'.
  - destruct (validateUpdateReaderTuningCfg_outcome DataflowTuningConfig.zero p l j st)
      as (st' & _ & H).
    by exists st'.
  - intros labels.
    destruct (validateUpdateReaderTuningCfg_outcome
                (DataflowTuningConfig.set_AdditionalUserLabels (Some labels) cfg) p l j st)
      as (st' & _ & cfg' & H & Hl & _).
    exists cfg', (<["smt-reverse-replication-reader" := j]> labels), st'.
    split; [done|]. split; [done|]. apply lookup_insert_eq.
Qed.
End Reader.

Section ReaderParams.
Context {World LaunchRequest : Type} (env : Env World LaunchRequest).

Lemma Transaction_params_fixed (input : PrepareDataflowReaderInput.t) (k v : string) :
  In (k, v) (fixedReaderParams env input) ->
  Transaction_params env input !! k = Some v.
Proof.
  unfold fixedReaderParams, Transaction_params. intros Hin.
  destruct (negb (isEmpty (PrepareDataflowReaderInput.ShardingCustomJarPath input)));
    cbn [In] in Hin;
    repeat (destruct Hin as [[= <- <-]|Hin];
            [by repeat (rewrite lookup_insert_eq || rewrite lookup_insert_ne by discriminate)|]);
    destruct Hin.
Qed.

Lemma Transaction_params_sharding (input : PrepareDataflowReaderInput.t) :
  Transaction_params env input !! "shardingCustomJarPath"
  = (if isEmpty (PrepareDataflowReaderInput.ShardingCustomJarPath input) then None
     else Some (PrepareDataflowReaderInput.ShardingCustomJarPath input))
  /\ Transaction_params env input !! "shardingCustomClassName"
  = (if isEmpty (PrepareDataflowReaderInput.ShardingCustomJarPath input) then None
     else Some (PrepareDataflowReaderInput.ShardingCustomClassName input)).
Proof.
  unfold Transaction_params.
  destruct (isEmpty (PrepareDataflowReaderInput.ShardingCustomJarPath input));
    cbn [negb]; split;
    by repeat (rewrite lookup_insert_eq || rewrite lookup_insert_ne by discriminate
               || rewrite lookup_empty).
Qed.

(** Every launch request the reader asks for is asked for with the
    parameter map of lines 75-98. *)
Lemma PrepareDataflowReader_Transaction_launch
    (p : PrepareDataflowReader.t) (st : ExtState World LaunchRequest)
    (params : gmap string string) (cfg : DataflowTuningConfig.t) :
  In (EvGetDataflowLaunchRequest params cfg)
     (events (snd (PrepareDataflowReader_Transaction env p st))) ->
  In (EvGetDataflowLaunchRequest params cfg) (events st)
  \/ params = Transaction_params env (PrepareDataflowReader.Input p).
Proof.
  destruct st as [w ev]. destruct p as [input out].
  unfold PrepareDataflowReader_Transaction.
  cbn [PrepareDataflowReader.Input PrepareDataflowReader.Output].
  unfold bind at 1. unfold call at 1. cbn [world events].
  lazymatch goal with
  | |- context [UnmarshalDataflowTuningConfig env ?f w] =>
      destruct (UnmarshalDataflowTuningConfig env f w) as [[cfg0 [e|]] w1]
  end; cbn [fst snd].
  { unfold ret. cbn [snd events]. rewrite in_app_iff. cbn [In].
    intuition discriminate. }
  unfold bind at 1.
  lazymatch goal with
  | |- context [validateUpdateReaderTuningCfg env ?c ?a ?b ?d ?s] =>
      destruct (validateUpdateReaderTuningCfg_outcome env c a b d s)
        as ([w2 ev2] & Hev & H)
  end.
  cbn [events] in Hev. subst ev2.
  destruct (DataflowTuningConfig.AdditionalUserLabels cfg0) as [labels|].
  2:{ rewrite H. cbn [snd events]. rewrite in_app_iff. cbn [In]. intuition discriminate. }
  destruct H as (cfg' & -> & _).
  unfold bind, call, ret. cbn [world events].
  lazymatch goal with
  | |- context [GetDataflowLaunchRequest env ?m cfg' w2] =>
      destruct (GetDataflowLaunchRequest env m cfg' w2) as [[req [e|]] w3]
  end; cbn [fst snd world events].
  { cbn [events]. rewrite !in_app_iff. cbn [In].
    intros [[?|[?|[]]]|[[= <- <-]|[]]]; try discriminate; auto. }
  lazymatch goal with
  | |- context [CreateDataflowSMTResource env ?i req w3] =>
      destruct (CreateDataflowSMTResource env i req w3) as [[id [e|]] w4]
  end; cbn [fst snd events];
    rewrite !in_app_iff; cbn [In];
    intros [[[?|[?|[]]]|[[= <- <-]|[]]]|[?|[]]]; try discriminate; auto.
Qed.

(** C8: the parameter map the reader passes to the launcher holds
    [shardingCustomJarPath] and [shardingCustomClassName] if and only if
    the plugin reference [ShardingCustomJarPath] is not empty; with an
    empty reference neither key is in the map; the seventeen fixed keys
    are in the map in either case, with the values of the input. *)
Theorem PrepareDataflowReader_Transaction_params
    (p : PrepareDataflowReader.t) (st : ExtState World LaunchRequest) :
  let input := PrepareDataflowReader.Input p in
  let jar := PrepareDataflowReaderInput.ShardingCustomJarPath input in
  forall params cfg,
    In (EvGetDataflowLaunchRequest params cfg)
       (events (snd (PrepareDataflowReader_Transaction env p st))) ->
    ~ In (EvGetDataflowLaunchRequest params cfg) (events st) ->
    params = Transaction_params env input
    /\ (is_Some (params !! "shardingCustomJarPath") <-> jar <> "")
    /\ (is_Some (params !! "shardingCustomClassName") <-> jar <> "")
    /\ (jar <> "" ->
        params !! "shardingCustomJarPath" = Some jar
        /\ params !! "shardingCustomClassName"
           = Some (PrepareDataflowReaderInput.ShardingCustomClassName input))
    /\ (jar = "" ->
        params !! "shardingCustomJarPath" = None
        /\ params !! "shardingCustomClassName" = None)
    /\ (forall k v, In (k, v) (fixedReaderParams env input) -> params !! k = Some v).
Proof.
  intros input jar params cfg Hin Hnew.
  destruct (PrepareDataflowReader_Transaction_launch p st params cfg Hin) as [?| ->];
    [done|].
  fold input. split; [done|].
  destruct (Transaction_params_sharding input) as [Hj Hc].
  fold jar in Hj, Hc. rewrite Hj, Hc.
  destruct (isEmpty jar) eqn:E.
  - apply isEmpty_true in E.
    repeat split; try done; try (intros []; discriminate); try (by intros ?).
    apply Transaction_params_fixed.
  - apply isEmpty_false in E.
    repeat split; try done; try (by eexists).
    apply Transaction_params_fixed.
Qed.
End ReaderParams.

(** ** The caller's request *)

Section Frame.
Context {World LaunchRequest : Type} (env : Env World LaunchRequest).

(** Normalisation through a pointer writes the variable it points to and
    no other. *)
Lemma validateAndUpdateJobData_at_frame
    (p a : addr) (uuid : string) (st : OrchState World LaunchRequest) :
  a <> p ->
  heap (snd (validateAndUpdateJobData_at env p uuid st)) !! a = heap st !! a.
Proof.
  intros Hne. destruct st as [[w ev] sts hp]. run_monad.
  destruct (hp !! p) as [r|]; [|done].
  destruct (validateAndUpdateJobData env r uuid _) as [[[r' e]|msg] [w1 ev1]];
    cbn [snd heap]; [|done].
  by rewrite lookup_insert_ne.
Qed.

(** [CreateWorkflow] leaves every [JobData] variable that exists when it
    is called as it was. *)
Lemma CreateWorkflow_frame
    (request : JobData.t) (st : OrchState World LaunchRequest) (a : addr) :
  a ∈ dom (heap st) ->
  heap (snd (CreateWorkflow env request st)) !! a = heap st !! a.
Proof.
  intros Hin. destruct st as [[w ev] sts hp]. cbn [heap] in *.
  assert (Hne : fresh (dom hp) <> a).
  { intros <-. by apply (is_fresh (dom hp)). }
  assert (Hout : forall r1 r2 : JobData.t,
             <[fresh (dom hp) := r1]> (<[fresh (dom hp) := r2]> hp) !! a = hp !! a).
  { intros r1 r2. by rewrite !lookup_insert_ne. }
  run_monad.
  destruct (GenerateHashStr env w) as [uuid w1].
  rewrite lookup_insert_eq.
  destruct (validateAndUpdateJobData env request uuid _) as [[[r' [e|]]|msg] [w2 ev2]];
    cbn [snd heap]; rewrite ?lookup_insert_eq; cbn [snd heap].
  - apply Hout.
  - lazymatch goal with
    | |- context [GetOrCreateClient env ?u ?w'] =>
        destruct (GetOrCreateClient env u w') as [[e|] w3]
    end; cbn [snd heap]; [apply Hout|].
    rewrite lookup_insert_eq.
    destruct (jsonMarshal env r') as [jobData [e|]]; cbn [snd heap]; [apply Hout|].
    lazymatch goal with
    | |- context [CreateWorkflow_loop ?i ?acts ?s] =>
        destruct (CreateWorkflow_loop_steps acts i s) as (k & _ & _ & Hh)
    end.
    destruct (CreateWorkflow_loop _ _ _) as [res [es' sts' hp']].
    cbn [snd heap] in *. subst hp'. apply Hout.
  - by rewrite lookup_insert_ne.
Qed.

(** C10: [CreateWorkflow] takes the request by value.  Whatever the
    call does (succeed, fail validation, fail at an activity, panic), the
    variable its caller holds the request in is left unchanged, and so
    is every other request variable that existed before the call;
    normalisation writes only to the callee's own copy. *)
Theorem CreateWorkflow_leaves_caller_request
    (caller : addr) (r : JobData.t) (st : OrchState World LaunchRequest) :
  heap st !! caller = Some r ->
  heap (snd (callCreateWorkflow env caller st)) !! caller = Some r
  /\ heap (snd (CreateWorkflow env r st)) !! caller = Some r
  /\ (forall a v, heap st !! a = Some v ->
        heap (snd (callCreateWorkflow env caller st)) !! a = Some v)
  /\ (forall p uuid st1, p <> caller ->
        heap (snd (validateAndUpdateJobData_at env p uuid st1)) !! caller
        = heap st1 !! caller).
Proof.
  intros Hc.
  assert (Hcall : callCreateWorkflow env caller st = CreateWorkflow env r st).
  { unfold callCreateWorkflow, bind, load. by rewrite Hc. }
  assert (Hframe : forall a v, heap st !! a = Some v ->
                     heap (snd (CreateWorkflow env r st)) !! a = Some v).
  { intros a v Ha. rewrite CreateWorkflow_frame; [done|].
    apply elem_of_dom. by exists v. }
  rewrite Hcall. repeat split; auto.
  intros p uuid st1 Hne. by apply validateAndUpdateJobData_at_frame.
Qed.
End Frame.

(** ** Concrete runs of the theorems *)

(** C2: at a failing activity the code returns without rolling back.  In
    general no run of the loop invokes a [Compensation].  In the run of
    seven journalling activities whose fourth fails, the journal holds the
    four [Transaction]s and not one of the compensations [C3], [C2], [C1]
    that the rollback contract asks for.  And [CreateWorkflow] on a valid
    request whose change stream exists with wrong options fails at
    activity [#2] having invoked the [Transaction]s of activities 0, 1, 2
    and no [Compensation] of activities 1 and 0. *)
Theorem CreateWorkflow_loop_never_compensates :
  (forall (World LaunchRequest : Type) (acts : list (@Activity World LaunchRequest))
          (i : nat) (st : OrchState World LaunchRequest),
      compensationsInvoked (steps (snd (CreateWorkflow_loop i acts st)))
      = compensationsInvoked (steps st))
  /\ (fst (CreateWorkflow_loop 0 (Scenario.sevenActivities 4) Scenario.os0)
      = Ret (Some "error executing activity #3: boom")
      /\ compensationsInvoked
           (steps (snd (CreateWorkflow_loop 0 (Scenario.sevenActivities 4) Scenario.os0)))
         = []
      /\ world (ext (snd (CreateWorkflow_loop 0 (Scenario.sevenActivities 4) Scenario.os0)))
         = ["T1"; "T2"; "T3"; "T4"])
  /\ (fst (CreateWorkflow (Scenario.env Scenario.setupWrongOptions) Scenario.request
             Scenario.os0)
      = Ret (Some "error executing activity #2: change stream options do not match")
      /\ steps (snd (CreateWorkflow (Scenario.env Scenario.setupWrongOptions)
                       Scenario.request Scenario.os0))
         = [BuildActivities 7; InvokeTransaction 0; InvokeTransaction 1;
            InvokeTransaction 2]
      /\ forallb (fun e => match e with
                           | EvExternalCompensation _ => false
                           | _ => true
                           end)
           (events (ext (snd (CreateWorkflow (Scenario.env Scenario.setupWrongOptions)
                                Scenario.request Scenario.os0))))
         = true).
Proof.
  split; [intros; apply CreateWorkflow_loop_compensations|].
  repeat split; vm_compute; reflexivity.
Qed.



Lemma not_prefixRunIdForm_instance : ~ prefixRunIdForm "abc" "inst-1".
Proof.
  intros [p H].
  repeat (destruct p as [|? p]; simpl in H; try discriminate H; injection H as _ H).
Qed.

Lemma not_prefixRunIdForm_stream : ~ prefixRunIdForm "abc" "smt_rr_cs_abc".
Proof.
  intros [p H].
  repeat (destruct p as [|? p]; simpl in H; try discriminate H; injection H as _ H).
Qed.

(** C4, as the specification words it: on a request that leaves everything unset
    the metadata instance becomes the target instance [inst-1] and the
    change-stream name becomes [smt_rr_cs_abc]; neither is of the form
    <prefix>-<run-id> for the run identifier [abc]. *)
Lemma validateAndUpdateJobData_defaults_counterexample :
  exists r' st',
    validateAndUpdateJobData (Scenario.env Scenario.setup) Scenario.request "abc"
      Scenario.es0 = (Ret (r', None), st')
    /\ JobData.MetadataInstance Scenario.request = ""
    /\ JobData.MetadataInstance r' = "inst-1"
    /\ ~ prefixRunIdForm "abc" (JobData.MetadataInstance r')
    /\ JobData.ChangeStreamName Scenario.request = ""
    /\ JobData.ChangeStreamName r' = "smt_rr_cs_abc"
    /\ ~ prefixRunIdForm "abc" (JobData.ChangeStreamName r').
Proof.
  do 2 eexists. split; [vm_compute; reflexivity|].
  cbn [JobData.MetadataInstance JobData.ChangeStreamName Scenario.request Scenario.mkRequest].
  repeat split.
  - exact not_prefixRunIdForm_instance.
  - exact not_prefixRunIdForm_stream.
Qed.

Lemma validateAndUpdateJobData_defaults_witness :
  (exists r' st',
      validateAndUpdateJobData (Scenario.env Scenario.setup) Scenario.request "abc"
        Scenario.es0 = (Ret (r', None), st')
      /\ JobData.JobName r' = "smt-job-abc"
      /\ JobData.MetadataDatabase r' = "smt-rr-metadata-abc"
      /\ JobData.MetadataInstance r' = "inst-1"
      /\ JobData.GcsDataDirectory r' = "gs://smt-rr-gcs-abc/reverse-replication/data"
      /\ JobData.ChangeStreamName r' = "smt_rr_cs_abc")
  /\ (exists r' e,
        validateAndUpdateJobData (Scenario.env Scenario.setup) Scenario.requestBadDirectory
          "abc" Scenario.es0 = (Ret (r', Some e), Scenario.es0)).
Proof.
  destruct (validateAndUpdateJobData_defaults (Scenario.env Scenario.setup)
              Scenario.request "abc" Scenario.es0) as [Hdef _].
  destruct (validateAndUpdateJobData_defaults (Scenario.env Scenario.setup)
              Scenario.requestBadDirectory "abc" Scenario.es0) as [_ Hbad].
  split.
  - destruct (validateAndUpdateJobData (Scenario.env Scenario.setup) Scenario.request "abc"
                Scenario.es0) as [[[r' [e|]]|msg] st'] eqn:E;
      try (vm_compute in E; discriminate E).
    destruct (Hdef r' st' eq_refl) as (Hj & Hd & Hi & Hg & Hc).
    exists r', st'. split; [reflexivity|].
    split; [exact (proj1 (Hj eq_refl))|].
    split; [exact (proj1 (Hd eq_refl))|].
    split; [exact (Hi eq_refl)|].
    split; [exact (Hg eq_refl)|exact (Hc eq_refl)].
  - apply Hbad; [discriminate|reflexivity].
Defined.

Lemma CreateWorkflow_missing_required_field_witness :
  exists st',
    CreateWorkflow (Scenario.env Scenario.setup) Scenario.requestNoDatabase Scenario.os0
    = (Ret (Some "error in validateCreateRequest: found empty DatabaseId which is a required parameter"),
       st')
    /\ steps st' = []
    /\ events (ext st') = [].
Proof.
  destruct (CreateWorkflow_missing_required_field (Scenario.env Scenario.setup)
              Scenario.requestNoDatabase Scenario.os0)
    as (f & Hin & Hf & _ & st' & Hrun & Hsteps & _ & Hev).
  { exists ("DatabaseId", ""). split; [right; left; reflexivity|reflexivity]. }
  exists st'. split; [|split; [exact Hsteps|exact Hev]].
  rewrite Hrun.
  destruct Hin as [<-|[<-|[<-|[<-|[<-|[]]]]]]; try discriminate Hf.
  reflexivity.
Defined.

Lemma validateAndUpdateJobData_staging_bucket_witness :
  exists r' e st',
    validateAndUpdateJobData (Scenario.env Scenario.setup) Scenario.requestStaged "abc"
      Scenario.es0 = (Ret (r', e), st')
    /\ JobData.IsSMTBucketRequired r' = false
    /\ JobData.SmtBucketName r' = "".
Proof.
  destruct (validateAndUpdateJobData_staging_bucket (Scenario.env Scenario.setup)
              Scenario.requestStaged "abc" Scenario.es0)
    as (r' & e & st' & Hrun & Hreq & Hname & _).
  exists r', e, st'. split; [exact Hrun|]. split; [exact Hreq|exact Hname].
Defined.

Lemma changeStreamName_normalization_witness :
  exists r' st',
    validateAndUpdateJobData (Scenario.env Scenario.setup) Requests.named "abc"
      Scenario.es0 = (Ret (r', None), st')
    /\ JobData.ChangeStreamName Requests.named = "a-b-c"
    /\ JobData.ChangeStreamName r' = "a_b_c"
    /\ ReplaceByte "-" "_" "smt_rr_cs" = "smt_rr_cs"
    /\ ReplaceByte "-" "_" (ReplaceByte "-" "_" "smt-rr-cs-abc")
       = ReplaceByte "-" "_" "smt-rr-cs-abc".
Proof.
  destruct (changeStreamName_normalization (Scenario.env Scenario.setup))
    as (_ & _ & _ & Hsame & Hidem & _ & Hrun & _).
  destruct (Hrun Requests.named "abc" Scenario.es0 eq_refl)
    as (r' & e & st' & Hr & Hname & _).
  destruct e as [e|]; [vm_compute in Hr; discriminate Hr|].
  exists r', st'. split; [exact Hr|]. split; [reflexivity|].
  split; [exact Hname|]. split; [apply Hsame; reflexivity|apply Hidem].
Defined.

Lemma PrepareChangeStream_Transaction_cases_witness :
  PrepareChangeStream_Transaction (Scenario.env Scenario.setupWrongOptions)
    Scenario.changeStream Scenario.es0
  = (Ret (PrepareChangeStreamOutput.mk false true false,
          Some "change stream options do not match"),
     mkExt []
       [EvCheckIfChangeStreamExists "smt_rr_cs_abc"
          "projects/p1/instances/inst-1/databases/db-1";
        EvValidateChangeStreamOptions "smt_rr_cs_abc"
          "projects/p1/instances/inst-1/databases/db-1"])
  /\ PrepareChangeStream_Transaction (Scenario.env Scenario.setupRightOptions)
       Scenario.changeStream Scenario.es0
     = (Ret (PrepareChangeStreamOutput.mk true false false, None),
        mkExt []
          [EvCheckIfChangeStreamExists "smt_rr_cs_abc"
             "projects/p1/instances/inst-1/databases/db-1";
           EvValidateChangeStreamOptions "smt_rr_cs_abc"
             "projects/p1/instances/inst-1/databases/db-1"]).
Proof.
  split.
  - exact (proj1 (PrepareChangeStream_Transaction_cases
                    (Scenario.env Scenario.setupWrongOptions)
                    Scenario.changeStream Scenario.es0)
             [] [] "change stream options do not match" eq_refl eq_refl).
  - exact (proj1 (proj2 (PrepareChangeStream_Transaction_cases
                           (Scenario.env Scenario.setupRightOptions)
                           Scenario.changeStream Scenario.es0))
             [] [] eq_refl eq_refl).
Defined.

Lemma CreateWorkflow_leaves_caller_request_witness :
  Scenario.callerState.(heap) !! 1%positive = Some Scenario.request
  /\ heap (snd (callCreateWorkflow (Scenario.env Scenario.setup) 1%positive
                  Scenario.callerState)) !! 1%positive
     = Some Scenario.request
  /\ fst (callCreateWorkflow (Scenario.env Scenario.setup) 1%positive Scenario.callerState)
     = Ret None.
Proof.
  split; [reflexivity|]. split; [|vm_compute; reflexivity].
  exact (proj1 (CreateWorkflow_leaves_caller_request (Scenario.env Scenario.setup)
                  1%positive Scenario.request Scenario.callerState eq_refl)).
Defined.

(** C7: the label write of the tuning config resolver.  For every config
    whose [AdditionalUserLabels] is the nil map, the zero config that an
    empty tuning blob unmarshals to among them, the resolver does not
    return: the assignment panics.  With a map in place it returns and the
    map holds the run identifier under [smt-reverse-replication-reader].
    The reader's [Transaction], and with it [CreateWorkflow] on a valid
    request, panic the same way when the tuning blob sets no labels. *)
Theorem validateUpdateReaderTuningCfg_label_write :
  (forall (World LaunchRequest : Type) (env : Env World LaunchRequest)
          (cfg : DataflowTuningConfig.t) (p l j : string)
          (st : ExtState World LaunchRequest),
      (exists st',
          validateUpdateReaderTuningCfg env
            (DataflowTuningConfig.set_AdditionalUserLabels None cfg) p l j st
          = (Panic "assignment to entry in nil map", st'))
      /\ (exists st',
          validateUpdateReaderTuningCfg env DataflowTuningConfig.zero p l j st
          = (Panic "assignment to entry in nil map", st'))
      /\ (forall labels, exists cfg' labels' st',
          validateUpdateReaderTuningCfg env
            (DataflowTuningConfig.set_AdditionalUserLabels (Some labels) cfg) p l j st
          = (Ret cfg', st')
          /\ DataflowTuningConfig.AdditionalUserLabels cfg' = Some labels'
          /\ labels' !! "smt-reverse-replication-reader" = Some j))
  /\ fst (PrepareDataflowReader_Transaction (Scenario.env Scenario.setupNoLabels)
            (Scenario.reader "" "") Scenario.es0)
     = Panic "assignment to entry in nil map"
  /\ fst (CreateWorkflow (Scenario.env Scenario.setupNoLabels) Scenario.request
            Scenario.os0)
     = Panic "assignment to entry in nil map".
Proof.
  split; [intros; apply validateUpdateReaderTuningCfg_label_cases|].
  split; vm_compute; reflexivity.
Qed.

(** The reader of the scenario asks for one launch request, with the
    resolved tuning config. *)
Lemma Scenario_reader_launch :
  In (EvGetDataflowLaunchRequest
        (Transaction_params (Scenario.env Scenario.setup)
           (Scenario.readerInput "gs://plugins/shard.jar" "com.example.Shard"))
        {| DataflowTuningConfig.ProjectId := "p1";
           DataflowTuningConfig.JobName := "smt-reverse-replication-reader-abc";
           DataflowTuningConfig.Location := "us-central1";
           DataflowTuningConfig.MaxWorkers := 50;
           DataflowTuningConfig.NumWorkers := 5;
           DataflowTuningConfig.MachineType := "n1-standard-2";
           DataflowTuningConfig.AdditionalUserLabels :=
             Some (<["smt-reverse-replication-reader" := "smt-job-abc"]> ∅);
           DataflowTuningConfig.GcsTemplatePath := "gs://templates/reader";
           DataflowTuningConfig.AdditionalExperiments := Some ["use_runner_v2"];
           DataflowTuningConfig.EnableStreamingEngine := true |})
     (events (snd (PrepareDataflowReader_Transaction (Scenario.env Scenario.setup)
                     (Scenario.reader "gs://plugins/shard.jar" "com.example.Shard")
                     Scenario.es0))).
Proof. lazy -[Transaction_params insert]. right. left. reflexivity. Qed.

Lemma PrepareDataflowReader_Transaction_params_witness :
  exists params cfg,
    In (EvGetDataflowLaunchRequest params cfg)
       (events (snd (PrepareDataflowReader_Transaction (Scenario.env Scenario.setup)
                       (Scenario.reader "gs://plugins/shard.jar" "com.example.Shard")
                       Scenario.es0)))
    /\ params !! "shardingCustomJarPath" = Some "gs://plugins/shard.jar"
    /\ params !! "shardingCustomClassName" = Some "com.example.Shard"
    /\ params !! "runMode" = Some "regular"
    /\ params !! "changeStreamName" = Some "smt_rr_cs_abc".
Proof.
  eexists _, _. split; [exact Scenario_reader_launch|].
  destruct (PrepareDataflowReader_Transaction_params (Scenario.env Scenario.setup)
              (Scenario.reader "gs://plugins/shard.jar" "com.example.Shard")
              Scenario.es0 _ _ Scenario_reader_launch)
    as (_ & _ & _ & Hjar & _ & Hfixed).
  { intros []. }
  destruct Hjar as [Hj Hc]; [discriminate|].
  split; [exact Hj|]. split; [exact Hc|].
  split; apply Hfixed.
  - do 16 right. left. reflexivity.
  - left. reflexivity.
Defined.

(** * Further properties of the code *)

Section NormalizerProperties.
Context {World LaunchRequest : Type} (env : Env World LaunchRequest).

(** What passing the checks says of the request, check by check. *)
Lemma passesChecks_inv (request : JobData.t) :
  passesChecks env request = true ->
  isEmpty (JobData.InstanceId request) = false
  /\ isEmpty (JobData.DatabaseId request) = false
  /\ isEmpty (JobData.SessionFilePath request) = false
  /\ isEmpty (JobData.SourceConnectionConfig request) = false
  /\ isEmpty (JobData.SpannerProjectId request) = false
  /\ isEmpty (JobData.SourceType request)
     || String.eqb (JobData.SourceType request) constants.MYSQL = true
  /\ isEmpty (JobData.GcsDataDirectory request)
     || HasPrefix (JobData.GcsDataDirectory request) constants.GCS_FILE_PREFIX = true
  /\ isEmpty (JobData.FiltrationMode request)
     || Contains [RR_READER_FILTER_FWD env; RR_READER_FILTER_NONE env]
                 (JobData.FiltrationMode request) = true
  /\ Bool.eqb (isEmpty (JobData.ShardingCustomJarPath request))
              (isEmpty (JobData.ShardingCustomClassName request)) = true
  /\ isEmpty (JobData.ShardingCustomJarPath request)
     || HasPrefix (JobData.ShardingCustomJarPath request) constants.GCS_FILE_PREFIX = true.
Proof.
  unfold passesChecks. intros H.
  repeat (apply andb_prop in H; destruct H as [H ?]).
  repeat match goal with
         | H : negb _ = true |- _ => apply negb_true_iff in H
         end.
  tauto.
Qed.

(** X1: [validateAndUpdateJobData] always returns.  When the request
    passes every check it makes exactly one call, the leader-location
    lookup for [projects/<project>/instances/<instance>], as its last
    statement, and returns that call's error (nil or not) with the
    location stored in the request.  When a check fails it returns the
    message of the first failing check, in the order of the source, and
    has called nothing. *)
Theorem validateAndUpdateJobData_call_discipline
    (request : JobData.t) (uuid : string) (st : ExtState World LaunchRequest) :
  exists r' e st',
    validateAndUpdateJobData env request uuid st = (Ret (r', e), st')
    /\ (passesChecks env request = true ->
        failedCheck env request = None
        /\ events st' = (events st ++ [EvGetSpannerLeaderLocation (instanceUri request)])%list
        /\ GetSpannerLeaderLocation env (instanceUri request) (world st)
           = ((JobData.SpannerLocation r', e), world st'))
    /\ (passesChecks env request = false ->
        st' = st /\ e = failedCheck env request /\ e <> None).
Proof.
  destruct (validateAndUpdateJobData_cases env request uuid st)
    as [[Hp ->]|(e & r0 & Hf & Hp & ->)].
  - do 3 eexists. split; [reflexivity|]. rewrite Hp. split; [|done].
    intros _. split; [by apply failedCheck_None|]. split; [done|].
    unfold normalized. cbv zeta. jd_cbn. cbn [world].
    by destruct (GetSpannerLeaderLocation env (instanceUri request) (world st)) as [[? ?] ?].
  - do 3 eexists. split; [reflexivity|]. rewrite Hp. split; [done|].
    intros _. by rewrite Hf.
Qed.

(** X2: a request that passed normalisation has source type [mysql],
    and it came with that type or with none.  A request with any other
    source type, its five required fields given, is rejected with the
    message naming the type, before anything is called. *)
Theorem validateAndUpdateJobData_source_type
    (request : JobData.t) (uuid : string) (st : ExtState World LaunchRequest) :
  (forall r' st',
      validateAndUpdateJobData env request uuid st = (Ret (r', None), st') ->
      JobData.SourceType r' = constants.MYSQL
      /\ (JobData.SourceType request = "" \/ JobData.SourceType request = constants.MYSQL))
  /\ ((forall f, In f (requiredFields request) -> snd f <> "") ->
      JobData.SourceType request <> "" ->
      JobData.SourceType request <> constants.MYSQL ->
      exists r',
        validateAndUpdateJobData env request uuid st
        = (Ret (r', Some (JobData.SourceType request
                          +:+ " is not a valid source type for reverse replication. Only supported source type is mysql")),
           st)).
Proof.
  split.
  - intros r' st' (Hp & loc & w' & _ & -> & _)%validateAndUpdateJobData_nil.
    apply passesChecks_inv in Hp as (_ & _ & _ & _ & _ & Hst & _).
    unfold normalized. cbv zeta. jd_cbn.
    destruct (isEmpty (JobData.SourceType request)) eqn:E.
    + apply isEmpty_true in E. auto.
    + cbn [orb] in Hst. apply String.eqb_eq in Hst. auto.
  - intros Hreq Hne Hmy. apply validateAndUpdateJobData_rejects.
    unfold failedCheck.
    assert (Hf : forall n v, In (n, v) (requiredFields request) -> isEmpty v = false).
    { intros n v Hin. apply isEmpty_false. exact (Hreq (n, v) Hin). }
    unfold requiredFields in Hf. cbn [In] in Hf.
    rewrite (Hf "InstanceId") by auto.
    rewrite (Hf "DatabaseId") by auto 10.
    rewrite (Hf "SessionFilePath") by auto 10.
    rewrite (Hf "SourceConnectionConfig") by auto 10.
    rewrite (Hf "SpannerProjectId") by auto 10.
    apply isEmpty_false in Hne. rewrite Hne.
    apply String.eqb_neq in Hmy. by rewrite Hmy.
Qed.

(** X3: a request that passed normalisation has one of the two allowed
    filtration modes: the forward mode when the request gave none, the
    request's own otherwise.  A request with a filtration mode that is
    neither empty nor one of the two is rejected before anything is
    called. *)
Theorem validateAndUpdateJobData_filtration_mode
    (request : JobData.t) (uuid : string) (st : ExtState World LaunchRequest) :
  (forall r' st',
      validateAndUpdateJobData env request uuid st = (Ret (r', None), st') ->
      JobData.FiltrationMode r'
      = (if isEmpty (JobData.FiltrationMode request)
         then RR_READER_FILTER_FWD env else JobData.FiltrationMode request)
      /\ (JobData.FiltrationMode r' = RR_READER_FILTER_FWD env
          \/ JobData.FiltrationMode r' = RR_READER_FILTER_NONE env))
  /\ (JobData.FiltrationMode request <> "" ->
      JobData.FiltrationMode request <> RR_READER_FILTER_FWD env ->
      JobData.FiltrationMode request <> RR_READER_FILTER_NONE env ->
      exists r' e, validateAndUpdateJobData env request uuid st = (Ret (r', Some e), st)).
Proof.
  split.
  - intros r' st' (Hp & loc & w' & _ & -> & _)%validateAndUpdateJobData_nil.
    apply passesChecks_inv in Hp as (_ & _ & _ & _ & _ & _ & _ & Hfm & _).
    unfold normalized. cbv zeta. jd_cbn. split; [done|].
    destruct (isEmpty (JobData.FiltrationMode request)); [by left|].
    cbn [orb Contains existsb] in Hfm.
    apply orb_true_iff in Hfm as [H|H].
    + apply String.eqb_eq in H. by left.
    + rewrite orb_false_r in H. apply String.eqb_eq in H. by right.
  - intros Hne Hfwd Hnone.
    destruct (validateAndUpdateJobData_cases env request uuid st)
      as [[Hp _]|(e & r0 & _ & _ & ->)]; [|by eauto].
    apply passesChecks_inv in Hp as (_ & _ & _ & _ & _ & _ & _ & Hfm & _).
    apply isEmpty_false in Hne. rewrite Hne in Hfm.
    cbn [orb Contains existsb] in Hfm.
    apply orb_true_iff in Hfm as [H|H].
    + apply String.eqb_eq in H. done.
    + rewrite orb_false_r in H. apply String.eqb_eq in H. done.
Qed.


(** X5: the sharding plugin is given whole or not at all.  A request
    that passed normalisation keeps its jar path and class name, and
    either both are empty or both are set and the jar path is under
    [gs://].  A request with only one of the two, or with a jar path
    elsewhere, is rejected before anything is called. *)
Theorem validateAndUpdateJobData_sharding
    (request : JobData.t) (uuid : string) (st : ExtState World LaunchRequest) :
  (forall r' st',
      validateAndUpdateJobData env request uuid st = (Ret (r', None), st') ->
      JobData.ShardingCustomJarPath r' = JobData.ShardingCustomJarPath request
      /\ JobData.ShardingCustomClassName r' = JobData.ShardingCustomClassName request
      /\ ((JobData.ShardingCustomJarPath r' = "" /\ JobData.ShardingCustomClassName r' = "")
          \/ (JobData.ShardingCustomJarPath r' <> ""
              /\ JobData.ShardingCustomClassName r' <> ""
              /\ HasPrefix (JobData.ShardingCustomJarPath r') constants.GCS_FILE_PREFIX = true)))
  /\ ((JobData.ShardingCustomJarPath request <> ""
       /\ JobData.ShardingCustomClassName request = "")
      \/ (JobData.ShardingCustomJarPath request = ""
          /\ JobData.ShardingCustomClassName request <> "")
      \/ (JobData.ShardingCustomJarPath request <> ""
          /\ HasPrefix (JobData.ShardingCustomJarPath request) constants.GCS_FILE_PREFIX
             = false) ->
      exists r' e, validateAndUpdateJobData env request uuid st = (Ret (r', Some e), st)).
Proof.
  split.
  - intros r' st' (Hp & loc & w' & _ & -> & _)%validateAndUpdateJobData_nil.
    apply passesChecks_inv in Hp as (_ & _ & _ & _ & _ & _ & _ & _ & Heq & Hjar).
    unfold normalized. cbv zeta. jd_cbn. split; [done|]. split; [done|].
    destruct (isEmpty (JobData.ShardingCustomJarPath request)) eqn:Ej,
             (isEmpty (JobData.ShardingCustomClassName request)) eqn:Ec;
      try discriminate Heq.
    + left. by split; apply isEmpty_true.
    + right. cbn [orb] in Hjar. by repeat split; try apply isEmpty_false.
  - intros Hbad.
    destruct (validateAndUpdateJobData_cases env request uuid st)
      as [[Hp _]|(e & r0 & _ & _ & ->)]; [|by eauto].
    apply passesChecks_inv in Hp as (_ & _ & _ & _ & _ & _ & _ & _ & Heq & Hjar).
    exfalso.
    destruct Hbad as [[Hj Hc]|[[Hj Hc]|[Hj Hpre]]].
    + apply isEmpty_false in Hj. apply isEmpty_true in Hc. by rewrite Hj, Hc in Heq.
    + apply isEmpty_true in Hj. apply isEmpty_false in Hc. by rewrite Hj, Hc in Heq.
    + apply isEmpty_false in Hj. by rewrite Hj, Hpre in Hjar.
Qed.

(** X6: after a normalisation that passed, the session file path, the
    source connection path and the data directory the later activities
    read are all under [gs://].  A description that was hosted keeps its
    place; one that was not is placed in the bucket of the run, which is
    then never the empty name; a data directory that was not given is
    placed in that bucket too. *)
Theorem validateAndUpdateJobData_gcs_paths
    (request r' : JobData.t) (uuid : string) (st st' : ExtState World LaunchRequest) :
  validateAndUpdateJobData env request uuid st = (Ret (r', None), st') ->
  HasPrefix (JobData.SessionFileGcsPath r') constants.GCS_FILE_PREFIX = true
  /\ HasPrefix (JobData.SourceConnectionConfigGcsPath r') constants.GCS_FILE_PREFIX = true
  /\ HasPrefix (JobData.GcsDataDirectory r') constants.GCS_FILE_PREFIX = true
  /\ JobData.SessionFileGcsPath r'
     = (if HasPrefix (JobData.SessionFilePath request) constants.GCS_FILE_PREFIX
        then JobData.SessionFilePath request
        else "gs://smt-rr-gcs-" +:+ uuid +:+ "/session.json")
  /\ JobData.SourceConnectionConfigGcsPath r'
     = (if HasPrefix (JobData.SourceConnectionConfig request) constants.GCS_FILE_PREFIX
        then JobData.SourceConnectionConfig request
        else "gs://smt-rr-gcs-" +:+ uuid +:+ "/source-connection-config.json")
  /\ JobData.GcsDataDirectory r'
     = (if isEmpty (JobData.GcsDataDirectory request)
        then "gs://smt-rr-gcs-" +:+ uuid +:+ "/reverse-replication/data"
        else JobData.GcsDataDirectory request).
Proof.
  intros (Hp & loc & w' & _ & -> & _)%validateAndUpdateJobData_nil.
  apply passesChecks_inv in Hp as (_ & _ & _ & _ & _ & _ & Hgcs & _).
  unfold normalized, alreadyStaged. cbv zeta. jd_cbn.
  destruct (HasPrefix (JobData.SessionFilePath request) constants.GCS_FILE_PREFIX) eqn:Hs,
           (HasPrefix (JobData.SourceConnectionConfig request) constants.GCS_FILE_PREFIX) eqn:Hc,
           (isEmpty (JobData.GcsDataDirectory request)) eqn:Hd;
    cbn [andb negb orb] in *; repeat split; done.
Qed.

(** What every return path of [validateAndUpdateJobData] leaves of the
    request.  The change-stream name is only rewritten by the statement
    before the lookup. *)
Lemma validateAndUpdateJobData_frame
    (request : JobData.t) (uuid : string) (st : ExtState World LaunchRequest) :
  exists r' e st',
    validateAndUpdateJobData env request uuid st = (Ret (r', e), st')
    /\ (isEmpty (JobData.ChangeStreamName request) = false ->
        (JobData.ChangeStreamName r' = JobData.ChangeStreamName request
         /\ length (events st') = length (events st))
        \/ (JobData.ChangeStreamName r'
            = ReplaceByte "-" "_" (JobData.ChangeStreamName request)
            /\ length (events st') = S (length (events st))))
    /\ (JobData.SessionFilePath r' = JobData.SessionFilePath request
        /\ JobData.SourceConnectionConfig r' = JobData.SourceConnectionConfig request
        /\ JobData.InstanceId r' = JobData.InstanceId request
        /\ JobData.DatabaseId r' = JobData.DatabaseId request
        /\ JobData.SpannerProjectId r' = JobData.SpannerProjectId request
        /\ JobData.ShardingCustomJarPath r' = JobData.ShardingCustomJarPath request
        /\ JobData.ShardingCustomClassName r' = JobData.ShardingCustomClassName request
        /\ JobData.StartTimestamp r' = JobData.StartTimestamp request
        /\ JobData.EndTimestamp r' = JobData.EndTimestamp request
        /\ JobData.MetadataTableSuffix r' = JobData.MetadataTableSuffix request
        /\ JobData.SkipDirectoryName r' = JobData.SkipDirectoryName request
        /\ JobData.ReaderCfg r' = JobData.ReaderCfg request
        /\ JobData.WriterCfg r' = JobData.WriterCfg request
        /\ JobData.SourceDbTimezoneOffset r' = JobData.SourceDbTimezoneOffset request)
    /\ (isEmpty (JobData.JobName request) = false ->
        JobData.JobName r' = JobData.JobName request)
    /\ (isEmpty (JobData.SourceType request) = false ->
        JobData.SourceType r' = JobData.SourceType request)
    /\ (isEmpty (JobData.MetadataInstance request) = false ->
        JobData.MetadataInstance r' = JobData.MetadataInstance request)
    /\ (isEmpty (JobData.MetadataDatabase request) = false ->
        JobData.MetadataDatabase r' = JobData.MetadataDatabase request)
    /\ (isEmpty (JobData.GcsDataDirectory request) = false ->
        JobData.GcsDataDirectory r' = JobData.GcsDataDirectory request)
    /\ (isEmpty (JobData.FiltrationMode request) = false ->
        JobData.FiltrationMode r' = JobData.FiltrationMode request)
    /\ (isEmpty (JobData.WindowDuration request) = false ->
        JobData.WindowDuration r' = JobData.WindowDuration request)
    /\ (1 <= JobData.TimerInterval request ->
        JobData.TimerInterval r' = JobData.TimerInterval request).
Proof.
  remember (validateAndUpdateJobData env request uuid st) as R eqn:E.
  revert E. destruct request.
  run_validate env
    ltac:(intros ->; do 3 eexists; split; [reflexivity|]; jd_cbn;
          split;
          [ intros Hcs; rewrite ?Hcs; cbn [events];
            first [ left; split; reflexivity
                  | right; split; [reflexivity|];
                    rewrite length_app; cbn [length]; lia ]
          | split; [done|];
            repeat split; try (by intros ->); try done;
            intros Ht; apply Z.ltb_ge in Ht; by rewrite ?Ht ]).
Qed.

(** X7: what [validateAndUpdateJobData] keeps of the request, on every
    return path, failing or not.  The fields that only describe the
    request are as they were at entry.  The job name, the source type,
    the metadata instance and database, the staging data directory, the
    filtration mode and the window duration hold the request's own value
    whenever the request gave one, and so does the timer interval when
    the request gave one of at least 1.  The change-stream name is the
    exception: a name the request gave is kept as it is only when a check
    fails; when all checks pass every hyphen in it is replaced by an
    underscore, so that it is kept only if it has no hyphen. *)
Theorem validateAndUpdateJobData_keeps_given
    (request : JobData.t) (uuid : string) (st : ExtState World LaunchRequest) :
  exists r' e st',
    validateAndUpdateJobData env request uuid st = (Ret (r', e), st')
    /\ (JobData.SessionFilePath r' = JobData.SessionFilePath request
        /\ JobData.SourceConnectionConfig r' = JobData.SourceConnectionConfig request
        /\ JobData.InstanceId r' = JobData.InstanceId request
        /\ JobData.DatabaseId r' = JobData.DatabaseId request
        /\ JobData.SpannerProjectId r' = JobData.SpannerProjectId request
        /\ JobData.ShardingCustomJarPath r' = JobData.ShardingCustomJarPath request
        /\ JobData.ShardingCustomClassName r' = JobData.ShardingCustomClassName request
        /\ JobData.StartTimestamp r' = JobData.StartTimestamp request
        /\ JobData.EndTimestamp r' = JobData.EndTimestamp request
        /\ JobData.MetadataTableSuffix r' = JobData.MetadataTableSuffix request
        /\ JobData.SkipDirectoryName r' = JobData.SkipDirectoryName request
        /\ JobData.ReaderCfg r' = JobData.ReaderCfg request
        /\ JobData.WriterCfg r' = JobData.WriterCfg request
        /\ JobData.SourceDbTimezoneOffset r' = JobData.SourceDbTimezoneOffset request)
    /\ (isEmpty (JobData.JobName request) = false ->
        JobData.JobName r' = JobData.JobName request)
    /\ (isEmpty (JobData.SourceType request) = false ->
        JobData.SourceType r' = JobData.SourceType request)
    /\ (isEmpty (JobData.MetadataInstance request) = false ->
        JobData.MetadataInstance r' = JobData.MetadataInstance request)
    /\ (isEmpty (JobData.MetadataDatabase request) = false ->
        JobData.MetadataDatabase r' = JobData.MetadataDatabase request)
    /\ (isEmpty (JobData.GcsDataDirectory request) = false ->
        JobData.GcsDataDirectory r' = JobData.GcsDataDirectory request)
    /\ (isEmpty (JobData.FiltrationMode request) = false ->
        JobData.FiltrationMode r' = JobData.FiltrationMode request)
    /\ (isEmpty (JobData.WindowDuration request) = false ->
        JobData.WindowDuration r' = JobData.WindowDuration request)
    /\ (1 <= JobData.TimerInterval request ->
        JobData.TimerInterval r' = JobData.TimerInterval request)
    /\ (isEmpty (JobData.ChangeStreamName request) = false ->
        JobData.ChangeStreamName r'
        = (if passesChecks env request
           then ReplaceByte "-" "_" (JobData.ChangeStreamName request)
           else JobData.ChangeStreamName request)
        /\ (JobData.ChangeStreamName r' = JobData.ChangeStreamName request
            <-> passesChecks env request = false
                \/ ContainsByte "-" (JobData.ChangeStreamName request) = false)).
Proof.
  destruct (validateAndUpdateJobData_frame request uuid st)
    as (r' & e & st' & Hrun & Hname & Hrest).
  exists r', e, st'. split; [exact Hrun|].
  assert (Hcs : isEmpty (JobData.ChangeStreamName request) = false ->
                JobData.ChangeStreamName r'
                = (if passesChecks env request
                   then ReplaceByte "-" "_" (JobData.ChangeStreamName request)
                   else JobData.ChangeStreamName request)).
  { intros Hgiven. specialize (Hname Hgiven).
    destruct (validateAndUpdateJobData_cases env request uuid st)
      as [[Hp Hpass]|(e0 & r0 & _ & Hp & Hfail)]; rewrite Hp.
    - rewrite Hpass in Hrun. injection Hrun as <- _ _.
      unfold normalized. cbv zeta. jd_cbn.
      unfold JobData.set_ChangeStreamName. jd_cbn. by rewrite Hgiven.
    - rewrite Hfail in Hrun. injection Hrun as _ _ <-.
      destruct Hname as [[Hn _]|[_ Hl]]; [exact Hn|lia]. }
  repeat match type of Hrest with
         | _ /\ _ => destruct Hrest as [? Hrest]
         end.
  repeat (split; [assumption|]).
  intros Hgiven. split; [by apply Hcs|].
  rewrite (Hcs Hgiven).
  destruct (passesChecks env request).
  - split.
    + intros Heq. right.
      rewrite <- Heq. by apply ReplaceByte_removes.
    + intros [?|Hno]; [done|]. by apply ReplaceByte_absent.
  - split; [by left|done].
Qed.
End NormalizerProperties.

Section NormalizerBucket.
Context {World LaunchRequest : Type} (env : Env World LaunchRequest).

Lemma ReplaceByte_isEmpty (old new : ascii) (s : string) :
  isEmpty (ReplaceByte old new s) = isEmpty s.
Proof. by destruct s. Qed.

Lemma ReplaceByte_idempotent (s : string) :
  ReplaceByte "-" "_" (ReplaceByte "-" "_" s) = ReplaceByte "-" "_" s.
Proof. apply ReplaceByte_absent, ReplaceByte_removes. discriminate. Qed.

(** X8: after a normalisation that passed, the staging flag, the bucket
    name and the three paths agree.  With staging marked unnecessary the
    bucket name is empty and the three paths are the request's own.  With
    staging marked required the bucket is [smt-rr-gcs-<run-id>], and each
    of the three paths is either the request's own or lies in that
    bucket. *)
Theorem validateAndUpdateJobData_bucket_paths
    (request r' : JobData.t) (uuid : string) (st st' : ExtState World LaunchRequest) :
  validateAndUpdateJobData env request uuid st = (Ret (r', None), st') ->
  (JobData.IsSMTBucketRequired r' = false ->
   JobData.SmtBucketName r' = ""
   /\ JobData.SessionFileGcsPath r' = JobData.SessionFilePath request
   /\ JobData.SourceConnectionConfigGcsPath r' = JobData.SourceConnectionConfig request
   /\ JobData.GcsDataDirectory r' = JobData.GcsDataDirectory request)
  /\ (JobData.IsSMTBucketRequired r' = true ->
      JobData.SmtBucketName r' = "smt-rr-gcs-" +:+ uuid
      /\ (JobData.SessionFileGcsPath r' = JobData.SessionFilePath request
          \/ JobData.SessionFileGcsPath r'
             = "gs://" +:+ JobData.SmtBucketName r' +:+ "/session.json")
      /\ (JobData.SourceConnectionConfigGcsPath r' = JobData.SourceConnectionConfig request
          \/ JobData.SourceConnectionConfigGcsPath r'
             = "gs://" +:+ JobData.SmtBucketName r' +:+ "/source-connection-config.json")
      /\ (JobData.GcsDataDirectory r' = JobData.GcsDataDirectory request
          \/ JobData.GcsDataDirectory r'
             = "gs://" +:+ JobData.SmtBucketName r' +:+ "/reverse-replication/data")).
Proof.
  intros (_ & loc & w' & _ & -> & _)%validateAndUpdateJobData_nil.
  unfold normalized, alreadyStaged. cbv zeta. jd_cbn.
  destruct (HasPrefix (JobData.SessionFilePath request) constants.GCS_FILE_PREFIX),
           (HasPrefix (JobData.SourceConnectionConfig request) constants.GCS_FILE_PREFIX),
           (isEmpty (JobData.GcsDataDirectory request));
    cbn [andb negb]; split; intros [=]; repeat split; auto.
Qed.

(** X9: normalising a normalised request once more, with the same run
    identifier.  When a request passes every check and the lookup
    answers nil, normalisation returns nil; the request it leaves passes
    every check again, so that the second normalisation asks for the
    leader location of the same instance again and returns whatever that
    second lookup answers, an error or nil.  The second normalisation
    changes nothing but the location and the staging decision: the
    request is now marked as needing no staging bucket exactly when both
    descriptions are hosted, whether or not the data directory was given
    at first; it changes the location alone if the data directory was
    given at first or a description is not hosted. *)
Theorem validateAndUpdateJobData_again
    (request : JobData.t) (uuid : string) (st st2 : ExtState World LaunchRequest)
    (loc1 : string) (w1 : World) :
  passesChecks env request = true ->
  GetSpannerLeaderLocation env (instanceUri request) (world st) = ((loc1, None), w1) ->
  let hosted :=
    HasPrefix (JobData.SessionFilePath request) constants.GCS_FILE_PREFIX
    && HasPrefix (JobData.SourceConnectionConfig request) constants.GCS_FILE_PREFIX in
  exists r1,
    validateAndUpdateJobData env request uuid st
    = (Ret (r1, None),
       mkExt w1 (events st ++ [EvGetSpannerLeaderLocation (instanceUri request)]))
    /\ passesChecks env r1 = true
    /\ failedCheck env r1 = None
    /\ (forall loc e w,
          GetSpannerLeaderLocation env (instanceUri request) (world st2) = ((loc, e), w) ->
          validateAndUpdateJobData env r1 uuid st2
          = (Ret (JobData.set_SpannerLocation loc
                    (JobData.set_SmtBucketName
                       (if hosted then "" else "smt-rr-gcs-" +:+ uuid)
                       (JobData.set_IsSMTBucketRequired (negb hosted) r1)),
                  e),
             mkExt w (events st2 ++ [EvGetSpannerLeaderLocation (instanceUri request)])))
    /\ (isEmpty (JobData.GcsDataDirectory request) = false \/ hosted = false ->
        JobData.set_SmtBucketName (if hosted then "" else "smt-rr-gcs-" +:+ uuid)
          (JobData.set_IsSMTBucketRequired (negb hosted) r1) = r1).
Proof.
  intros Hp HL hosted.
  exists (normalized env request uuid loc1).
  split; [by rewrite (validateAndUpdateJobData_passes env request uuid st Hp), HL|].
  pose proof Hp as Hinv. apply passesChecks_inv in Hinv
    as (Hi & Hd & Hs & Hc & Hpr & Hst & Hgcs & Hfm & Heq & Hjar).
  assert (Hp1 : passesChecks env (normalized env request uuid loc1) = true).
  { unfold passesChecks, normalized. cbv zeta. jd_cbn.
    rewrite Hi, Hd, Hs, Hc, Hpr, Heq, Hjar. cbn [negb andb]. rewrite !andb_true_r.
    apply andb_true_intro; split; [apply andb_true_intro; split|].
    - destruct (isEmpty (JobData.SourceType request)) eqn:E; [reflexivity|].
      by rewrite E.
    - destruct (isEmpty (JobData.GcsDataDirectory request)) eqn:E; [reflexivity|].
      by rewrite E.
    - destruct (isEmpty (JobData.FiltrationMode request)) eqn:E; [|by rewrite E].
      cbn [Contains existsb]. by rewrite String.eqb_refl, orb_true_r. }
  assert (Huri : instanceUri (normalized env request uuid loc1) = instanceUri request)
    by done.
  split; [exact Hp1|]. split; [by apply failedCheck_None|].
  assert (Hrec : forall l,
    normalized env (normalized env request uuid loc1) uuid l
    = JobData.set_SpannerLocation l
        (JobData.set_SmtBucketName (if hosted then "" else "smt-rr-gcs-" +:+ uuid)
           (JobData.set_IsSMTBucketRequired (negb hosted)
              (normalized env request uuid loc1)))).
  { intros l. subst hosted. destruct request.
    unfold normalized, alreadyStaged in *. cbv zeta. jd_cbn.
    cbn [JobData.InstanceId] in Hi.
    unfold JobData.set_SpannerLocation, JobData.set_SmtBucketName,
      JobData.set_IsSMTBucketRequired. jd_cbn.
    f_equal.
    - destruct (isEmpty GcsDataDirectory) eqn:E; [|rewrite E]; simpl;
        by rewrite andb_true_r.
    - destruct (isEmpty GcsDataDirectory) eqn:E; [|rewrite E]; simpl;
        by rewrite andb_true_r.
    - by destruct (isEmpty GcsDataDirectory) eqn:E; [|rewrite E].
    - by destruct (HasPrefix SessionFilePath constants.GCS_FILE_PREFIX).
    - destruct (HasPrefix SourceConnectionConfig constants.GCS_FILE_PREFIX); [done|].
      by rewrite !andb_false_r.
    - by destruct (isEmpty JobName) eqn:E; [|rewrite E].
    - by destruct (isEmpty SourceType) eqn:E; [|rewrite E].
    - destruct (isEmpty MetadataInstance) eqn:E; [by rewrite Hi|by rewrite E].
    - by destruct (isEmpty MetadataDatabase) eqn:E; [|rewrite E].
    - rewrite ReplaceByte_isEmpty.
      destruct (isEmpty ChangeStreamName) eqn:E; [|rewrite E];
        apply ReplaceByte_idempotent.
    - destruct (isEmpty FiltrationMode) eqn:E; [|by rewrite E].
      by destruct (isEmpty (RR_READER_FILTER_FWD env)).
    - destruct (Z.ltb_spec TimerInterval 1); [done|].
      by destruct (Z.ltb_spec TimerInterval 1); [lia|].
    - by destruct (isEmpty WindowDuration) eqn:E; [|rewrite E]. }
  split.
  { intros loc e w HL2.
    by rewrite (validateAndUpdateJobData_passes env _ uuid st2 Hp1), Huri, HL2, Hrec. }
  subst hosted. unfold normalized, alreadyStaged. cbv zeta. jd_cbn.
  intros [Hne|Hh].
  - rewrite Hne. cbn [negb]. by rewrite !andb_true_r.
  - rewrite Hh. cbn [andb negb]. done.
Qed.
End NormalizerBucket.

Section ResolverProperties.
Context {World LaunchRequest : Type} (env : Env World LaunchRequest).

(** The resolver on a config whose label map is allocated: the config it
    leaves and the state it leaves, field by field. *)
Lemma validateUpdateReaderTuningCfg_run
    (cfg : DataflowTuningConfig.t) (p l j : string) (st : ExtState World LaunchRequest)
    (labels : gmap string string) :
  DataflowTuningConfig.AdditionalUserLabels cfg = Some labels ->
  validateUpdateReaderTuningCfg env cfg p l j st
  = (Ret {| DataflowTuningConfig.ProjectId :=
              if isEmpty (DataflowTuningConfig.ProjectId cfg)
              then p else DataflowTuningConfig.ProjectId cfg;
            DataflowTuningConfig.JobName :=
              if isEmpty (DataflowTuningConfig.JobName cfg)
              then "smt-reverse-replication-reader-"
                   +:+ fst (GenerateHashStr env (world st))
              else DataflowTuningConfig.JobName cfg;
            DataflowTuningConfig.Location :=
              if isEmpty (DataflowTuningConfig.Location cfg)
              then l else DataflowTuningConfig.Location cfg;
            DataflowTuningConfig.MaxWorkers :=
              if DataflowTuningConfig.MaxWorkers cfg =? 0
              then 50 else DataflowTuningConfig.MaxWorkers cfg;
            DataflowTuningConfig.NumWorkers :=
              if DataflowTuningConfig.NumWorkers cfg =? 0
              then 5 else DataflowTuningConfig.NumWorkers cfg;
            DataflowTuningConfig.MachineType :=
              if isEmpty (DataflowTuningConfig.MachineType cfg)
              then "n1-standard-2" else DataflowTuningConfig.MachineType cfg;
            DataflowTuningConfig.AdditionalUserLabels :=
              Some (<["smt-reverse-replication-reader" := j]> labels);
            DataflowTuningConfig.GcsTemplatePath :=
              if isEmpty (DataflowTuningConfig.GcsTemplatePath cfg)
              then REVERSE_REPLICATION_READER_TEMPLATE_PATH env
              else DataflowTuningConfig.GcsTemplatePath cfg;
            DataflowTuningConfig.AdditionalExperiments :=
              Some (match DataflowTuningConfig.AdditionalExperiments cfg with
                    | None => ["use_runner_v2"]
                    | Some exps =>
                        if Contains exps "use_runner_v2" then exps
                        else (exps ++ ["use_runner_v2"])%list
                    end);
            DataflowTuningConfig.EnableStreamingEngine := true |},
     if isEmpty (DataflowTuningConfig.JobName cfg)
     then mkExt (snd (GenerateHashStr env (world st))) (events st)
     else st).
Proof.
  destruct st as [w ev], cfg. cfg_cbn. intros ->.
  cbv delta [validateUpdateReaderTuningCfg]; cbv beta; cfg_cbn.
  assign_step_with DataflowTuningConfig_if_flat ltac:(cfg_cbn).
  unfold bind at 1.
  destruct AdditionalExperiments as [exps|];
    (destruct (isEmpty JobName); unfold bind, hashStr, ret, panic; cfg_cbn;
     [destruct (GenerateHashStr env w) as [h w1]|]);
    repeat assign_step_with DataflowTuningConfig_if_flat ltac:(cfg_cbn);
    cfg_cbn;
    try (destruct (Contains exps "use_runner_v2")); reflexivity.
Qed.

(** X10: what the resolver keeps of a tuning config whose label map
    is allocated.  A non-empty project, job name, location, machine type
    or template path and a non-zero worker count are kept, and so is
    every label but one: the label under the key
    [smt-reverse-replication-reader] is set to the run identifier,
    whatever the config gave there.  The streaming engine is turned on,
    whatever the config said.  What the resolver leaves is complete: the
    job name, the machine type and both worker counts are set.  It calls
    no resource manager, and it draws a random identifier only when the
    config names no job. *)
Theorem validateUpdateReaderTuningCfg_keeps_given
    (cfg : DataflowTuningConfig.t) (p l j : string) (st : ExtState World LaunchRequest)
    (labels : gmap string string) :
  DataflowTuningConfig.AdditionalUserLabels cfg = Some labels ->
  exists cfg' st' labels',
    validateUpdateReaderTuningCfg env cfg p l j st = (Ret cfg', st')
    /\ events st' = events st
    /\ (DataflowTuningConfig.JobName cfg <> "" -> st' = st)
    /\ (DataflowTuningConfig.ProjectId cfg <> "" ->
        DataflowTuningConfig.ProjectId cfg' = DataflowTuningConfig.ProjectId cfg)
    /\ (DataflowTuningConfig.JobName cfg <> "" ->
        DataflowTuningConfig.JobName cfg' = DataflowTuningConfig.JobName cfg)
    /\ (DataflowTuningConfig.Location cfg <> "" ->
        DataflowTuningConfig.Location cfg' = DataflowTuningConfig.Location cfg)
    /\ (DataflowTuningConfig.MaxWorkers cfg <> 0 ->
        DataflowTuningConfig.MaxWorkers cfg' = DataflowTuningConfig.MaxWorkers cfg)
    /\ (DataflowTuningConfig.NumWorkers cfg <> 0 ->
        DataflowTuningConfig.NumWorkers cfg' = DataflowTuningConfig.NumWorkers cfg)
    /\ (DataflowTuningConfig.MachineType cfg <> "" ->
        DataflowTuningConfig.MachineType cfg' = DataflowTuningConfig.MachineType cfg)
    /\ (DataflowTuningConfig.GcsTemplatePath cfg <> "" ->
        DataflowTuningConfig.GcsTemplatePath cfg' = DataflowTuningConfig.GcsTemplatePath cfg)
    /\ DataflowTuningConfig.JobName cfg' <> ""
    /\ DataflowTuningConfig.MachineType cfg' <> ""
    /\ DataflowTuningConfig.MaxWorkers cfg' <> 0
    /\ DataflowTuningConfig.NumWorkers cfg' <> 0
    /\ DataflowTuningConfig.EnableStreamingEngine cfg' = true
    /\ DataflowTuningConfig.AdditionalUserLabels cfg' = Some labels'
    /\ labels' !! "smt-reverse-replication-reader" = Some j
    /\ (forall key, key <> "smt-reverse-replication-reader" ->
          labels' !! key = labels !! key)
    /\ (labels' = labels <-> labels !! "smt-reverse-replication-reader" = Some j).
Proof.
  intros Hl. rewrite (validateUpdateReaderTuningCfg_run cfg p l j st labels Hl).
  do 3 eexists. split; [reflexivity|]. cfg_cbn.
  split; [by destruct (isEmpty _)|].
  split; [by intros ->%isEmpty_false|].
  split; [by intros ->%isEmpty_false|].
  split; [by intros ->%isEmpty_false|].
  split; [by intros ->%isEmpty_false|].
  split; [by intros ->%Z.eqb_neq|].
  split; [by intros ->%Z.eqb_neq|].
  split; [by intros ->%isEmpty_false|].
  split; [by intros ->%isEmpty_false|].
  split; [destruct (isEmpty (DataflowTuningConfig.JobName cfg)) eqn:E;
          [simpl; discriminate|by apply isEmpty_false]|].
  split; [destruct (isEmpty (DataflowTuningConfig.MachineType cfg)) eqn:E;
          [done|by apply isEmpty_false]|].
  split; [destruct (Z.eqb_spec (DataflowTuningConfig.MaxWorkers cfg) 0); done|].
  split; [destruct (Z.eqb_spec (DataflowTuningConfig.NumWorkers cfg) 0); done|].
  split; [done|]. split; [reflexivity|].
  split; [apply lookup_insert_eq|].
  split; [intros key Hkey; by apply lookup_insert_ne|].
  split.
  - intros <-. apply lookup_insert_eq.
  - apply insert_id.
Qed.

(** X11: the experiments the resolver leaves.  On a config whose label
    map is allocated they always hold [use_runner_v2]: a config without
    experiments gets that one alone; a config with experiments keeps
    them all, in order: the list is left as it is when it holds
    [use_runner_v2] already, and gets it appended at the end, once, when
    it does not.  On a config whose label map is nil the resolver does
    not get as far as the experiments: it panics at the label write,
    having called nothing. *)
Theorem validateUpdateReaderTuningCfg_experiments
    (cfg : DataflowTuningConfig.t) (p l j : string) (st : ExtState World LaunchRequest) :
  match DataflowTuningConfig.AdditionalUserLabels cfg with
  | None =>
      exists st',
        validateUpdateReaderTuningCfg env cfg p l j st
        = (Panic "assignment to entry in nil map", st')
        /\ events st' = events st
  | Some _ =>
      exists cfg' st' exps',
        validateUpdateReaderTuningCfg env cfg p l j st = (Ret cfg', st')
        /\ DataflowTuningConfig.AdditionalExperiments cfg' = Some exps'
        /\ In "use_runner_v2" exps'
        /\ match DataflowTuningConfig.AdditionalExperiments cfg with
           | None => exps' = ["use_runner_v2"]
           | Some exps =>
               (In "use_runner_v2" exps /\ exps' = exps)
               \/ (~ In "use_runner_v2" exps
                   /\ exps' = (exps ++ ["use_runner_v2"])%list)
           end
  end.
Proof.
  destruct (DataflowTuningConfig.AdditionalUserLabels cfg) as [labels|] eqn:Hl.
  2:{ destruct (validateUpdateReaderTuningCfg_outcome env cfg p l j st) as (st' & Hev & H).
      rewrite Hl in H. by exists st'. }
  rewrite (validateUpdateReaderTuningCfg_run cfg p l j st labels Hl).
  do 3 eexists. split; [reflexivity|]. cfg_cbn. split; [reflexivity|].
  assert (Hc : forall exps : list string,
             Contains exps "use_runner_v2" = true <-> In "use_runner_v2" exps).
  { intros exps. unfold Contains. rewrite existsb_exists. split.
    - intros (x & Hin & ->%String.eqb_eq). done.
    - intros Hin. eexists. split; [done|]. apply String.eqb_refl. }
  destruct (DataflowTuningConfig.AdditionalExperiments cfg) as [exps|].
  - destruct (Contains exps "use_runner_v2") eqn:E.
    + apply Hc in E. split; [done|]. by left.
    + split; [apply in_or_app; right; by left|].
      right. split; [|done]. intros Hin%Hc. congruence.
  - split; [by left|done].
Qed.

(** X12: resolving a resolved config again, with the same project,
    location and run identifier, changes nothing: the config comes back
    as it is, and so does the state, since a resolved config names its
    job. *)
Theorem validateUpdateReaderTuningCfg_idempotent
    (cfg cfg' : DataflowTuningConfig.t) (p l j : string)
    (st st' st2 : ExtState World LaunchRequest) :
  validateUpdateReaderTuningCfg env cfg p l j st = (Ret cfg', st') ->
  validateUpdateReaderTuningCfg env cfg' p l j st2 = (Ret cfg', st2).
Proof.
  destruct (validateUpdateReaderTuningCfg_outcome env cfg p l j st) as (st0 & _ & H).
  destruct (DataflowTuningConfig.AdditionalUserLabels cfg) as [labels|] eqn:Hl.
  2:{ rewrite H. discriminate. }
  clear H. rewrite (validateUpdateReaderTuningCfg_run cfg p l j st labels Hl).
  intros [= <- _].
  erewrite validateUpdateReaderTuningCfg_run by (cfg_cbn; reflexivity).
  cfg_cbn. f_equal.
  - f_equal. f_equal.
    + by destruct (isEmpty (DataflowTuningConfig.ProjectId cfg)) eqn:E;
        [rewrite if_same|rewrite E].
    + by destruct (isEmpty (DataflowTuningConfig.JobName cfg)) eqn:E; [|rewrite E].
    + by destruct (isEmpty (DataflowTuningConfig.Location cfg)) eqn:E;
        [rewrite if_same|rewrite E].
    + by destruct (DataflowTuningConfig.MaxWorkers cfg =? 0) eqn:E; [|rewrite E].
    + by destruct (DataflowTuningConfig.NumWorkers cfg =? 0) eqn:E; [|rewrite E].
    + by destruct (isEmpty (DataflowTuningConfig.MachineType cfg)) eqn:E; [|rewrite E].
    + by rewrite insert_insert_eq.
    + destruct (isEmpty (DataflowTuningConfig.GcsTemplatePath cfg)) eqn:E; [|by rewrite E].
      by rewrite if_same.
    + f_equal.
      destruct (DataflowTuningConfig.AdditionalExperiments cfg) as [exps|]; [|done].
      destruct (Contains exps "use_runner_v2") eqn:E; [by rewrite E|].
      unfold Contains. rewrite existsb_app. cbn [existsb].
      by rewrite String.eqb_refl, orb_true_r.
  - by destruct (isEmpty (DataflowTuningConfig.JobName cfg)) eqn:E; [|rewrite E].
Qed.
End ResolverProperties.

Section ActivityOutcomes.
Context {World LaunchRequest : Type} (env : Env World LaunchRequest).

(** X13: [PrepareChangeStream.Transaction] on an activity whose
    [Input] and [Output] are set, as [CreateWorkflow] builds it;
    [PrepareChangeStream.t] holds the two structs themselves.  On such
    an activity the transaction returns, after one or two calls: the
    existence check alone, the check and the options validation, or the
    check and the creation; never validation and creation both.  It only
    ever sets flags of the output.  An error of the existence check is
    returned as it is, whatever the answer that came with it, and an
    error of the creation is returned behind
    [could not create changestream resource: ]; in both cases the output
    is left as it was.  An error of the validation is returned as it is,
    with [ExistsWithIncorrectOptions] set.  On [nil] exactly one of
    [Exists] and [Created] has been set: [Exists] when the stream was
    there and its options are right, [Created] when it was not there and
    the creation answered nil. *)
Theorem PrepareChangeStream_Transaction_outcome
    (p : PrepareChangeStream.t) (st : ExtState World LaunchRequest) :
  let input := PrepareChangeStream.Input p in
  let out := PrepareChangeStream.Output p in
  let name := PrepareChangeStreamInput.ChangeStreamName input in
  let dbURI := PrepareChangeStreamInput.DbURI input in
  let jobId := PrepareChangeStreamInput.SmtJobId input in
  exists out' e st' new,
    PrepareChangeStream_Transaction env p st = (Ret (out', e), st')
    /\ events st' = (events st ++ new)%list
    /\ (new = [EvCheckIfChangeStreamExists name dbURI]
        \/ new = [EvCheckIfChangeStreamExists name dbURI;
                  EvValidateChangeStreamOptions name dbURI]
        \/ new = [EvCheckIfChangeStreamExists name dbURI;
                  EvCreateChangeStreamSMTResource jobId name dbURI])
    /\ (PrepareChangeStreamOutput.Exists out = true ->
        PrepareChangeStreamOutput.Exists out' = true)
    /\ (PrepareChangeStreamOutput.ExistsWithIncorrectOptions out = true ->
        PrepareChangeStreamOutput.ExistsWithIncorrectOptions out' = true)
    /\ (PrepareChangeStreamOutput.Created out = true ->
        PrepareChangeStreamOutput.Created out' = true)
    /\ (e = None ->
        (new = [EvCheckIfChangeStreamExists name dbURI;
                EvValidateChangeStreamOptions name dbURI]
         /\ out' = PrepareChangeStreamOutput.mk true
                     (PrepareChangeStreamOutput.ExistsWithIncorrectOptions out)
                     (PrepareChangeStreamOutput.Created out))
        \/ (new = [EvCheckIfChangeStreamExists name dbURI;
                   EvCreateChangeStreamSMTResource jobId name dbURI]
            /\ out' = PrepareChangeStreamOutput.mk
                        (PrepareChangeStreamOutput.Exists out)
                        (PrepareChangeStreamOutput.ExistsWithIncorrectOptions out)
                        true))
    /\ (forall b err w1,
          CheckIfChangeStreamExists env name dbURI (world st) = ((b, Some err), w1) ->
          e = Some err /\ out' = out
          /\ new = [EvCheckIfChangeStreamExists name dbURI]
          /\ world st' = w1)
    /\ (forall w1 err w2,
          CheckIfChangeStreamExists env name dbURI (world st) = ((false, None), w1) ->
          CreateChangeStreamSMTResource env jobId name dbURI w1 = (Some err, w2) ->
          e = Some ("could not create changestream resource: " +:+ err) /\ out' = out
          /\ world st' = w2)
    /\ (forall w1 w2,
          CheckIfChangeStreamExists env name dbURI (world st) = ((false, None), w1) ->
          CreateChangeStreamSMTResource env jobId name dbURI w1 = (None, w2) ->
          e = None
          /\ out' = PrepareChangeStreamOutput.mk
                      (PrepareChangeStreamOutput.Exists out)
                      (PrepareChangeStreamOutput.ExistsWithIncorrectOptions out)
                      true
          /\ new = [EvCheckIfChangeStreamExists name dbURI;
                    EvCreateChangeStreamSMTResource jobId name dbURI]
          /\ world st' = w2)
    /\ (forall w1 verr w2,
          CheckIfChangeStreamExists env name dbURI (world st) = ((true, None), w1) ->
          ValidateChangeStreamOptions env name dbURI w1 = (verr, w2) ->
          e = verr
          /\ out' = match verr with
                    | Some _ =>
                        PrepareChangeStreamOutput.mk
                          (PrepareChangeStreamOutput.Exists out)
                          true
                          (PrepareChangeStreamOutput.Created out)
                    | None =>
                        PrepareChangeStreamOutput.mk
                          true
                          (PrepareChangeStreamOutput.ExistsWithIncorrectOptions out)
                          (PrepareChangeStreamOutput.Created out)
                    end
          /\ new = [EvCheckIfChangeStreamExists name dbURI;
                    EvValidateChangeStreamOptions name dbURI]
          /\ world st' = w2).
Proof.
  destruct st as [w ev]. destruct p as [[jobId name dbURI] [ex wrong cr]].
  cbn [PrepareChangeStream.Input PrepareChangeStream.Output
       PrepareChangeStreamInput.ChangeStreamName PrepareChangeStreamInput.DbURI
       PrepareChangeStreamInput.SmtJobId world events].
  unfold PrepareChangeStream_Transaction, bind, call, ret.
  cbn [PrepareChangeStream.Input PrepareChangeStream.Output
       PrepareChangeStreamInput.ChangeStreamName PrepareChangeStreamInput.DbURI
       PrepareChangeStreamInput.SmtJobId world events
       PrepareChangeStreamOutput.Exists PrepareChangeStreamOutput.ExistsWithIncorrectOptions
       PrepareChangeStreamOutput.Created].
  destruct (CheckIfChangeStreamExists env name dbURI w) as [[b [e|]] w1];
    cbn [fst snd world events].
  2: destruct b; cbn [fst snd world events].
  2: destruct (ValidateChangeStreamOptions env name dbURI w1) as [[e|] w2] eqn:Hv;
       cbn [fst snd world events].
  4: destruct (CreateChangeStreamSMTResource env jobId name dbURI w1)
       as [[e|] w2] eqn:Hc; cbn [fst snd world events].
  all: do 4 eexists; (split; [reflexivity|]); cbn [events world];
    (split; [by rewrite <- ?app_assoc|]);
    cbn [PrepareChangeStreamOutput.Exists
         PrepareChangeStreamOutput.ExistsWithIncorrectOptions
         PrepareChangeStreamOutput.Created];
    (split; [first [by left | right; by left | right; by right]|]);
    repeat match goal with |- _ /\ _ => split end;
    try done;
    try (by intros ? ? ? [=]);
    try (by intros ? ? ? [= <- <- <-]);
    try (intros _; first [by left | by right]).
  all: try (intros ? ? ? [= <-]; rewrite Hc; by intros [= <-]).
  all: try (intros ? ? [= <-]; rewrite Hc; by intros [= <-]).
  all: intros ? ? ? [= <-]; rewrite Hv; by intros [= <- <-].
Qed.

(** X14: [PrepareDataflowReader.Transaction] on an activity whose
    [Input] and [Output] are set, by the answers it gets.  An error of
    reading the tuning config is returned behind
    [error reading reader tuning config <path>: ], with nothing further
    called.  A config that was read with a nil label map makes the
    resolver panic at its label write, before any launch request is
    asked for.  Otherwise the launch request is asked for, with the
    parameters of the input and the resolved config; its error is
    returned as it is and no job is created.  Otherwise the job is
    created from that launch request under the job identifier of the
    input; its error is returned as it is.  Every returned error leaves
    the output as it was.  When the creation answers nil these three
    calls are all the calls made, and if the transaction returns after
    the log statements that follow, it returns nil with the identifier of
    the created job in the output. *)
Theorem PrepareDataflowReader_Transaction_outcome
    (p : PrepareDataflowReader.t) (st : ExtState World LaunchRequest) :
  let input := PrepareDataflowReader.Input p in
  let out := PrepareDataflowReader.Output p in
  let path := PrepareDataflowReaderInput.TuningCfg input in
  let jobId := PrepareDataflowReaderInput.SmtJobId input in
  let params := Transaction_params env input in
  let run := PrepareDataflowReader_Transaction env p st in
  let read := EvUnmarshalDataflowTuningConfig path in
  match UnmarshalDataflowTuningConfig env path (world st) with
  | ((_, Some err), w1) =>
      run = (Ret (out, Some ("error reading reader tuning config " +:+ path
                             +:+ ": " +:+ err)),
             mkExt w1 (events st ++ [read]))
  | ((cfg0, None), w1) =>
      match DataflowTuningConfig.AdditionalUserLabels cfg0 with
      | None =>
          fst run = Panic "assignment to entry in nil map"
          /\ events (snd run) = (events st ++ [read])%list
      | Some _ =>
          exists cfg' w2,
            validateUpdateReaderTuningCfg env cfg0
              (PrepareDataflowReaderInput.SpannerProjectId input)
              (PrepareDataflowReaderInput.SpannerLocation input) jobId
              (mkExt w1 (events st ++ [read]))
            = (Ret cfg', mkExt w2 (events st ++ [read]))
            /\ match GetDataflowLaunchRequest env params cfg' w2 with
               | ((_, Some err), w3) =>
                   run = (Ret (out, Some err),
                          mkExt w3 (events st
                                    ++ [read; EvGetDataflowLaunchRequest params cfg']))
               | ((req, None), w3) =>
                   let calls := [read; EvGetDataflowLaunchRequest params cfg';
                                 EvCreateDataflowSMTResource jobId req] in
                   match CreateDataflowSMTResource env jobId req w3 with
                   | ((_, Some err), w4) =>
                       run = (Ret (out, Some err), mkExt w4 (events st ++ calls))
                   | ((id, None), w4) =>
                       snd run = mkExt w4 (events st ++ calls)
                       /\ forall out' e,
                            fst run = Ret (out', e) ->
                            e = None /\ out' = PrepareDataflowReaderOutput.mk id
                   end
               end
      end
  end.
Proof.
  destruct st as [w ev]. destruct p as [input out].
  cbv zeta. unfold PrepareDataflowReader_Transaction.
  cbn [PrepareDataflowReader.Input PrepareDataflowReader.Output world events].
  unfold bind, call, ret. cbn [world events].
  lazymatch goal with
  | |- context [UnmarshalDataflowTuningConfig env ?f w] =>
      destruct (UnmarshalDataflowTuningConfig env f w) as [[cfg0 [e|]] w1]
  end; cbn [fst snd].
  { reflexivity. }
  lazymatch goal with
  | |- context [validateUpdateReaderTuningCfg env ?c ?a ?b ?d ?s] =>
      destruct (validateUpdateReaderTuningCfg_outcome env c a b d s)
        as ([w2 ev2] & Hev & H)
  end.
  cbn [events] in Hev. subst ev2.
  destruct (DataflowTuningConfig.AdditionalUserLabels cfg0) as [labels|].
  2:{ rewrite H. by cbn [fst snd events]. }
  destruct H as (cfg' & Hres & _). rewrite Hres.
  exists cfg', w2. split; [reflexivity|].
  cbn [world events].
  lazymatch goal with
  | |- context [GetDataflowLaunchRequest env ?m cfg' w2] =>
      destruct (GetDataflowLaunchRequest env m cfg' w2) as [[req [e|]] w3]
  end; cbn [fst snd world events].
  { by rewrite <- app_assoc. }
  lazymatch goal with
  | |- context [CreateDataflowSMTResource env ?i req w3] =>
      destruct (CreateDataflowSMTResource env i req w3) as [[id [e|]] w4]
  end; cbn [fst snd events].
  { by rewrite <- !app_assoc. }
  split; [by rewrite <- !app_assoc|].
  by intros out' e [= <- <-].
Qed.
End ActivityOutcomes.

Section WorkflowRun.
Context {World LaunchRequest : Type} (env : Env World LaunchRequest).
Implicit Types (st : OrchState World LaunchRequest) (es : ExtState World LaunchRequest).

(** The slice of [CreateWorkflow] is the slice of its descriptions. *)
Lemma CreateWorkflow_activities_descs (r : JobData.t) (smtJobId jobData : string) :
  CreateWorkflow_activities env r smtJobId jobData
  = map (activityOf env) (CreateWorkflow_descs r smtJobId jobData).
Proof. reflexivity. Qed.

(** [CreateWorkflow] in one piece: the run identifier, normalisation of
    the callee's copy, the metadata database, the dao client, the
    marshalling, the loop. *)
Lemma CreateWorkflow_unfold (request : JobData.t) st :
  let uuid := fst (GenerateHashStr env (world (ext st))) in
  let w1 := snd (GenerateHashStr env (world (ext st))) in
  let p := fresh (dom (heap st)) in
  CreateWorkflow env request st
  = match validateAndUpdateJobData env request uuid (mkExt w1 (events (ext st))) with
    | (Ret (r', Some e), es') =>
        (Ret (Some ("error in validateCreateRequest: " +:+ e)),
         mkOrch es' (steps st) (<[p := r']> (<[p := request]> (heap st))))
    | (Ret (r', None), es') =>
        let heap' := <[p := r']> (<[p := request]> (heap st)) in
        let project := JobData.SpannerProjectId r' in
        let instance := JobData.InstanceId r' in
        let w2 := CheckOrCreateMetadataDb env project instance (world es') in
        let uri := GetSpannerUri env project instance in
        let evs := ((events es' ++ [EvCheckOrCreateMetadataDb project instance])
                    ++ [EvGetOrCreateClient uri])%list in
        match GetOrCreateClient env uri w2 with
        | (Some e, w3) =>
            (Ret (Some ("error starting dao client: " +:+ e)),
             mkOrch (mkExt w3 evs) (steps st) heap')
        | (None, w3) =>
            match jsonMarshal env r' with
            | (_, Some e) =>
                (Ret (Some ("error converting job data to string: " +:+ e)),
                 mkOrch (mkExt w3 evs) (steps st) heap')
            | (jobData, None) =>
                CreateWorkflow_loop 0
                  (CreateWorkflow_activities env r' ("smt-job-" +:+ uuid) jobData)
                  (mkOrch (mkExt w3 evs) (steps st ++ [BuildActivities 7]) heap')
            end
        end
    | (Panic msg, es') =>
        (Panic msg, mkOrch es' (steps st) (<[p := request]> (heap st)))
    end.
Proof.
  destruct st as [[w ev] sts hp]. run_monad.
  destruct (GenerateHashStr env w) as [uuid w1]. cbn [fst snd].
  rewrite lookup_insert_eq.
  destruct (validateAndUpdateJobData env request uuid _) as [[[r' [e|]]|msg] [w2 ev2]];
    cbn [snd heap fst]; rewrite ?lookup_insert_eq; cbn [snd heap fst ext world events];
    try reflexivity.
  lazymatch goal with
  | |- context [GetOrCreateClient env ?u ?w'] =>
      destruct (GetOrCreateClient env u w') as [[e|] w3]
  end; cbn [snd heap fst]; [reflexivity|].
  rewrite lookup_insert_eq.
  destruct (jsonMarshal env r') as [jobData [e|]]; cbn [snd heap fst]; reflexivity.
Qed.

(** How the loop ends, whatever the activities: [nil] after all of them;
    the error of the first failing one behind its zero-based position; a
    panic in one of them. *)
Lemma CreateWorkflow_loop_outcome (acts : list (@Activity World LaunchRequest))
    (i : nat) st :
  match fst (CreateWorkflow_loop i acts st) with
  | Ret None =>
      steps (snd (CreateWorkflow_loop i acts st))
      = (steps st ++ map InvokeTransaction (seq i (length acts)))%list
  | Ret (Some e) =>
      exists j m, (j < length acts)%nat
        /\ e = "error executing activity #" +:+ fmt_d (i + j) +:+ ": " +:+ m
        /\ steps (snd (CreateWorkflow_loop i acts st))
           = (steps st ++ map InvokeTransaction (seq i (S j)))%list
  | Panic _ =>
      exists j, (j < length acts)%nat
        /\ steps (snd (CreateWorkflow_loop i acts st))
           = (steps st ++ map InvokeTransaction (seq i (S j)))%list
  end.
Proof.
  revert i st. induction acts as [|a acts IH]; intros i st.
  - simpl. by rewrite app_nil_r.
  - rewrite CreateWorkflow_loop_cons.
    destruct (Transaction a (ext st)) as [[[err|]|msg] es].
    + exists 0%nat, err. cbn [fst snd steps length]. rewrite Nat.add_0_r.
      split; [lia|]. done.
    + specialize (IH (S i) (mkOrch es (steps st ++ [InvokeTransaction i]) (heap st))).
      destruct (CreateWorkflow_loop (S i) acts _) as [[[e|]|msg] st'];
        cbn [fst snd steps] in *.
      * destruct IH as (j & m & Hj & -> & ->).
        exists (S j), m. split; [simpl; lia|].
        split; [do 3 f_equal; lia|]. by rewrite <- app_assoc.
      * rewrite IH. cbn [length seq map]. by rewrite <- app_assoc.
      * destruct IH as (j & Hj & ->).
        exists (S j). split; [simpl; lia|]. by rewrite <- app_assoc.
    + exists 0%nat. cbn [fst snd steps length]. split; [lia|]. done.
Qed.

(** X15: the ways [CreateWorkflow] ends.  Returning [nil], it built the
    slice of seven activities and invoked the seven [Transaction]s in
    order.  Returning an error, either it failed before building the
    slice, with one of the three messages for validation, the dao client
    and the marshalling, or the activity at a zero-based position below
    seven failed after those before it had run.  It panics only inside
    an activity. *)
Theorem CreateWorkflow_outcome (request : JobData.t) st :
  exists res st',
    CreateWorkflow env request st = (res, st')
    /\ match res with
       | Ret None =>
           steps st'
           = (steps st ++ BuildActivities 7 :: map InvokeTransaction (seq 0 7))%list
       | Ret (Some e) =>
           (steps st' = steps st
            /\ ((exists m, e = "error in validateCreateRequest: " +:+ m)
                \/ (exists m, e = "error starting dao client: " +:+ m)
                \/ (exists m, e = "error converting job data to string: " +:+ m)))
           \/ (exists j m, (j < 7)%nat
                 /\ e = "error executing activity #" +:+ fmt_d j +:+ ": " +:+ m
                 /\ steps st'
                    = (steps st ++ BuildActivities 7
                         :: map InvokeTransaction (seq 0 (S j)))%list)
       | Panic _ =>
           exists j, (j < 7)%nat
             /\ steps st'
                = (steps st ++ BuildActivities 7 :: map InvokeTransaction (seq 0 (S j)))%list
       end.
Proof.
  rewrite CreateWorkflow_unfold. cbv zeta.
  destruct (validateAndUpdateJobData_cases env request
              (fst (GenerateHashStr env (world (ext st))))
              (mkExt (snd (GenerateHashStr env (world (ext st)))) (events (ext st))))
    as [[_ ->]|(e & r0 & _ & _ & ->)].
  2:{ do 2 eexists. split; [reflexivity|]. left. split; [done|]. left. by eexists. }
  destruct (snd (fst (GetSpannerLeaderLocation env _ _))) as [e|].
  { do 2 eexists. split; [reflexivity|]. left. split; [done|]. left. by eexists. }
  lazymatch goal with
  | |- context [GetOrCreateClient env ?u ?w'] =>
      destruct (GetOrCreateClient env u w') as [[e|] w3]
  end.
  { do 2 eexists. split; [reflexivity|]. left. split; [done|]. right; left. by eexists. }
  lazymatch goal with
  | |- context [jsonMarshal env ?r] => destruct (jsonMarshal env r) as [jobData [e|]]
  end.
  { do 2 eexists. split; [reflexivity|]. left. split; [done|]. right; right. by eexists. }
  lazymatch goal with
  | |- context [CreateWorkflow_loop 0 ?acts ?s] =>
      pose proof (CreateWorkflow_loop_outcome acts 0 s) as H;
      destruct (CreateWorkflow_loop 0 acts s) as [res st']
  end.
  change (length (CreateWorkflow_activities _ _ _ _)) with 7%nat in H.
  cbn [fst snd steps] in H.
  exists res, st'. split; [reflexivity|].
  destruct res as [[e|]|msg].
  - right. destruct H as (j & m & Hj & -> & ->). exists j, m.
    split; [done|]. split; [done|]. by rewrite <- app_assoc.
  - rewrite H. by rewrite <- app_assoc.
  - destruct H as (j & Hj & ->). exists j. split; [done|]. by rewrite <- app_assoc.
Qed.
End WorkflowRun.

Section WorkflowTrace.
Context {World LaunchRequest : Type} (env : Env World LaunchRequest).
Implicit Types (st : OrchState World LaunchRequest) (es : ExtState World LaunchRequest).

Lemma bind_ret_snd {S A B} (m : M S A) (f : A -> B) (s : S) :
  snd (bind m (fun x => ret (f x)) s) = snd (m s).
Proof. unfold bind, ret. by destruct (m s) as [[a|msg] s']. Qed.

(** The calls of [PrepareChangeStream.Transaction] are appended to the
    trace and name the stream and the database of its input. *)
Lemma PrepareChangeStream_Transaction_events (p : PrepareChangeStream.t) es :
  exists new,
    events (snd (PrepareChangeStream_Transaction env p es)) = (events es ++ new)%list
    /\ Forall (eventOf env (DChangeStream p)) new.
Proof.
  destruct es as [w ev]. destruct p as [[jobId name dbURI] out].
  unfold eventOf.
  unfold PrepareChangeStream_Transaction, bind, call, ret.
  cbn [PrepareChangeStream.Input PrepareChangeStream.Output
       PrepareChangeStreamInput.ChangeStreamName PrepareChangeStreamInput.DbURI
       PrepareChangeStreamInput.SmtJobId world events].
  destruct (CheckIfChangeStreamExists env name dbURI w) as [[b [e|]] w1];
    cbn [fst snd world events].
  2: destruct b; cbn [fst snd world events].
  2: destruct (ValidateChangeStreamOptions env name dbURI w1) as [[e|] w2];
       cbn [fst snd world events].
  4: destruct (CreateChangeStreamSMTResource env jobId name dbURI w1)
       as [[e|] w2]; cbn [fst snd world events].
  all: eexists; (split; [by rewrite <- ?app_assoc|]);
    cbv zeta;
    cbn [PrepareChangeStream.Input PrepareChangeStreamInput.ChangeStreamName
         PrepareChangeStreamInput.DbURI PrepareChangeStreamInput.SmtJobId];
    repeat (constructor; [auto 6|]); constructor.
Qed.

(** The calls of [PrepareDataflowReader.Transaction] are appended to the
    trace; a launch request is asked for with the parameters of its
    input. *)
Lemma PrepareDataflowReader_Transaction_events (p : PrepareDataflowReader.t) es :
  exists new,
    events (snd (PrepareDataflowReader_Transaction env p es)) = (events es ++ new)%list
    /\ Forall (eventOf env (DReader p)) new.
Proof.
  destruct es as [w ev]. destruct p as [input out].
  unfold eventOf.
  unfold PrepareDataflowReader_Transaction.
  cbn [PrepareDataflowReader.Input PrepareDataflowReader.Output].
  unfold bind at 1. unfold call at 1. cbn [world events].
  lazymatch goal with
  | |- context [UnmarshalDataflowTuningConfig env ?f w] =>
      destruct (UnmarshalDataflowTuningConfig env f w) as [[cfg0 [e|]] w1]
  end; cbn [fst snd].
  { unfold ret. cbn [snd events]. eexists. split; [reflexivity|].
    constructor; [by left|constructor]. }
  unfold bind at 1.
  lazymatch goal with
  | |- context [validateUpdateReaderTuningCfg env ?c ?a ?b ?d ?s] =>
      destruct (validateUpdateReaderTuningCfg_outcome env c a b d s)
        as ([w2 ev2] & Hev & H)
  end.
  cbn [events] in Hev. subst ev2.
  destruct (DataflowTuningConfig.AdditionalUserLabels cfg0) as [labels|].
  2:{ rewrite H. cbn [snd events]. eexists. split; [reflexivity|].
      constructor; [by left|constructor]. }
  destruct H as (cfg' & -> & _).
  unfold bind, call, ret. cbn [world events].
  lazymatch goal with
  | |- context [GetDataflowLaunchRequest env ?m cfg' w2] =>
      destruct (GetDataflowLaunchRequest env m cfg' w2) as [[req [e|]] w3]
  end; cbn [fst snd world events].
  { eexists. split; [by rewrite <- app_assoc|].
    constructor; [by left|]. constructor; [|constructor].
    right; left. by eexists. }
  lazymatch goal with
  | |- context [CreateDataflowSMTResource env ?i req w3] =>
      destruct (CreateDataflowSMTResource env i req w3) as [[id [e|]] w4]
  end; cbn [fst snd events];
    (eexists; split; [by rewrite <- !app_assoc|];
     constructor; [by left|]; constructor; [right; left; by eexists|];
     constructor; [right; right; by eexists|constructor]).
Qed.

(** Each described activity appends calls of its own kind. *)
Lemma activityOf_events (d : ActivityDesc) es :
  exists new,
    events (snd (Transaction (activityOf env d) es)) = (events es ++ new)%list
    /\ Forall (eventOf env d) new.
Proof.
  destruct d as [a|p|p]; cbn [activityOf].
  - destruct es as [w ev].
    unfold externalActivity, Transaction, call. cbn [world events].
    destruct (externalTransaction env a w) as [e w']. cbn [snd events].
    eexists. split; [reflexivity|]. constructor; [done|constructor].
  - unfold activityOfPrepareChangeStream. cbn [Transaction].
    rewrite bind_ret_snd. apply PrepareChangeStream_Transaction_events.
  - unfold activityOfPrepareDataflowReader. cbn [Transaction].
    rewrite bind_ret_snd. apply PrepareDataflowReader_Transaction_events.
Qed.

(** The loop over described activities invokes the [Transaction]s of a
    prefix of them and appends calls of the activities of that prefix,
    and nothing else. *)
Lemma CreateWorkflow_loop_events (descs : list ActivityDesc) (i : nat) st :
  exists n new,
    (n <= length descs)%nat
    /\ steps (snd (CreateWorkflow_loop i (map (activityOf env) descs) st))
       = (steps st ++ map InvokeTransaction (seq i n))%list
    /\ events (ext (snd (CreateWorkflow_loop i (map (activityOf env) descs) st)))
       = (events (ext st) ++ new)%list
    /\ Forall (fun ev => exists k d, (k < n)%nat /\ nth_error descs k = Some d
                                     /\ eventOf env d ev) new
    /\ match fst (CreateWorkflow_loop i (map (activityOf env) descs) st) with
       | Ret None => n = length descs
       | Ret (Some e) =>
           exists j m, n = S j
             /\ e = "error executing activity #" +:+ fmt_d (i + j) +:+ ": " +:+ m
       | Panic _ => (0 < n)%nat
       end.
Proof.
  revert i st. induction descs as [|d descs IH]; intros i st.
  - exists 0%nat, []. simpl. rewrite !app_nil_r. split; [lia|]. by repeat split.
  - cbn [map]. rewrite CreateWorkflow_loop_cons.
    destruct (activityOf_events d (ext st)) as (new & Hev & Hnew).
    assert (Hhere : forall n, (0 < n)%nat ->
              Forall (fun ev => exists k d0, (k < n)%nat
                                  /\ nth_error (d :: descs) k = Some d0
                                  /\ eventOf env d0 ev) new).
    { intros n Hn. eapply Forall_impl; [exact Hnew|]. intros ev Hd.
      exists 0%nat, d. split; [done|]. split; [done|done]. }
    destruct (Transaction (activityOf env d) (ext st)) as [[[err|]|msg] es];
      cbn [snd events] in Hev.
    + exists 1%nat, new. cbn [fst snd ext steps length seq map].
      split; [lia|]. split; [done|]. split; [done|]. split; [apply Hhere; lia|].
      exists 0%nat, err. by rewrite Nat.add_0_r.
    + destruct (IH (S i) (mkOrch es (steps st ++ [InvokeTransaction i]) (heap st)))
        as (n' & new' & Hn' & Hst' & Hev' & Hnew' & Hres').
      exists (S n'), (new ++ new')%list. rewrite Hev', Hst'. cbn [ext steps]. rewrite Hev.
      split; [simpl; lia|]. split; [cbn [seq map]; by rewrite <- app_assoc|].
      split; [by rewrite app_assoc|].
      split.
      * apply Forall_app. split; [apply Hhere; lia|].
        eapply Forall_impl; [exact Hnew'|].
        intros ev (k & d0 & Hk & Hnth & Hd). exists (S k), d0.
        split; [lia|]. split; [done|done].
      * destruct (fst (CreateWorkflow_loop (S i) _ _)) as [[e|]|msg].
        -- destruct Hres' as (j & m & -> & ->). exists (S j), m.
           split; [done|]. do 3 f_equal. lia.
        -- simpl. by rewrite Hres'.
        -- lia.
    + exists 1%nat, new. cbn [fst snd ext steps length seq map].
      split; [lia|]. split; [done|]. split; [done|]. split; [apply Hhere; lia|]. lia.
Qed.

(** The trace of a run of [CreateWorkflow]: nothing for a request that
    fails a check; the lookup alone when the lookup fails; otherwise the
    lookup, the metadata database and the dao client, followed by calls
    of those activities, built from the normalised request, whose
    [Transaction] was invoked. *)
Lemma CreateWorkflow_trace (request : JobData.t) st :
  let uuid := fst (GenerateHashStr env (world (ext st))) in
  let w1 := snd (GenerateHashStr env (world (ext st))) in
  exists new,
    events (ext (snd (CreateWorkflow env request st))) = (events (ext st) ++ new)%list
    /\ ((passesChecks env request = false /\ new = []
         /\ steps (snd (CreateWorkflow env request st)) = steps st)
        \/ (passesChecks env request = true
            /\ exists loc lerr w2,
                 GetSpannerLeaderLocation env (instanceUri request) w1 = ((loc, lerr), w2)
                 /\ match lerr with
                    | Some _ =>
                        new = [EvGetSpannerLeaderLocation (instanceUri request)]
                        /\ steps (snd (CreateWorkflow env request st)) = steps st
                    | None =>
                        exists rest jobData n,
                          new = (preamble env request ++ rest)%list
                          /\ (n <= 7)%nat
                          /\ ((rest = []
                               /\ steps (snd (CreateWorkflow env request st)) = steps st)
                              \/ steps (snd (CreateWorkflow env request st))
                                 = (steps st ++ BuildActivities 7
                                      :: map InvokeTransaction (seq 0 n))%list)
                          /\ Forall (fun ev =>
                                       exists k d,
                                         (k < n)%nat
                                         /\ nth_error
                                              (CreateWorkflow_descs
                                                 (normalized env request uuid loc)
                                                 ("smt-job-" +:+ uuid) jobData) k
                                            = Some d
                                         /\ eventOf env d ev) rest
                          /\ ((0 < n)%nat ->
                              match fst (CreateWorkflow env request st) with
                              | Ret None => n = 7%nat
                              | Ret (Some e) =>
                                  exists j m, n = S j
                                    /\ e = "error executing activity #" +:+ fmt_d j
                                           +:+ ": " +:+ m
                              | Panic _ => True
                              end)
                    end)).
Proof.
  intros uuid w1.
  rewrite CreateWorkflow_unfold. cbv zeta. fold uuid w1.
  destruct (validateAndUpdateJobData_cases env request uuid (mkExt w1 (events (ext st))))
    as [[Hp ->]|(e & r0 & _ & Hp & ->)].
  2:{ exists []. cbn [snd ext events steps]. rewrite app_nil_r. split; [done|]. by left. }
  cbn [world events].
  destruct (GetSpannerLeaderLocation env (instanceUri request) w1) as [[loc [e|]] w2];
    cbn [fst snd].
  { eexists. cbn [snd ext events steps]. split; [reflexivity|]. right. split; [done|].
    by exists loc, (Some e), w2. }
  assert (Hproj : JobData.SpannerProjectId (normalized env request uuid loc)
                  = JobData.SpannerProjectId request) by done.
  assert (Hinst : JobData.InstanceId (normalized env request uuid loc)
                  = JobData.InstanceId request) by done.
  rewrite Hproj, Hinst. cbn [world events].
  assert (Hpre : forall rest,
    ((((events (ext st) ++ [EvGetSpannerLeaderLocation (instanceUri request)])
       ++ [EvCheckOrCreateMetadataDb (JobData.SpannerProjectId request)
             (JobData.InstanceId request)])
      ++ [EvGetOrCreateClient
            (GetSpannerUri env (JobData.SpannerProjectId request)
               (JobData.InstanceId request))]) ++ rest)%list
    = (events (ext st) ++ preamble env request ++ rest)%list).
  { intros rest. unfold preamble. by rewrite <- !app_assoc. }
  lazymatch goal with
  | |- context [GetOrCreateClient env ?u ?w'] =>
      destruct (GetOrCreateClient env u w') as [[e|] w3]
  end.
  { eexists. cbn [snd ext events steps].
    split; [rewrite <- (app_nil_r (_ ++ [_])); apply Hpre|].
    right. split; [done|]. exists loc, None, w2. split; [done|].
    exists [], "", 0%nat. rewrite app_nil_r. split; [done|]. split; [lia|].
    split; [by left|]. split; [constructor|lia]. }
  destruct (jsonMarshal env (normalized env request uuid loc)) as [jobData [e|]].
  { eexists. cbn [snd ext events steps].
    split; [rewrite <- (app_nil_r (_ ++ [_])); apply Hpre|].
    right. split; [done|]. exists loc, None, w2. split; [done|].
    exists [], "", 0%nat. rewrite app_nil_r. split; [done|]. split; [lia|].
    split; [by left|]. split; [constructor|lia]. }
  rewrite CreateWorkflow_activities_descs.
  lazymatch goal with
  | |- context [CreateWorkflow_loop 0 (map _ ?descs) ?s] =>
      destruct (CreateWorkflow_loop_events descs 0 s)
        as (n & rest & Hn & Hst & Hev & Hrest & Hres)
  end.
  cbn [ext events steps] in Hev, Hst.
  change (length (CreateWorkflow_descs _ _ _)) with 7%nat in Hn, Hres.
  exists (preamble env request ++ rest)%list. rewrite Hev. split; [apply Hpre|].
  right. split; [done|]. exists loc, None, w2. split; [done|].
  exists rest, jobData, n. split; [done|]. split; [done|].
  split; [right; rewrite Hst; by rewrite <- app_assoc|]. split; [done|].
  intros _. destruct (fst (CreateWorkflow_loop 0 _ _)) as [[e|]|msg]; done.
Qed.
End WorkflowTrace.

Section WorkflowHandsOver.
Context {World LaunchRequest : Type} (env : Env World LaunchRequest).
Implicit Types (st : OrchState World LaunchRequest) (es : ExtState World LaunchRequest).

(** What a normalised request that passed the checks holds. *)
Lemma normalized_complete (request : JobData.t) (uuid loc : string) :
  passesChecks env request = true ->
  let r := normalized env request uuid loc in
  JobData.SourceType r = constants.MYSQL
  /\ (JobData.FiltrationMode r = RR_READER_FILTER_FWD env
      \/ JobData.FiltrationMode r = RR_READER_FILTER_NONE env)
  /\ 1 <= JobData.TimerInterval r
  /\ JobData.WindowDuration r <> ""
  /\ HasPrefix (JobData.SessionFileGcsPath r) constants.GCS_FILE_PREFIX = true
  /\ HasPrefix (JobData.SourceConnectionConfigGcsPath r) constants.GCS_FILE_PREFIX = true
  /\ HasPrefix (JobData.GcsDataDirectory r) constants.GCS_FILE_PREFIX = true
  /\ ContainsByte "-" (JobData.ChangeStreamName r) = false
  /\ JobData.ChangeStreamName r <> ""
  /\ JobData.JobName r <> ""
  /\ JobData.MetadataInstance r <> ""
  /\ JobData.MetadataDatabase r <> ""
  /\ (isEmpty (JobData.ShardingCustomJarPath r) = false ->
      HasPrefix (JobData.ShardingCustomJarPath r) constants.GCS_FILE_PREFIX = true
      /\ JobData.ShardingCustomClassName r <> "").
Proof.
  intros Hp r. subst r.
  apply passesChecks_inv in Hp
    as (Hi & Hd & Hs & Hc & Hpr & Hst & Hgcs & Hfm & Heq & Hjar).
  unfold normalized, alreadyStaged. cbv zeta. jd_cbn.
  split; [|split; [|split; [|split; [|split; [|split; [|split; [|split;
    [|split; [|split; [|split; [|split]]]]]]]]]]].
  - destruct (isEmpty (JobData.SourceType request)); [done|].
    cbn [orb] in Hst. by apply String.eqb_eq in Hst.
  - destruct (isEmpty (JobData.FiltrationMode request)); [by left|].
    cbn [orb Contains existsb] in Hfm.
    apply orb_true_iff in Hfm as [H|H].
    + apply String.eqb_eq in H. by left.
    + rewrite orb_false_r in H. apply String.eqb_eq in H. by right.
  - destruct (Z.ltb_spec (JobData.TimerInterval request) 1); lia.
  - destruct (isEmpty (JobData.WindowDuration request)) eqn:E; [done|].
    by apply isEmpty_false.
  - by destruct (HasPrefix (JobData.SessionFilePath request) constants.GCS_FILE_PREFIX) eqn:E,
                (HasPrefix (JobData.SourceConnectionConfig request) constants.GCS_FILE_PREFIX),
                (isEmpty (JobData.GcsDataDirectory request)).
  - by destruct (HasPrefix (JobData.SessionFilePath request) constants.GCS_FILE_PREFIX),
                (HasPrefix (JobData.SourceConnectionConfig request) constants.GCS_FILE_PREFIX) eqn:E,
                (isEmpty (JobData.GcsDataDirectory request)).
  - by destruct (isEmpty (JobData.GcsDataDirectory request)).
  - apply ReplaceByte_removes. discriminate.
  - apply isEmpty_false. rewrite ReplaceByte_isEmpty.
    by destruct (isEmpty (JobData.ChangeStreamName request)) eqn:E.
  - destruct (isEmpty (JobData.JobName request)) eqn:E; [done|by apply isEmpty_false].
  - destruct (isEmpty (JobData.MetadataInstance request)) eqn:E;
      by apply isEmpty_false.
  - destruct (isEmpty (JobData.MetadataDatabase request)) eqn:E;
      [done|by apply isEmpty_false].
  - intros Hj. rewrite Hj in Hjar, Heq. cbn [orb] in Hjar. split; [done|].
    apply isEmpty_false.
    by destruct (isEmpty (JobData.ShardingCustomClassName request)).
Qed.

(** X16: the calls [CreateWorkflow] makes, by the answers it gets.
    For a request that fails a check it makes none and takes no step.
    For a request that passes, the leader-location lookup comes first.
    If the lookup answers with an error, that is the only call, and the
    error is returned behind [error in validateCreateRequest: ].  If it
    answers nil, the metadata database and then the dao client are asked
    for, with the project and instance of the request.  If the dao
    client or the marshalling of the normalised request fails, these
    three calls are all, no step is taken, and the error is returned
    behind [error starting dao client: ] or
    [error converting job data to string: ].  Otherwise the slice is
    built, the [Transaction] of the first activity is invoked and calls
    for the job entry right after the three, and whatever is called
    after that is a call of an activity's [Transaction]: none of the
    three calls again, and no [Compensation]. *)
Theorem CreateWorkflow_calls (request : JobData.t) st :
  let uuid := fst (GenerateHashStr env (world (ext st))) in
  let w1 := snd (GenerateHashStr env (world (ext st))) in
  let project := JobData.SpannerProjectId request in
  let instance := JobData.InstanceId request in
  let run := CreateWorkflow env request st in
  let called new := events (ext (snd run)) = (events (ext st) ++ new)%list in
  let ofTransaction (ev : ExtEvent LaunchRequest) :=
    match ev with
    | EvGetSpannerLeaderLocation _
    | EvCheckOrCreateMetadataDb _ _
    | EvGetOrCreateClient _
    | EvExternalCompensation _ => False
    | _ => True
    end in
  (passesChecks env request = false -> called [] /\ steps (snd run) = steps st)
  /\ (passesChecks env request = true ->
      forall loc lerr w2,
        GetSpannerLeaderLocation env (instanceUri request) w1 = ((loc, lerr), w2) ->
        match lerr with
        | Some e =>
            fst run = Ret (Some ("error in validateCreateRequest: " +:+ e))
            /\ called [EvGetSpannerLeaderLocation (instanceUri request)]
            /\ steps (snd run) = steps st
        | None =>
            forall derr w3,
              GetOrCreateClient env (GetSpannerUri env project instance)
                (CheckOrCreateMetadataDb env project instance w2) = (derr, w3) ->
              match derr, jsonMarshal env (normalized env request uuid loc) with
              | Some e, _ =>
                  fst run = Ret (Some ("error starting dao client: " +:+ e))
                  /\ called (preamble env request)
                  /\ steps (snd run) = steps st
              | None, (_, Some e) =>
                  fst run = Ret (Some ("error converting job data to string: " +:+ e))
                  /\ called (preamble env request)
                  /\ steps (snd run) = steps st
              | None, (jobData, None) =>
                  exists n first rest,
                    (1 <= n <= 7)%nat
                    /\ steps (snd run)
                       = (steps st ++ BuildActivities 7
                            :: map InvokeTransaction (seq 0 n))%list
                    /\ nth_error
                         (CreateWorkflow_descs (normalized env request uuid loc)
                            ("smt-job-" +:+ uuid) jobData) 0
                       = Some (DExternal first)
                    /\ called (preamble env request
                               ++ EvExternalTransaction first :: rest)%list
                    /\ Forall ofTransaction rest
              end
        end).
Proof.
  intros uuid w1 project instance run called ofTransaction.
  subst run called. cbv beta.
  rewrite CreateWorkflow_unfold. cbv zeta. fold uuid w1.
  destruct (validateAndUpdateJobData_cases env request uuid (mkExt w1 (events (ext st))))
    as [[Hp ->]|(e & r0 & _ & Hp & ->)].
  2:{ rewrite Hp. split; [|done]. intros _. cbn [snd ext events steps].
      by rewrite app_nil_r. }
  rewrite Hp. split; [done|]. intros _ loc lerr w2 HL.
  cbn [world events]. rewrite HL. cbn [fst snd].
  destruct lerr as [e|].
  { cbn [fst snd ext events steps]. done. }
  assert (Hproj : JobData.SpannerProjectId (normalized env request uuid loc) = project)
    by done.
  assert (Hinst : JobData.InstanceId (normalized env request uuid loc) = instance)
    by done.
  rewrite Hproj, Hinst. cbn [world events].
  assert (Hpre : forall rest,
    ((((events (ext st) ++ [EvGetSpannerLeaderLocation (instanceUri request)])
       ++ [EvCheckOrCreateMetadataDb project instance])
      ++ [EvGetOrCreateClient (GetSpannerUri env project instance)]) ++ rest)%list
    = (events (ext st) ++ preamble env request ++ rest)%list).
  { intros rest. unfold preamble. by rewrite <- !app_assoc. }
  intros derr w3 HD. rewrite HD.
  destruct derr as [e|].
  { cbn [fst snd ext events steps]. split; [done|]. split; [|done].
    rewrite <- (app_nil_r (preamble env request)).
    rewrite <- (app_nil_r (_ ++ [EvGetOrCreateClient _])). apply Hpre. }
  destruct (jsonMarshal env (normalized env request uuid loc)) as [jobData [e|]].
  { cbn [fst snd ext events steps]. split; [done|]. split; [|done].
    rewrite <- (app_nil_r (preamble env request)).
    rewrite <- (app_nil_r (_ ++ [EvGetOrCreateClient _])). apply Hpre. }
  rewrite CreateWorkflow_activities_descs.
  assert (Hquiet : forall n others rest,
            (forall d, In d others ->
               In d (CreateWorkflow_descs (normalized env request uuid loc)
                       ("smt-job-" +:+ uuid) jobData)) ->
            Forall (fun ev => exists k d0,
                                (k < n)%nat /\ nth_error others k = Some d0
                                /\ eventOf env d0 ev) rest ->
            Forall ofTransaction rest).
  { intros n others rest Hsub H. eapply Forall_impl; [exact H|].
    intros ev (k & d0 & _ & Hin%nth_error_In%Hsub & Hd).
    unfold CreateWorkflow_descs in Hin. cbn [In] in Hin.
    destruct Hin as [<-|[<-|[<-|[<-|[<-|[<-|[<-|[]]]]]]]]; cbn [eventOf] in Hd;
      cbv zeta in Hd;
      repeat match goal with
             | H : _ \/ _ |- _ => destruct H as [H|H]
             | H : exists _, _ |- _ => destruct H as [? H]
             end; by subst ev. }
  lazymatch goal with
  | |- context [CreateWorkflow_loop 0 (map _ ?descs) _] =>
      let d := eval cbv beta delta [CreateWorkflow_descs] in descs in
      lazymatch d with
      | DExternal ?a :: ?tl =>
          assert (Hdescs : descs = DExternal a :: tl) by reflexivity;
          set (first := a) in *; set (others := tl) in *
      end
  end.
  rewrite Hdescs. cbn [map activityOf]. rewrite CreateWorkflow_loop_cons.
  cbn [externalActivity Transaction]. unfold call. cbn [ext world events].
  assert (Hsub : forall d, In d others -> In d (DExternal first :: others))
    by (intros d Hd; by right).
  destruct (externalTransaction env first w3) as [[e|] w4].
  { exists 1%nat, first, []. cbn [fst snd ext events steps seq map].
    split; [lia|]. split; [by rewrite <- app_assoc|]. split; [done|].
    split; [apply Hpre|constructor]. }
  cbn [ext events steps heap].
  lazymatch goal with
  | |- context [CreateWorkflow_loop 1 (map _ others) ?s] =>
      destruct (CreateWorkflow_loop_events env others 1 s)
        as (n & rest & Hn & Hst & Hev & Hrest & _)
  end.
  cbn [ext events steps] in Hev, Hst.
  change (length others) with 6%nat in Hn.
  exists (S n), first, rest. rewrite Hev, Hst.
  split; [lia|]. split; [cbn [seq map]; by rewrite <- !app_assoc|]. split; [done|].
  split.
  { rewrite <- Hpre. by rewrite <- !app_assoc. }
  eapply Hquiet; [|exact Hrest]. rewrite <- Hdescs in Hsub. exact Hsub.
Qed.

(** The launch parameters of the reader built from a normalised request
    that passed the checks. *)
Lemma normalized_reader_params
    (request : JobData.t) (uuid loc jobData : string) (d : ActivityDesc)
    (params : gmap string string) (cfg : DataflowTuningConfig.t) :
  passesChecks env request = true ->
  In d (CreateWorkflow_descs (normalized env request uuid loc)
          ("smt-job-" +:+ uuid) jobData) ->
  eventOf env d (EvGetDataflowLaunchRequest params cfg) ->
  let r := normalized env request uuid loc in
  params !! "runIdentifier" = Some ("smt-job-" +:+ uuid)
  /\ params !! "instanceId" = Some (JobData.InstanceId request)
  /\ params !! "databaseId" = Some (JobData.DatabaseId request)
  /\ params !! "spannerProjectId" = Some (JobData.SpannerProjectId request)
  /\ params !! "sessionFilePath" = Some (JobData.SessionFileGcsPath r)
  /\ params !! "sourceShardsFilePath" = Some (JobData.SourceConnectionConfigGcsPath r)
  /\ params !! "gcsOutputDirectory" = Some (JobData.GcsDataDirectory r)
  /\ params !! "changeStreamName" = Some (JobData.ChangeStreamName r)
  /\ params !! "filtrationMode" = Some (JobData.FiltrationMode r)
  /\ params !! "windowDuration" = Some (JobData.WindowDuration r)
  /\ params !! "metadataInstance" = Some (JobData.MetadataInstance r)
  /\ params !! "metadataDatabase" = Some (JobData.MetadataDatabase r)
  /\ params !! "shardingCustomJarPath"
     = (if isEmpty (JobData.ShardingCustomJarPath request) then None
        else Some (JobData.ShardingCustomJarPath request))
  /\ params !! "shardingCustomClassName"
     = (if isEmpty (JobData.ShardingCustomJarPath request) then None
        else Some (JobData.ShardingCustomClassName request)).
Proof.
  intros Hp Hin Hd r.
  unfold CreateWorkflow_descs in Hin. cbn [In] in Hin.
  destruct Hin as [<-|[<-|[<-|[<-|[<-|[<-|[<-|[]]]]]]]]; cbn [eventOf] in Hd;
    cbv zeta in Hd;
    repeat match goal with
           | H : _ \/ _ |- _ => destruct H as [H|H]
           | H : exists _, _ |- _ => destruct H as [? H]
           end; try discriminate Hd.
  injection Hd as -> _.
  cbn [PrepareDataflowReader.Input].
  lazymatch goal with
  | |- context [Transaction_params env ?i] => set (input := i)
  end.
  destruct (Transaction_params_sharding env input) as [Hj Hc].
  assert (Hfix : forall k v, In (k, v) (fixedReaderParams env input) ->
                   Transaction_params env input !! k = Some v)
    by apply Transaction_params_fixed.
  unfold fixedReaderParams in Hfix. cbn [In] in Hfix.
  repeat match goal with
         | |- _ /\ _ => split
         end;
    try (apply Hfix; subst input r; auto 30; fail).
  - exact Hj.
  - exact Hc.
Qed.

(** X17: whatever parameters the reader of a [CreateWorkflow] run asks
    a launch request for come from the normalised request: the request
    passed the checks; the run identifier is [smt-job-] and the run's
    hash; project, instance and database are the request's; the session
    file, the shard file and the output directory are under [gs://]; the
    change-stream name is not empty and has no hyphen; the filtration mode
    is one of the two allowed; the window, the metadata instance and the
    metadata database are set; and a sharding jar, when the parameters
    hold one, is under [gs://] and comes with a class name. *)
Theorem CreateWorkflow_reader_params
    (request : JobData.t) st (params : gmap string string) (cfg : DataflowTuningConfig.t) :
  In (EvGetDataflowLaunchRequest params cfg)
     (events (ext (snd (CreateWorkflow env request st)))) ->
  ~ In (EvGetDataflowLaunchRequest params cfg) (events (ext st)) ->
  passesChecks env request = true
  /\ params !! "runIdentifier"
     = Some ("smt-job-" +:+ fst (GenerateHashStr env (world (ext st))))
  /\ params !! "instanceId" = Some (JobData.InstanceId request)
  /\ params !! "databaseId" = Some (JobData.DatabaseId request)
  /\ params !! "spannerProjectId" = Some (JobData.SpannerProjectId request)
  /\ (exists v, params !! "sessionFilePath" = Some v
        /\ HasPrefix v constants.GCS_FILE_PREFIX = true)
  /\ (exists v, params !! "sourceShardsFilePath" = Some v
        /\ HasPrefix v constants.GCS_FILE_PREFIX = true)
  /\ (exists v, params !! "gcsOutputDirectory" = Some v
        /\ HasPrefix v constants.GCS_FILE_PREFIX = true)
  /\ (exists v, params !! "changeStreamName" = Some v
        /\ ContainsByte "-" v = false /\ v <> "")
  /\ (params !! "filtrationMode" = Some (RR_READER_FILTER_FWD env)
      \/ params !! "filtrationMode" = Some (RR_READER_FILTER_NONE env))
  /\ (exists v, params !! "windowDuration" = Some v /\ v <> "")
  /\ (exists v, params !! "metadataInstance" = Some v /\ v <> "")
  /\ (exists v, params !! "metadataDatabase" = Some v /\ v <> "")
  /\ (forall jar, params !! "shardingCustomJarPath" = Some jar ->
        HasPrefix jar constants.GCS_FILE_PREFIX = true
        /\ exists class, params !! "shardingCustomClassName" = Some class /\ class <> "").
Proof.
  intros Hin Hnew.
  destruct (CreateWorkflow_trace env request st) as (new & Hev & Hcases).
  rewrite Hev in Hin. apply in_app_or in Hin as [Hin|Hin]; [done|].
  destruct Hcases as [(_ & -> & _)|(Hp & loc & lerr & w2 & _ & H)]; [destruct Hin|].
  destruct lerr as [e|].
  { destruct H as [-> _]. by destruct Hin as [?|[]]. }
  destruct H as (rest & jobData & n & -> & _ & _ & Hrest & _).
  apply in_app_or in Hin as [Hin|Hin].
  { unfold preamble in Hin. cbn [In] in Hin. by destruct Hin as [?|[?|[?|[]]]]. }
  rewrite List.Forall_forall in Hrest.
  destruct (Hrest _ Hin) as (k & d & _ & Hd%nth_error_In & Hevd).
  pose proof (normalized_reader_params request _ loc jobData d params cfg Hp Hd Hevd)
    as (Hrun & Hi & Hdb & Hpr & Hs & Hsh & Hg & Hcs & Hfm & Hw & Hmi & Hmd & Hj & Hc).
  pose proof (normalized_complete request
                (fst (GenerateHashStr env (world (ext st)))) loc Hp)
    as (_ & Nfm & _ & Nw & Ns & Nsh & Ng & Ncs & Ncs' & _ & Nmi & Nmd & Njar).
  cbv zeta in *.
  split; [done|]. split; [done|]. split; [done|]. split; [done|]. split; [done|].
  split; [by eexists|]. split; [by eexists|]. split; [by eexists|].
  split; [by eexists|].
  split; [rewrite Hfm; destruct Nfm as [-> | ->]; auto|].
  split; [by eexists|]. split; [by eexists|]. split; [by eexists|].
  intros jar Hjar. rewrite Hj in Hjar. rewrite Hc.
  destruct (isEmpty (JobData.ShardingCustomJarPath request)) eqn:E; [done|].
  injection Hjar as <-.
  destruct (Njar E) as [Hpre Hcl]. split; [done|]. by eexists.
Qed.

(** X18: what [CreateWorkflow] hands to each activity and resource
    manager.  Every call of a run carries the run's job identifier
    [smt-job-<hash>] where it carries one.  The job entry gets the name
    of the request, or the job identifier when the request has none.  The
    bucket activity gets the staging decision, and the descriptions as
    the request placed them.  The change stream is looked for, validated
    and created under a name without hyphens, in the database of the
    request.  The metadata database is that of the request, or
    [smt-rr-metadata-<hash>] in the target instance.  The writer gets
    source type [mysql], a timer interval of at least 1, a window, and
    three paths under [gs://].  The last activity sets the state
    [RUNNING]. *)
Theorem CreateWorkflow_hands_over (request : JobData.t) st :
  exists new,
    events (ext (snd (CreateWorkflow env request st))) = (events (ext st) ++ new)%list
    /\ Forall (handedOver env request (fst (GenerateHashStr env (world (ext st))))) new.
Proof.
  destruct (CreateWorkflow_trace env request st) as (new & Hev & Hcases).
  exists new. split; [exact Hev|].
  destruct Hcases as [(_ & -> & _)|(Hp & loc & lerr & w2 & _ & H)]; [constructor|].
  destruct lerr as [e|].
  { destruct H as [-> _]. by repeat constructor. }
  destruct H as (rest & jobData & n & -> & _ & _ & Hrest & _).
  apply Forall_app. split; [by repeat constructor|].
  eapply Forall_impl; [exact Hrest|].
  intros ev (k & d & _ & Hin%nth_error_In & Hd).
  pose proof (normalized_complete request
                (fst (GenerateHashStr env (world (ext st)))) loc Hp)
    as (Nst & _ & Nt & Nw & Ns & Nsh & Ng & Ncs & Ncs' & _).
  cbv zeta in *.
  unfold CreateWorkflow_descs in Hin. cbn [In] in Hin.
  destruct Hin as [<-|[<-|[<-|[<-|[<-|[<-|[<-|[]]]]]]]]; cbn [eventOf] in Hd;
    cbv zeta in Hd;
    repeat match goal with
           | H : _ \/ _ |- _ => destruct H as [H|H]
           | H : exists _, _ |- _ => destruct H as [? H]
           end; subst ev; unfold handedOver; cbv zeta;
    cbn [PrepareChangeStream.Input PrepareChangeStreamInput.ChangeStreamName
         PrepareChangeStreamInput.DbURI PrepareChangeStreamInput.SmtJobId
         PrepareDataflowReader.Input PrepareDataflowReaderInput.TuningCfg
         PrepareDataflowReaderInput.SmtJobId
         CreateSmtJobEntryInput.SmtJobId CreateSmtJobEntryInput.JobName
         CreateSmtJobEntryInput.SpannerProjectId CreateSmtJobEntryInput.InstanceId
         CreateSmtJobEntryInput.DatabaseId
         PrepareGcsBucketInput.SmtJobId PrepareGcsBucketInput.IsSMTBucketRequired
         PrepareGcsBucketInput.SmtBucketName PrepareGcsBucketInput.SessionFilePath
         PrepareGcsBucketInput.SourceConnectionConfig
         PrepareMetadataDbInput.SmtJobId PrepareMetadataDbInput.DbURI
         PrepareDataflowWriterInput.SmtJobId PrepareDataflowWriterInput.SourceType
         PrepareDataflowWriterInput.TimerInterval PrepareDataflowWriterInput.WindowDuration
         PrepareDataflowWriterInput.SessionFilePath
         PrepareDataflowWriterInput.SourceShardsFilePath
         PrepareDataflowWriterInput.GCSInputDirectoryPath
         PrepareDataflowWriterInput.TuningCfg];
    try done.
  - (* the launch request of the reader *)
    apply Transaction_params_fixed. unfold fixedReaderParams. cbn [In]. auto 30.
Qed.

(** X19: the job entry is set to [RUNNING] last.  In a run of
    [CreateWorkflow] in which the job-entry update is called, the slice
    was built and all seven [Transaction]s were invoked, in order; so the
    six activities before it had returned [nil]; and an error of such a
    run is the one of the update itself, reported as activity [#6]. *)
Theorem CreateWorkflow_running_last
    (request : JobData.t) st (input : UpdateSmtJobEntryInput.t) :
  In (EvExternalTransaction (UpdateSmtJobEntry input))
     (events (ext (snd (CreateWorkflow env request st)))) ->
  ~ In (EvExternalTransaction (UpdateSmtJobEntry input)) (events (ext st)) ->
  input = UpdateSmtJobEntryInput.mk
            ("smt-job-" +:+ fst (GenerateHashStr env (world (ext st)))) "RUNNING"
  /\ steps (snd (CreateWorkflow env request st))
     = (steps st ++ BuildActivities 7 :: map InvokeTransaction (seq 0 7))%list
  /\ transactionsInvoked (steps (snd (CreateWorkflow env request st)))
     = (transactionsInvoked (steps st) ++ [0; 1; 2; 3; 4; 5; 6])%nat%list
  /\ (forall e, fst (CreateWorkflow env request st) = Ret (Some e) ->
        exists m, e = "error executing activity #6: " +:+ m).
Proof.
  intros Hin Hnew.
  destruct (CreateWorkflow_trace env request st) as (new & Hev & Hcases).
  rewrite Hev in Hin. apply in_app_or in Hin as [Hin|Hin]; [done|].
  destruct Hcases as [(_ & -> & _)|(Hp & loc & lerr & w2 & _ & H)]; [destruct Hin|].
  destruct lerr as [e|].
  { destruct H as [-> _]. by destruct Hin as [?|[]]. }
  destruct H as (rest & jobData & n & -> & Hn & Hs & Hrest & Hres).
  apply in_app_or in Hin as [Hin|Hin].
  { unfold preamble in Hin. cbn [In] in Hin. by destruct Hin as [?|[?|[?|[]]]]. }
  rewrite List.Forall_forall in Hrest.
  destruct (Hrest _ Hin) as (k & d & Hk & Hd & Hevd).
  assert (Hk6 : k = 6%nat /\ input = UpdateSmtJobEntryInput.mk
                  ("smt-job-" +:+ fst (GenerateHashStr env (world (ext st)))) "RUNNING").
  { clear Hs Hres Hrest Hin Hev Hnew. unfold CreateWorkflow_descs in Hd.
    do 7 (destruct k as [|k]; [cbn [nth_error] in Hd; injection Hd as <-;
                               cbn [eventOf] in Hevd; cbv zeta in Hevd;
                               repeat match goal with
                                      | H : _ \/ _ |- _ => destruct H as [H|H]
                                      | H : exists _, _ |- _ => destruct H as [? H]
                                      end; try discriminate Hevd|]).
    - by injection Hevd as ->.
    - exfalso. cbn [nth_error] in Hd. destruct k; discriminate Hd. }
  destruct Hk6 as [-> ->].
  assert (n = 7%nat) as -> by lia.
  destruct Hs as [[-> _]|Hs]; [destruct Hin|].
  split; [done|]. split; [done|]. split.
  - rewrite Hs, transactionsInvoked_app. cbn [transactionsInvoked flat_map app].
    f_equal; try apply (transactionsInvoked_map (seq 0 7)).
  - intros e He. rewrite He in Hres.
    destruct Hres as (j & m & [= <-] & ->); [lia|]. by exists m.
Qed.
End WorkflowHandsOver.


(** ** The dataflow accessor *)

Section DataflowAccessorProperties.
Context {World Client Request Response CallOption : Type}.
Variable env : DataflowAccessor.Env World Client Request Response.
Implicit Types (st : DataflowAccessor.State World Client Request).

(** X20: [LaunchFlexTemplate] asks for the client and then launches,
    once each.  When the client cannot be had its error is returned as it
    is and nothing is launched.  When the launch fails the request is
    logged and the error is returned behind
    [error launching dataflow template: ].  It never returns a response
    together with an error, even when the client gave both, and the call
    options it is given play no part. *)
Theorem LaunchFlexTemplate_outcome (req : Request) (opts : list CallOption) st :
  exists resp e st' new,
    DataflowAccessor.LaunchFlexTemplate env req opts st = (Ret (resp, e), st')
    /\ DataflowAccessor.events st' = (DataflowAccessor.events st ++ new)%list
    /\ (e <> None -> resp = None)
    /\ (forall opts' : list CallOption,
          DataflowAccessor.LaunchFlexTemplate env req opts' st
          = DataflowAccessor.LaunchFlexTemplate env req opts st)
    /\ (forall c err w1,
          DataflowAccessor.GetOrCreateClient env (DataflowAccessor.world st)
          = ((c, Some err), w1) ->
          e = Some err /\ new = [DataflowAccessor.EvGetOrCreateClient]
          /\ DataflowAccessor.world st' = w1)
    /\ (forall c w1 r err w2,
          DataflowAccessor.GetOrCreateClient env (DataflowAccessor.world st)
          = ((c, None), w1) ->
          DataflowAccessor.clientLaunchFlexTemplate env c req w1 = ((r, Some err), w2) ->
          e = Some ("error launching dataflow template: " +:+ err) /\ resp = None
          /\ new = [DataflowAccessor.EvGetOrCreateClient;
                    DataflowAccessor.EvLaunchFlexTemplate c req;
                    DataflowAccessor.EvLogError req]
          /\ DataflowAccessor.world st' = w2)
    /\ (forall c w1 r w2,
          DataflowAccessor.GetOrCreateClient env (DataflowAccessor.world st)
          = ((c, None), w1) ->
          DataflowAccessor.clientLaunchFlexTemplate env c req w1 = ((r, None), w2) ->
          e = None /\ resp = r
          /\ new = [DataflowAccessor.EvGetOrCreateClient;
                    DataflowAccessor.EvLaunchFlexTemplate c req]
          /\ DataflowAccessor.world st' = w2).
Proof.
  destruct st as [w ev].
  unfold DataflowAccessor.LaunchFlexTemplate, bind, DataflowAccessor.call, ret.
  cbn [DataflowAccessor.world DataflowAccessor.events].
  destruct (DataflowAccessor.GetOrCreateClient env w) as [[c [e|]] w1]; cbn.
  2: destruct (DataflowAccessor.clientLaunchFlexTemplate env c req w1)
       as [[r [e|]] w2] eqn:Hl; cbn.
  all: do 4 eexists; (split; [reflexivity|]); cbn;
    (split; [by rewrite <- ?app_assoc|]);
    repeat match goal with |- _ /\ _ => split end;
    try done;
    try (by intros ? ? ? [= <- <- <-]);
    try (by intros ? ? ? ? ? [=]);
    try (by intros ? ? ? ? [=]).
  all: try (intros ? ? ? ? ? [= <- <-]; rewrite Hl; by intros [= <- <- <-]).
  all: try (intros ? ? ? ? [= <- <-]; rewrite Hl; by intros [= <- <-]).
  all: try (intros ? ? ? ? ? [= <- <-]; rewrite Hl; by intros [=]).
  all: try (intros ? ? ? ? [= <- <-]; rewrite Hl; by intros [=]).
Qed.

(** X21: [UnmarshalDataflowTuningConfig] reads the file once and calls
    nothing else.  An error of the reading or of the decoding is returned
    as it is, and with it the zero config: what the decoder had filled in
    before it failed is dropped.  Without an error the config is what
    the decoder made of the zero config. *)
Theorem UnmarshalDataflowTuningConfig_outcome (filePath : string) st :
  exists cfg e st',
    DataflowAccessor.UnmarshalDataflowTuningConfig env filePath st = (Ret (cfg, e), st')
    /\ DataflowAccessor.events st'
       = (DataflowAccessor.events st ++ [DataflowAccessor.EvReadAnyFile filePath])%list
    /\ DataflowAccessor.world st'
       = snd (DataflowAccessor.ReadAnyFile env filePath (DataflowAccessor.world st))
    /\ (e <> None -> cfg = DataflowTuningConfig.zero)
    /\ (forall s err w1,
          DataflowAccessor.ReadAnyFile env filePath (DataflowAccessor.world st)
          = ((s, Some err), w1) ->
          e = Some err)
    /\ (forall s w1,
          DataflowAccessor.ReadAnyFile env filePath (DataflowAccessor.world st)
          = ((s, None), w1) ->
          e = snd (DataflowAccessor.jsonUnmarshal env s DataflowTuningConfig.zero)
          /\ (e = None ->
              cfg = fst (DataflowAccessor.jsonUnmarshal env s DataflowTuningConfig.zero))).
Proof.
  destruct st as [w ev].
  unfold DataflowAccessor.UnmarshalDataflowTuningConfig, bind, DataflowAccessor.call, ret,
    assign.
  cbn [DataflowAccessor.world DataflowAccessor.events].
  destruct (DataflowAccessor.ReadAnyFile env filePath w) as [[s [e|]] w1]; cbn [fst snd].
  2: destruct (DataflowAccessor.jsonUnmarshal env s DataflowTuningConfig.zero)
       as [cfg [e|]] eqn:Hj; cbn [fst snd].
  all: do 3 eexists; (split; [reflexivity|]);
    cbn [DataflowAccessor.world DataflowAccessor.events];
    repeat match goal with |- _ /\ _ => split end;
    try done;
    try (by intros ? ? ? [= <- <- <-]);
    try (by intros ? ? ? [=]);
    try (by intros ? ? [=]);
    try (intros ? ? [= <- <-]; by rewrite Hj).
Qed.
End DataflowAccessorProperties.


(** ** The emulator wrapper *)

Section EmulatorProperties.
Context {World Writer Pid Admin : Type}.
Variable env : Emulator.Env World Writer Pid Admin.
Implicit Types (st : Emulator.State World Writer Pid) (e : Emulator.t Writer Pid).

Ltac emu_run :=
  cbv beta iota zeta delta
    [bind ret panic assign Emulator.call Emulator.alloc Emulator.load Emulator.store
     Emulator.Stop Emulator.Process_Release Emulator.Process_Kill
     Emulator.Start Emulator.Start_body Emulator.startEmulatorSubprocess
     Emulator.waitForReady Emulator.ClientOptions Emulator.Command
     Emulator.world Emulator.events Emulator.heap
     Emulator.opts Emulator.hostport Emulator.cmd Emulator.once
     Emulator.EmulatorAddress Emulator.LogEmulatorRequests Emulator.EmulatorStdout
     Emulator.EmulatorStderr hostportOf subprocessCommand startedCommand readyDialOptions
     Emulator.Path Emulator.Args Emulator.Pdeathsig Emulator.Stdout Emulator.Stderr
     Emulator.Process fst snd].

(** [Stop] on an emulator in memory. *)
Lemma Stop_run (p : addr) e st :
  Emulator.heap st !! p = Some e ->
  Emulator.Stop env (Some p) st
  = if Emulator.once e then (Ret tt, st)
    else
      let fired := Emulator.mk (Emulator.opts e) (Emulator.hostport e) (Emulator.cmd e) true in
      match Emulator.cmd e with
      | None =>
          (Ret tt, Emulator.mkState (Emulator.world st) (Emulator.events st)
                     (<[p := fired]> (Emulator.heap st)))
      | Some c =>
          match Emulator.Process c with
          | None =>
              (Panic Emulator.nilDereference,
               Emulator.mkState (Emulator.world st) (Emulator.events st)
                 (<[p := fired]> (Emulator.heap st)))
          | Some pid =>
              (Ret tt,
               Emulator.mkState
                 (Emulator.processRelease env pid (Emulator.world st))
                 (Emulator.events st ++ [Emulator.EvRelease pid])
                 (<[p := Emulator.mk (Emulator.opts e) (Emulator.hostport e) None true]>
                    (<[p := fired]> (Emulator.heap st))))
          end
      end.
Proof.
  destruct st as [w ev hp]. cbn [Emulator.heap]. intros Hp.
  emu_run. rewrite Hp.
  destruct e as [o h [[path args sig out err [pid|]]|] [|]]; reflexivity.
Qed.

(** X22: [Stop] fires once.  On an emulator whose subprocess was
    started it gives up the handle of that process and then calls [Kill]
    on the handle it has just released, which the os package refuses
    with [os: process already released]: one handle is released, no
    kill signal is sent, and the command is forgotten.  Called again, or
    called on an emulator without a command, it calls nothing and leaves
    the world as it is.  Through a nil pointer it panics with Go's
    nil-dereference run-time error. *)
Theorem Stop_once (p : addr) e st :
  Emulator.heap st !! p = Some e ->
  (forall c, Emulator.cmd e = Some c -> Emulator.Process c <> None) ->
  exists st1 new,
    Emulator.Stop env (Some p) st = (Ret tt, st1)
    /\ Emulator.Stop env (Some p) st1 = (Ret tt, st1)
    /\ Emulator.events st1 = (Emulator.events st ++ new)%list
    /\ forallb (fun ev => negb (isKill ev)) new = true
    /\ (Emulator.once e = true -> st1 = st)
    /\ (Emulator.once e = false ->
        Emulator.heap st1
        = <[p := Emulator.mk (Emulator.opts e) (Emulator.hostport e) None true]>
            (Emulator.heap st)
        /\ match Emulator.cmd e with
           | None => new = [] /\ Emulator.world st1 = Emulator.world st
           | Some c =>
               forall pid, Emulator.Process c = Some pid ->
                 new = [Emulator.EvRelease pid]
                 /\ Emulator.world st1
                    = Emulator.processRelease env pid (Emulator.world st)
           end)
    /\ (forall pid, Emulator.Process_Kill env pid true st1
                     = (Ret (Some "os: process already released"), st1))
    /\ Emulator.Stop env None st
       = (Panic "runtime error: invalid memory address or nil pointer dereference", st).
Proof.
  intros Hp Hproc. rewrite (Stop_run p e st Hp).
  destruct (Emulator.once e) eqn:Ho.
  - exists st, []. rewrite (Stop_run p e st Hp), Ho.
    rewrite app_nil_r. by repeat split.
  - cbv zeta.
    destruct (Emulator.cmd e) as [c|] eqn:Hc.
    + destruct (Emulator.Process c) as [pid|] eqn:Hpid; [|by destruct (Hproc c eq_refl)].
      eexists _, [Emulator.EvRelease pid]. split; [reflexivity|].
      split.
      { erewrite Stop_run by (cbn [Emulator.heap]; apply lookup_insert_eq).
        reflexivity. }
      cbn [Emulator.heap Emulator.events Emulator.world].
      split; [reflexivity|]. split; [reflexivity|]. split; [done|].
      split; [|done].
      intros _. split; [apply insert_insert_eq|].
      by intros ? [= <-].
    + eexists _, []. split; [reflexivity|].
      split.
      { erewrite Stop_run by (cbn [Emulator.heap]; apply lookup_insert_eq).
        reflexivity. }
      cbn [Emulator.heap Emulator.events Emulator.world].
      split; [by rewrite app_nil_r|]. split; [reflexivity|]. split; [done|].
      split; [|done].
      intros _. by split.
Qed.

(** [startEmulatorSubprocess] on an emulator in memory, path by path. *)
Lemma startEmulatorSubprocess_run (p : addr) e st :
  Emulator.heap st !! p = Some e ->
  let path := fst (Emulator.filepathAbs env Emulator.emulatorBinary (Emulator.world st)) in
  let c := subprocessCommand (Emulator.opts e) path in
  Emulator.startEmulatorSubprocess env p st
  = if Emulator.statNotExist env path (Emulator.world st) then
      (Ret (Some ("cannot find cloud spanner emulator binary at " +:+ path)),
       Emulator.mkState (Emulator.world st) (Emulator.events st ++ [Emulator.EvStat path])
         (Emulator.heap st))
    else
      let set := Emulator.mk (Emulator.opts e) (hostportOf (Emulator.opts e)) (Some c)
                   (Emulator.once e) in
      match Emulator.cmdStart env c (Emulator.world st) with
      | (Emulator.StartFailed err, w1) =>
          (Ret (Some ("error starting emulator subprocess: " +:+ err)),
           Emulator.mkState w1
             ((Emulator.events st ++ [Emulator.EvStat path]) ++ [Emulator.EvCmdStart c])
             (<[p := set]> (Emulator.heap st)))
      | (Emulator.Started pid, w1) =>
          (Ret None,
           Emulator.mkState w1
             ((Emulator.events st ++ [Emulator.EvStat path]) ++ [Emulator.EvCmdStart c])
             (<[p := Emulator.mk (Emulator.opts e) (hostportOf (Emulator.opts e))
                       (Some (startedCommand (Emulator.opts e) path pid))
                       (Emulator.once e)]>
                (<[p := set]> (Emulator.heap st))))
      end.
Proof.
  destruct st as [w ev hp]. cbn [Emulator.heap Emulator.world Emulator.events].
  intros Hp. emu_run. rewrite Hp.
  destruct e as [[addr0 logreq out err] h c0 o]. emu_run.
  destruct (Emulator.statNotExist env _ w); [reflexivity|].
  destruct (isEmpty addr0); emu_run;
    lazymatch goal with
    | |- context [Emulator.cmdStart env ?c w] =>
        destruct (Emulator.cmdStart env c w) as [[pid|e] w1]
    end; reflexivity.
Qed.

(** [waitForReady] on an emulator in memory, path by path. *)
Lemma waitForReady_run (p : addr) e st :
  Emulator.heap st !! p = Some e ->
  let dial := readyDialOptions (Emulator.hostport e) in
  Emulator.waitForReady env p st
  = match Emulator.NewInstanceAdminClient env dial (Emulator.world st) with
    | ((_, Some err), w1) =>
        (Ret (Some ("failed to create an instance admin client for emulator: " +:+ err)),
         Emulator.mkState w1
           ((Emulator.events st ++ [Emulator.EvNewInstanceAdminClient dial])
            ++ [Emulator.EvCancel])
           (Emulator.heap st))
    | ((admin, None), w1) =>
        match Emulator.ListInstanceConfigsNext env admin "projects/test-project" w1 with
        | (r, w2) =>
            (Ret (match r with
                  | Emulator.NextFailed err =>
                      Some ("emulator failed to come up at " +:+ Emulator.hostport e
                            +:+ " within 30s deadline: " +:+ err)
                  | _ => None
                  end),
             Emulator.mkState w2
               (((Emulator.events st ++ [Emulator.EvNewInstanceAdminClient dial])
                 ++ [Emulator.EvListInstanceConfigs "projects/test-project"])
                ++ [Emulator.EvCancel])
               (Emulator.heap st))
        end
    end.
Proof.
  destruct st as [w ev hp]. cbn [Emulator.heap Emulator.world Emulator.events].
  intros Hp. emu_run. rewrite Hp. cbn [app].
  destruct (Emulator.NewInstanceAdminClient env _ w) as [[admin [err|]] w1]; emu_run;
    [reflexivity|].
  destruct (Emulator.ListInstanceConfigsNext env admin _ w1) as [[| |err] w2]; reflexivity.
Qed.

(** [Start], path by path. *)
Lemma Start_run (opts : Emulator.Options Writer) st :
  let p := fresh (dom (Emulator.heap st)) in
  let path := fst (Emulator.filepathAbs env Emulator.emulatorBinary (Emulator.world st)) in
  let c : Emulator.Cmd Writer Pid := subprocessCommand opts path in
  let dial := readyDialOptions (hostportOf opts) in
  let e0 := Emulator.mk opts "" None false in
  let set := Emulator.mk opts (hostportOf opts) (Some c) false in
  let running pid :=
    Emulator.mk opts (hostportOf opts) (Some (startedCommand opts path pid)) false in
  let ev1 := ((Emulator.events st ++ [Emulator.EvStat path])
              ++ [Emulator.EvCmdStart c])%list in
  Emulator.Start env opts st
  = if Emulator.statNotExist env path (Emulator.world st) then
      (Panic Emulator.nilDereference,
       Emulator.mkState (Emulator.world st) (Emulator.events st ++ [Emulator.EvStat path])
         (<[p := e0]> (Emulator.heap st)))
    else
      match Emulator.cmdStart env c (Emulator.world st) with
      | (Emulator.StartFailed err, w1) =>
          (Panic Emulator.nilDereference,
           Emulator.mkState w1 ev1 (<[p := set]> (<[p := e0]> (Emulator.heap st))))
      | (Emulator.Started pid, w1) =>
          let hp2 := <[p := running pid]> (<[p := set]> (<[p := e0]> (Emulator.heap st))) in
          match Emulator.NewInstanceAdminClient env dial w1 with
          | ((_, Some err), w2) =>
              (Panic Emulator.nilDereference,
               Emulator.mkState w2
                 ((ev1 ++ [Emulator.EvNewInstanceAdminClient dial])
                  ++ [Emulator.EvCancel]) hp2)
          | ((admin, None), w2) =>
              let ev2 := (((ev1 ++ [Emulator.EvNewInstanceAdminClient dial])
                           ++ [Emulator.EvListInstanceConfigs "projects/test-project"])
                          ++ [Emulator.EvCancel])%list in
              match Emulator.ListInstanceConfigsNext env admin "projects/test-project" w2 with
              | (Emulator.NextFailed err, w3) =>
                  (Panic Emulator.nilDereference, Emulator.mkState w3 ev2 hp2)
              | (_, w3) =>
                  (Ret (Some p, None),
                   Emulator.mkState w3
                     (ev2 ++ [Emulator.EvPrintf
                                ("Cloud spanner emulator listening at: "
                                 +:+ hostportOf opts)])
                     hp2)
              end
          end
      end.
Proof.
  destruct st as [w ev hp]. cbv zeta.
  cbv beta iota zeta delta [Emulator.Start Emulator.Start_body bind Emulator.alloc
                            Emulator.world Emulator.events Emulator.heap].
  erewrite startEmulatorSubprocess_run by (cbn [Emulator.heap]; apply lookup_insert_eq).
  cbv zeta. cbn [Emulator.heap Emulator.world Emulator.events Emulator.opts Emulator.once].
  destruct (Emulator.statNotExist env _ w).
  { reflexivity. }
  destruct (Emulator.cmdStart env _ w) as [[pid|err] w1].
  2:{ reflexivity. }
  erewrite waitForReady_run by (cbn [Emulator.heap]; apply lookup_insert_eq).
  cbv zeta. cbn [Emulator.heap Emulator.world Emulator.events Emulator.hostport].
  destruct (Emulator.NewInstanceAdminClient env _ w1) as [[admin [err|]] w2].
  { reflexivity. }
  destruct (Emulator.ListInstanceConfigsNext env admin _ w2) as [[| |err] w3].
  3:{ reflexivity. }
  all: cbv beta iota zeta delta [ret Emulator.load Emulator.call Emulator.heap
                                 Emulator.world Emulator.events fst snd];
    rewrite lookup_insert_eq; reflexivity.
Qed.

(** X23: what [Start] does, by the answers it gets.  When the binary
    is there, the subprocess starts, the admin client can be made and the
    first answer of the emulator is not an error, [Start] returns a new
    emulator and nil; the emulator holds the address of the options, or
    else [localhost:9010], and the started command built from the
    options.  In every other run the [return] statement assigns nil to
    the emulator before the deferred call of [Stop] goes through it, so
    that [Start] panics with Go's nil-dereference run-time error and its
    caller never sees the error that was made.  No run of [Start] gives
    up a process handle or signals a process, also when the subprocess
    had been started. *)
Theorem Start_outcome (opts : Emulator.Options Writer) st :
  let p := fresh (dom (Emulator.heap st)) in
  let path := fst (Emulator.filepathAbs env Emulator.emulatorBinary (Emulator.world st)) in
  let c : Emulator.Cmd Writer Pid := subprocessCommand opts path in
  let dial := readyDialOptions (hostportOf opts) in
  let up := [Emulator.EvStat path; Emulator.EvCmdStart c] in
  let asked := [Emulator.EvNewInstanceAdminClient dial;
                Emulator.EvListInstanceConfigs "projects/test-project";
                Emulator.EvCancel] in
  let running pid :=
    Emulator.mk opts (hostportOf opts) (Some (startedCommand opts path pid)) false in
  let nilPanic : Res (option addr * option error) :=
    Panic "runtime error: invalid memory address or nil pointer dereference" in
  Emulator.heap st !! p = None
  /\ (exists r st' new,
        Emulator.Start env opts st = (r, st')
        /\ Emulator.events st' = (Emulator.events st ++ new)%list
        /\ forallb (fun ev => negb (endsProcess ev)) new = true
        /\ (r = nilPanic \/ r = Ret (Some p, None)))
  /\ (Emulator.statNotExist env path (Emulator.world st) = true ->
      Emulator.Start env opts st
      = (nilPanic,
         Emulator.mkState (Emulator.world st) (Emulator.events st ++ [Emulator.EvStat path])
           (<[p := Emulator.mk opts "" None false]> (Emulator.heap st))))
  /\ (Emulator.statNotExist env path (Emulator.world st) = false ->
      forall started w1,
        Emulator.cmdStart env c (Emulator.world st) = (started, w1) ->
        match started with
        | Emulator.StartFailed _ =>
            Emulator.Start env opts st
            = (nilPanic,
               Emulator.mkState w1 (Emulator.events st ++ up)
                 (<[p := Emulator.mk opts (hostportOf opts) (Some c) false]>
                    (Emulator.heap st)))
        | Emulator.Started pid =>
            forall admin failed w2,
              Emulator.NewInstanceAdminClient env dial w1 = ((admin, failed), w2) ->
              match failed with
              | Some _ =>
                  Emulator.Start env opts st
                  = (nilPanic,
                     Emulator.mkState w2
                       (Emulator.events st ++ up
                        ++ [Emulator.EvNewInstanceAdminClient dial; Emulator.EvCancel])
                       (<[p := running pid]> (Emulator.heap st)))
              | None =>
                  forall answer w3,
                    Emulator.ListInstanceConfigsNext env admin "projects/test-project" w2
                    = (answer, w3) ->
                    Emulator.Start env opts st
                    = match answer with
                      | Emulator.NextFailed _ =>
                          (nilPanic,
                           Emulator.mkState w3 (Emulator.events st ++ up ++ asked)
                             (<[p := running pid]> (Emulator.heap st)))
                      | Emulator.Item | Emulator.Done =>
                          (Ret (Some p, None),
                           Emulator.mkState w3
                             (Emulator.events st ++ up ++ asked
                              ++ [Emulator.EvPrintf
                                    ("Cloud spanner emulator listening at: "
                                     +:+ hostportOf opts)])
                             (<[p := running pid]> (Emulator.heap st)))
                      end
              end
        end).
Proof.
  intros p path c dial up asked running nilPanic.
  pose proof (Start_run opts st) as Hrun. cbv zeta in Hrun.
  fold p path c dial in Hrun.
  change (Panic Emulator.nilDereference) with nilPanic in Hrun.
  split; [apply not_elem_of_dom, is_fresh|].
  split.
  { rewrite Hrun.
    destruct (Emulator.statNotExist env path (Emulator.world st)).
    { do 3 eexists. split; [reflexivity|]. cbn [Emulator.events]. by repeat split; left. }
    destruct (Emulator.cmdStart env c (Emulator.world st)) as [[pid|err] w1].
    2:{ do 3 eexists. split; [reflexivity|]. cbn [Emulator.events].
        split; [by rewrite <- app_assoc|]. by split; [|left]. }
    destruct (Emulator.NewInstanceAdminClient env dial w1) as [[admin [err|]] w2].
    { do 3 eexists. split; [reflexivity|]. cbn [Emulator.events].
      split; [by rewrite <- !app_assoc|]. by split; [|left]. }
    destruct (Emulator.ListInstanceConfigsNext env admin _ w2) as [[| |err] w3].
    all: do 3 eexists; (split; [reflexivity|]); cbn [Emulator.events];
      (split; [by rewrite <- !app_assoc|]); (split; [reflexivity|]);
      by (left + right). }
  split.
  { intros E. by rewrite Hrun, E. }
  intros E started w1 Hstart. rewrite E, Hstart in Hrun.
  subst up asked running.
  destruct started as [pid|err].
  2:{ rewrite Hrun, ?insert_insert_eq, <- ?app_assoc. reflexivity. }
  intros admin failed w2 Hnew. rewrite Hnew in Hrun.
  destruct failed as [err|].
  { rewrite Hrun, ?insert_insert_eq, <- ?app_assoc. reflexivity. }
  intros answer w3 Hnext. rewrite Hnext in Hrun. rewrite Hrun.
  destruct answer; rewrite ?insert_insert_eq, <- ?app_assoc; reflexivity.
Qed.

(** X24: [Stop] does not signal the emulator that [Start] returned.
    When [Start] has come through, [Stop] on its result gives up the
    handle of the process that [Start] started and forgets the command;
    the [Kill] that follows is refused by the released handle, so the run
    of both ends with the release and holds no kill signal, and the
    world is as the release left it.  A second [Stop] does nothing. *)
Theorem Start_then_Stop (opts : Emulator.Options Writer) st
    (pid : Pid) (admin : Admin) (answer : Emulator.NextResult) (w1 w2 w3 : World) :
  let p := fresh (dom (Emulator.heap st)) in
  let path := fst (Emulator.filepathAbs env Emulator.emulatorBinary (Emulator.world st)) in
  let c : Emulator.Cmd Writer Pid := subprocessCommand opts path in
  let dial := readyDialOptions (hostportOf opts) in
  Emulator.statNotExist env path (Emulator.world st) = false ->
  Emulator.cmdStart env c (Emulator.world st) = (Emulator.Started pid, w1) ->
  Emulator.NewInstanceAdminClient env dial w1 = ((admin, None), w2) ->
  Emulator.ListInstanceConfigsNext env admin "projects/test-project" w2 = (answer, w3) ->
  cameUp answer = true ->
  exists st1 st2,
    Emulator.Start env opts st = (Ret (Some p, None), st1)
    /\ Emulator.world st1 = w3
    /\ Emulator.Stop env (Some p) st1 = (Ret tt, st2)
    /\ Emulator.events st2
       = (Emulator.events st
          ++ [Emulator.EvStat path; Emulator.EvCmdStart c;
              Emulator.EvNewInstanceAdminClient dial;
              Emulator.EvListInstanceConfigs "projects/test-project";
              Emulator.EvCancel;
              Emulator.EvPrintf ("Cloud spanner emulator listening at: "
                                 +:+ hostportOf opts);
              Emulator.EvRelease pid])%list
    /\ Emulator.world st2 = Emulator.processRelease env pid w3
    /\ Emulator.heap st2
       = <[p := Emulator.mk opts (hostportOf opts) None true]> (Emulator.heap st)
    /\ Emulator.Stop env (Some p) st2 = (Ret tt, st2).
Proof.
  intros p path c dial Hstat Hstart Hnew Hnext Hup.
  pose proof (Start_run opts st) as Hrun. cbv zeta in Hrun.
  fold p path c dial in Hrun. rewrite Hstat, Hstart, Hnew, Hnext in Hrun.
  assert (Hst1 : Emulator.Start env opts st
                 = (Ret (Some p, None),
                    Emulator.mkState w3
                      (Emulator.events st
                       ++ [Emulator.EvStat path; Emulator.EvCmdStart c;
                           Emulator.EvNewInstanceAdminClient dial;
                           Emulator.EvListInstanceConfigs "projects/test-project";
                           Emulator.EvCancel;
                           Emulator.EvPrintf ("Cloud spanner emulator listening at: "
                                              +:+ hostportOf opts)])
                      (<[p := Emulator.mk opts (hostportOf opts)
                                (Some (startedCommand opts path pid)) false]>
                         (Emulator.heap st)))).
  { rewrite Hrun.
    destruct answer; try discriminate Hup;
      rewrite ?insert_insert_eq, <- ?app_assoc; reflexivity. }
  clear Hrun. eexists _, _. split; [exact Hst1|].
  split; [reflexivity|].
  erewrite Stop_run by (cbn [Emulator.heap]; apply lookup_insert_eq).
  cbn [Emulator.once Emulator.cmd Emulator.opts Emulator.hostport startedCommand
       Emulator.Process Emulator.world Emulator.events Emulator.heap].
  cbv zeta. cbn [Emulator.Process].
  split; [reflexivity|]. cbn [Emulator.events Emulator.heap Emulator.world].
  split; [by rewrite <- app_assoc|].
  split; [reflexivity|].
  split; [by rewrite !insert_insert_eq|].
  erewrite Stop_run by (cbn [Emulator.heap]; apply lookup_insert_eq).
  reflexivity.
Qed.

(** X25: [startEmulatorSubprocess] looks for the binary before it does
    anything else.  When [os.Stat] says the binary does not exist, it
    returns [cannot find cloud spanner emulator binary at <path>], starts
    no process and leaves the emulator as it was, address unset.
    Otherwise it starts the command built from the options, exactly
    once, whatever [filepath.Abs] had to say; the emulator then holds the
    address and the command, and the process only if the start
    succeeded. *)
Theorem startEmulatorSubprocess_outcome (p : addr) e st :
  Emulator.heap st !! p = Some e ->
  let path := fst (Emulator.filepathAbs env Emulator.emulatorBinary (Emulator.world st)) in
  let c : Emulator.Cmd Writer Pid := subprocessCommand (Emulator.opts e) path in
  exists err st' e',
    Emulator.startEmulatorSubprocess env p st = (Ret err, st')
    /\ Emulator.heap st' !! p = Some e'
    /\ (Emulator.statNotExist env path (Emulator.world st) = true ->
        err = Some ("cannot find cloud spanner emulator binary at " +:+ path)
        /\ e' = e /\ Emulator.heap st' = Emulator.heap st
        /\ Emulator.events st' = (Emulator.events st ++ [Emulator.EvStat path])%list)
    /\ (Emulator.statNotExist env path (Emulator.world st) = false ->
        Emulator.events st'
        = (Emulator.events st ++ [Emulator.EvStat path; Emulator.EvCmdStart c])%list
        /\ Emulator.hostport e' = hostportOf (Emulator.opts e)
        /\ Emulator.hostport e' <> ""
        /\ match fst (Emulator.cmdStart env c (Emulator.world st)) with
           | Emulator.Started pid =>
               err = None
               /\ Emulator.cmd e' = Some (startedCommand (Emulator.opts e) path pid)
           | Emulator.StartFailed msg =>
               err = Some ("error starting emulator subprocess: " +:+ msg)
               /\ Emulator.cmd e' = Some c
           end).
Proof.
  intros Hp path c. rewrite (startEmulatorSubprocess_run p e st Hp). cbv zeta.
  fold path. fold c.
  assert (Hne : hostportOf (Emulator.opts e) <> "").
  { unfold hostportOf. destruct (isEmpty (Emulator.EmulatorAddress (Emulator.opts e))) eqn:E;
      [done|by apply isEmpty_false]. }
  destruct (Emulator.statNotExist env path (Emulator.world st)).
  { do 3 eexists. split; [reflexivity|]. cbn [Emulator.heap Emulator.events].
    split; [exact Hp|]. by split. }
  destruct (Emulator.cmdStart env c (Emulator.world st)) as [[pid|msg] w1];
    cbn [fst]; do 3 eexists; (split; [reflexivity|]);
    cbn [Emulator.heap Emulator.events];
    (split; [apply lookup_insert_eq|]); (split; [done|]); intros _;
    cbn [Emulator.hostport Emulator.cmd];
    (split; [by rewrite <- app_assoc|]); by repeat split.
Qed.

(** X26: [waitForReady] dials the address of the emulator, blocking,
    without authentication and insecure, and asks once for the instance
    configs of [projects/test-project].  An answer and the end of the
    list both count as ready.  It fails only when the client cannot be
    made or the first answer is an error other than the end of the list,
    and then names the address and the deadline of [30s].  On every path
    it cancels its context once, as its last act, and leaves the
    emulators in memory as they are. *)
Theorem waitForReady_outcome (p : addr) e st :
  Emulator.heap st !! p = Some e ->
  let dial := readyDialOptions (Emulator.hostport e) in
  exists err st' new,
    Emulator.waitForReady env p st = (Ret err, st')
    /\ Emulator.heap st' = Emulator.heap st
    /\ Emulator.events st'
       = (Emulator.events st ++ Emulator.EvNewInstanceAdminClient dial :: new)%list
    /\ last new = Some Emulator.EvCancel
    /\ length (List.filter isCancel new) = 1%nat
    /\ (forall admin w1 w2 r,
          Emulator.NewInstanceAdminClient env dial (Emulator.world st)
          = ((admin, None), w1) ->
          Emulator.ListInstanceConfigsNext env admin "projects/test-project" w1 = (r, w2) ->
          new = [Emulator.EvListInstanceConfigs "projects/test-project"; Emulator.EvCancel]
          /\ err = match r with
                   | Emulator.NextFailed msg =>
                       Some ("emulator failed to come up at " +:+ Emulator.hostport e
                             +:+ " within 30s deadline: " +:+ msg)
                   | Emulator.Item | Emulator.Done => None
                   end)
    /\ (forall admin msg w1,
          Emulator.NewInstanceAdminClient env dial (Emulator.world st)
          = ((admin, Some msg), w1) ->
          new = [Emulator.EvCancel]
          /\ err = Some ("failed to create an instance admin client for emulator: "
                         +:+ msg)).
Proof.
  intros Hp dial. rewrite (waitForReady_run p e st Hp). cbv zeta. fold dial.
  destruct (Emulator.NewInstanceAdminClient env dial (Emulator.world st))
    as [[admin [msg|]] w1].
  - do 3 eexists. split; [reflexivity|]. cbn [Emulator.heap Emulator.events].
    split; [done|]. split; [by rewrite <- app_assoc|].
    split; [done|]. split; [done|]. split; [by intros ? ? ? ? [=]|].
    by intros ? ? ? [= <- <- <-].
  - destruct (Emulator.ListInstanceConfigsNext env admin "projects/test-project" w1)
      as [r w2] eqn:Hn.
    do 3 eexists. split; [reflexivity|]. cbn [Emulator.heap Emulator.events].
    split; [done|]. split; [by rewrite <- !app_assoc|].
    split; [done|]. split; [done|]. split; [|by intros ? ? ? [=]].
    intros ? ? ? ? [= <- <-]. rewrite Hn. intros [= <- <-]. split; [done|].
    by destruct r.
Qed.
End EmulatorProperties.


(** ** The helpers of the emulator's tests *)

Section EmulatorTestProperties.
Context {World InstanceAdmin DatabaseAdmin InstanceOp DatabaseOp Writer Pid : Type}.
Variable env : EmulatorTest.Env World InstanceAdmin DatabaseAdmin InstanceOp DatabaseOp.
Implicit Types (st : EmulatorTest.State World) (emu : Emulator.t Writer Pid).

Ltac test_run :=
  cbv beta iota zeta delta
    [bind ret EmulatorTest.call EmulatorTest.setup EmulatorTest.cleanup
     EmulatorTest.createInstance EmulatorTest.createDatabase EmulatorTest.deleteInstance
     EmulatorTest.world EmulatorTest.events fst snd].

(** X27: what [setup] does, by the answers it gets, for an emulator
    that is not nil.  It asks for an instance admin client with the
    options of the emulator, creates the instance [test-instance] of
    [projects/test-project] and waits for it, asks for a database admin
    client with the same options, creates [test-database] in that
    instance with the schema of the test and waits for it.  The first of
    these six calls that answers with an error is the last call made:
    [setup] then returns the empty string and that error behind the
    words of its step.  When none fails it returns nil and the URI
    [projects/test-project/instances/test-instance/databases/test-database],
    the one [TestCreateDatabase] wants. *)
Theorem setup_outcome emu st :
  let opts := Emulator.ClientOptions emu in
  let instanceReq :=
    EmulatorTest.mkCreateInstanceRequest "projects/test-project"
      "test-instance" "test-instance" 1 in
  let databaseReq :=
    EmulatorTest.mkCreateDatabaseRequest
      "projects/test-project/instances/test-instance"
      "CREATE DATABASE `test-database`" EmulatorTest.schemaDDL in
  let calls :=
    [ EmulatorTest.EvNewInstanceAdminClient opts;
      EmulatorTest.EvCreateInstance instanceReq;
      EmulatorTest.EvWaitInstance;
      EmulatorTest.EvNewDatabaseAdminClient opts;
      EmulatorTest.EvCreateDatabase databaseReq;
      EmulatorTest.EvWaitDatabase ] in
  let stops (n : nat) (step m : string) (w : World) :=
    EmulatorTest.setup env emu st
    = (Ret ("", Some (step +:+ m)),
       EmulatorTest.mkState w (EmulatorTest.events st ++ take n calls)) in
  let noInstance :=
    "Failed to create an instance in emulator: cannot create instance projects/test-project/instances/test-instance: " in
  let noDatabase :=
    "Failed to create a database in emulator: cannot create testing DB projects/test-project/instances/test-instance/databases/test-database: " in
  match EmulatorTest.NewInstanceAdminClient env opts (EmulatorTest.world st) with
  | ((_, Some m), w1) =>
      stops 1%nat "Failed to create an instance admin client for emulator: " m w1
  | ((instanceAdmin, None), w1) =>
  match EmulatorTest.CreateInstance env instanceAdmin instanceReq w1 with
  | ((_, Some m), w2) => stops 2%nat noInstance m w2
  | ((op, None), w2) =>
  match EmulatorTest.WaitInstance env op w2 with
  | (Some m, w3) => stops 3%nat noInstance m w3
  | (None, w3) =>
  match EmulatorTest.NewDatabaseAdminClient env opts w3 with
  | ((_, Some m), w4) =>
      stops 4%nat "Failed to create an database admin client for emulator: " m w4
  | ((databaseAdmin, None), w4) =>
  match EmulatorTest.CreateDatabase env databaseAdmin databaseReq w4 with
  | ((_, Some m), w5) => stops 5%nat noDatabase m w5
  | ((dop, None), w5) =>
  match EmulatorTest.WaitDatabase env dop w5 with
  | (Some m, w6) => stops 6%nat noDatabase m w6
  | (None, w6) =>
      EmulatorTest.setup env emu st
      = (Ret (EmulatorTest.want, None),
         EmulatorTest.mkState w6 (EmulatorTest.events st ++ calls))
      /\ EmulatorTest.want
         = "projects/test-project/instances/test-instance/databases/test-database"
  end end end end end end.
Proof.
  cbv zeta. destruct st as [w ev]. cbn [EmulatorTest.world EmulatorTest.events firstn].
  test_run.
  destruct (EmulatorTest.NewInstanceAdminClient env _ w) as [[ia [e|]] w1]; test_run.
  2: destruct (EmulatorTest.CreateInstance env ia _ w1) as [[op [e|]] w2]; test_run.
  3: destruct (EmulatorTest.WaitInstance env op w2) as [[e|] w3]; test_run.
  4: destruct (EmulatorTest.NewDatabaseAdminClient env _ w3) as [[da [e|]] w4]; test_run.
  5: destruct (EmulatorTest.CreateDatabase env da _ w4) as [[dop [e|]] w5]; test_run.
  6: destruct (EmulatorTest.WaitDatabase env dop w5) as [[e|] w6]; test_run.
  all: try split; rewrite <- ?app_assoc; reflexivity.
Qed.

(** X28: what [cleanup] does, by the answers it gets, for an emulator
    that is not nil.  It asks for an instance admin client with the
    options of the emulator and, if it gets one, deletes
    [projects/test-project/instances/test-instance], the instance that
    [setup] makes; it makes no other call.  When the delete answers nil
    it prints [cleaned up] and returns nil.  When the delete answers an
    error it prints that it could not clean up and returns the error
    behind [Failed to delete instance in emulator: ]; when no client is
    to be had it deletes and prints nothing and returns that error. *)
Theorem cleanup_outcome emu st :
  let opts := Emulator.ClientOptions emu in
  let instanceURI := "projects/test-project/instances/test-instance" in
  let asked := EmulatorTest.EvNewInstanceAdminClient opts in
  match EmulatorTest.NewInstanceAdminClient env opts (EmulatorTest.world st) with
  | ((_, Some m), w1) =>
      EmulatorTest.cleanup env emu st
      = (Ret (Some ("Failed to create an instance admin client for emulator: " +:+ m)),
         EmulatorTest.mkState w1 (EmulatorTest.events st ++ [asked]))
  | ((instanceAdmin, None), w1) =>
      match EmulatorTest.DeleteInstance env instanceAdmin instanceURI w1 with
      | (Some m, w2) =>
          let err := "cannot delete instance " +:+ instanceURI +:+ ": " +:+ m in
          EmulatorTest.cleanup env emu st
          = (Ret (Some ("Failed to delete instance in emulator: " +:+ err)),
             EmulatorTest.mkState w2
               (EmulatorTest.events st
                ++ [asked; EmulatorTest.EvDeleteInstance instanceURI;
                    EmulatorTest.EvPrintln [" couldnt clean up"; err]]))
      | (None, w2) =>
          EmulatorTest.cleanup env emu st
          = (Ret None,
             EmulatorTest.mkState w2
               (EmulatorTest.events st
                ++ [asked; EmulatorTest.EvDeleteInstance instanceURI;
                    EmulatorTest.EvPrintln ["cleaned up"]]))
      end
  end.
Proof.
  cbv zeta. destruct st as [w ev]. cbn [EmulatorTest.world EmulatorTest.events].
  test_run.
  destruct (EmulatorTest.NewInstanceAdminClient env _ w) as [[ia [e|]] w1]; test_run.
  2: destruct (EmulatorTest.DeleteInstance env ia _ w1) as [[e|] w2]; test_run.
  all: rewrite <- ?app_assoc; reflexivity.
Qed.
End EmulatorTestProperties.

(** ** Concrete runs of the further properties *)

Lemma validateAndUpdateJobData_source_type_witness :
  (exists r' st',
      validateAndUpdateJobData (Scenario.env Scenario.setup) Scenario.request "abc"
        Scenario.es0 = (Ret (r', None), st')
      /\ JobData.SourceType r' = "mysql")
  /\ (exists r',
        validateAndUpdateJobData (Scenario.env Scenario.setup) Requests.postgres "abc"
          Scenario.es0
        = (Ret (r', Some "postgres is not a valid source type for reverse replication. Only supported source type is mysql"),
           Scenario.es0)).
Proof.
  destruct (validateAndUpdateJobData_source_type (Scenario.env Scenario.setup)
              Scenario.request "abc" Scenario.es0) as [Hok _].
  destruct (validateAndUpdateJobData_source_type (Scenario.env Scenario.setup)
              Requests.postgres "abc" Scenario.es0) as [_ Hbad].
  split.
  - destruct (validateAndUpdateJobData (Scenario.env Scenario.setup) Scenario.request "abc"
                Scenario.es0) as [[[r' [e|]]|msg] st'] eqn:E;
      try (vm_compute in E; discriminate E).
    exists r', st'. split; [reflexivity|]. exact (proj1 (Hok r' st' eq_refl)).
  - apply Hbad; [|discriminate|discriminate].
    intros f Hin. cbn in Hin.
    destruct Hin as [<-|[<-|[<-|[<-|[<-|[]]]]]]; discriminate.
Defined.

Lemma validateAndUpdateJobData_filtration_mode_witness :
  (exists r' st',
      validateAndUpdateJobData (Scenario.env Scenario.setup) Scenario.request "abc"
        Scenario.es0 = (Ret (r', None), st')
      /\ JobData.FiltrationMode r' = "forward_migration")
  /\ (exists r' e,
        validateAndUpdateJobData (Scenario.env Scenario.setup) Requests.filtered "abc"
          Scenario.es0 = (Ret (r', Some e), Scenario.es0)).
Proof.
  destruct (validateAndUpdateJobData_filtration_mode (Scenario.env Scenario.setup)
              Scenario.request "abc" Scenario.es0) as [Hok _].
  destruct (validateAndUpdateJobData_filtration_mode (Scenario.env Scenario.setup)
              Requests.filtered "abc" Scenario.es0) as [_ Hbad].
  split.
  - destruct (validateAndUpdateJobData (Scenario.env Scenario.setup) Scenario.request "abc"
                Scenario.es0) as [[[r' [e|]]|msg] st'] eqn:E;
      try (vm_compute in E; discriminate E).
    exists r', st'. split; [reflexivity|]. exact (proj1 (Hok r' st' eq_refl)).
  - apply Hbad; discriminate.
Defined.


Lemma validateAndUpdateJobData_sharding_witness :
  (exists r' st',
      validateAndUpdateJobData (Scenario.env Scenario.setup) Requests.sharded "abc"
        Scenario.es0 = (Ret (r', None), st')
      /\ JobData.ShardingCustomJarPath r' = "gs://plugins/shard.jar"
      /\ JobData.ShardingCustomClassName r' = "com.example.Shard")
  /\ (exists r' e,
        validateAndUpdateJobData (Scenario.env Scenario.setup) Requests.shardedLocal "abc"
          Scenario.es0 = (Ret (r', Some e), Scenario.es0)).
Proof.
  destruct (validateAndUpdateJobData_sharding (Scenario.env Scenario.setup)
              Requests.sharded "abc" Scenario.es0) as [Hok _].
  destruct (validateAndUpdateJobData_sharding (Scenario.env Scenario.setup)
              Requests.shardedLocal "abc" Scenario.es0) as [_ Hbad].
  split.
  - destruct (validateAndUpdateJobData (Scenario.env Scenario.setup) Requests.sharded "abc"
                Scenario.es0) as [[[r' [e|]]|msg] st'] eqn:E;
      try (vm_compute in E; discriminate E).
    destruct (Hok r' st' eq_refl) as (Hj & Hc & _).
    exists r', st'. split; [reflexivity|]. split; [exact Hj|exact Hc].
  - apply Hbad. right. right. split; [discriminate|reflexivity].
Defined.

Lemma validateAndUpdateJobData_gcs_paths_witness :
  exists r' st',
    validateAndUpdateJobData (Scenario.env Scenario.setup) Scenario.request "abc"
      Scenario.es0 = (Ret (r', None), st')
    /\ JobData.SessionFileGcsPath r' = "gs://smt-rr-gcs-abc/session.json"
    /\ JobData.SourceConnectionConfigGcsPath r' = "gs://cfg/source.json"
    /\ JobData.GcsDataDirectory r' = "gs://smt-rr-gcs-abc/reverse-replication/data".
Proof.
  destruct (validateAndUpdateJobData (Scenario.env Scenario.setup) Scenario.request "abc"
              Scenario.es0) as [[[r' [e|]]|msg] st'] eqn:E;
    try (vm_compute in E; discriminate E).
  destruct (validateAndUpdateJobData_gcs_paths (Scenario.env Scenario.setup)
              Scenario.request r' "abc" Scenario.es0 st' E)
    as (_ & _ & _ & Hs & Hc & Hd).
  exists r', st'. split; [reflexivity|]. split; [exact Hs|]. split; [exact Hc|exact Hd].
Defined.

Lemma validateAndUpdateJobData_bucket_paths_witness :
  exists r' st',
    validateAndUpdateJobData (Scenario.env Scenario.setup) Scenario.requestStaged "abc"
      Scenario.es0 = (Ret (r', None), st')
    /\ JobData.IsSMTBucketRequired r' = false
    /\ JobData.SmtBucketName r' = ""
    /\ JobData.SessionFileGcsPath r' = "gs://cfg/session.json"
    /\ JobData.GcsDataDirectory r' = "gs://data/rr".
Proof.
  destruct (validateAndUpdateJobData (Scenario.env Scenario.setup) Scenario.requestStaged
              "abc" Scenario.es0) as [[[r' [e|]]|msg] st'] eqn:E;
    try (vm_compute in E; discriminate E).
  destruct (validateAndUpdateJobData_bucket_paths (Scenario.env Scenario.setup)
              Scenario.requestStaged r' "abc" Scenario.es0 st' E) as [Hno _].
  assert (Hflag : JobData.IsSMTBucketRequired r' = false).
  { pose proof E as E0. vm_compute in E0. by injection E0 as <- _. }
  destruct (Hno Hflag) as (Hb & Hs & _ & Hd).
  exists r', st'. split; [reflexivity|]. split; [exact Hflag|].
  split; [exact Hb|]. split; [exact Hs|exact Hd].
Defined.

Lemma validateAndUpdateJobData_again_witness :
  exists r1 st1 r2 st2,
    validateAndUpdateJobData (Scenario.env Scenario.setup) Requests.hosted "abc"
      Scenario.es0 = (Ret (r1, None), st1)
    /\ JobData.IsSMTBucketRequired r1 = true
    /\ passesChecks (Scenario.env Scenario.setup) r1 = true
    /\ validateAndUpdateJobData (Scenario.env Scenario.setup) r1 "abc" Scenario.es0
       = (Ret (r2, None), st2)
    /\ JobData.IsSMTBucketRequired r2 = false
    /\ JobData.GcsDataDirectory r2 = JobData.GcsDataDirectory r1.
Proof.
  destruct (validateAndUpdateJobData_again (Scenario.env Scenario.setup)
              Requests.hosted "abc" Scenario.es0 Scenario.es0 "us-central1" []
              eq_refl eq_refl)
    as (r1 & Hrun & Hp1 & _ & Hagain & _).
  assert (Hflag : JobData.IsSMTBucketRequired r1 = true).
  { pose proof Hrun as E0. vm_compute in E0. by injection E0 as <-. }
  do 4 eexists. split; [exact Hrun|]. split; [exact Hflag|]. split; [exact Hp1|].
  split; [exact (Hagain "us-central1" None [] eq_refl)|]. split; reflexivity.
Defined.

Lemma validateUpdateReaderTuningCfg_keeps_given_witness :
  exists cfg' labels',
    validateUpdateReaderTuningCfg (Scenario.env Scenario.setup) Failures.labelled
      "p1" "us-central1" "smt-job-abc" Scenario.es0 = (Ret cfg', Scenario.es0)
    /\ DataflowTuningConfig.JobName cfg' = "my-reader"
    /\ DataflowTuningConfig.MaxWorkers cfg' = 8
    /\ DataflowTuningConfig.EnableStreamingEngine cfg' = true
    /\ DataflowTuningConfig.AdditionalUserLabels Failures.labelled
       = Some Failures.labels
    /\ DataflowTuningConfig.AdditionalUserLabels cfg' = Some labels'
    /\ labels' !! "smt-reverse-replication-reader" = Some "smt-job-abc"
    /\ labels' !! "team" = Failures.labels !! "team".
Proof.
  destruct (validateUpdateReaderTuningCfg_keeps_given (Scenario.env Scenario.setup)
              Failures.labelled "p1" "us-central1" "smt-job-abc" Scenario.es0
              Failures.labels eq_refl)
    as (cfg' & st' & labels' & Hrun & _ & Hst & _ & Hj & _ & Hm & _ & _ & _ & _ & _ & _ & _
        & He & Hl & Hown & Hkey & _).
  exists cfg', labels'. rewrite Hrun.
  split; [by rewrite Hst|]. split; [by apply Hj|]. split; [by apply Hm|].
  split; [exact He|]. split; [reflexivity|]. split; [exact Hl|].
  split; [exact Hown|]. by apply Hkey.
Defined.

Lemma validateUpdateReaderTuningCfg_experiments_witness :
  exists cfg' st' st'',
    validateUpdateReaderTuningCfg (Scenario.env Scenario.setup) Failures.experimental
      "p1" "us-central1" "smt-job-abc" Scenario.es0 = (Ret cfg', st')
    /\ DataflowTuningConfig.AdditionalExperiments cfg'
       = Some ["enable_prime"; "use_runner_v2"]
    /\ validateUpdateReaderTuningCfg (Scenario.env Scenario.setup)
         DataflowTuningConfig.zero "p1" "us-central1" "smt-job-abc" Scenario.es0
       = (Panic "assignment to entry in nil map", st'').
Proof.
  pose proof (validateUpdateReaderTuningCfg_experiments (Scenario.env Scenario.setup)
                Failures.experimental "p1" "us-central1" "smt-job-abc" Scenario.es0)
    as (cfg' & st' & exps' & Hrun & He & _ & Hcase).
  pose proof (validateUpdateReaderTuningCfg_experiments (Scenario.env Scenario.setup)
                DataflowTuningConfig.zero "p1" "us-central1" "smt-job-abc" Scenario.es0)
    as (st'' & Hpanic & _).
  exists cfg', st', st''. split; [exact Hrun|]. split; [|exact Hpanic]. rewrite He.
  cbn in Hcase. destruct Hcase as [[[H|[]] _]|[_ ->]]; [discriminate H|reflexivity].
Defined.

Lemma validateUpdateReaderTuningCfg_idempotent_witness :
  exists cfg' st',
    validateUpdateReaderTuningCfg (Scenario.env Scenario.setup) Scenario.labelledTuning
      "p1" "us-central1" "smt-job-abc" Scenario.es0 = (Ret cfg', st')
    /\ validateUpdateReaderTuningCfg (Scenario.env Scenario.setup) cfg'
         "p1" "us-central1" "smt-job-abc" st' = (Ret cfg', st').
Proof.
  destruct (validateUpdateReaderTuningCfg_outcome (Scenario.env Scenario.setup)
              Scenario.labelledTuning "p1" "us-central1" "smt-job-abc" Scenario.es0)
    as (st' & _ & H).
  cbn [Scenario.labelledTuning DataflowTuningConfig.set_AdditionalUserLabels
       DataflowTuningConfig.AdditionalUserLabels] in H.
  destruct H as (cfg' & Hrun & _).
  exists cfg', st'. split; [exact Hrun|].
  exact (validateUpdateReaderTuningCfg_idempotent (Scenario.env Scenario.setup)
           _ cfg' _ _ _ _ st' st' Hrun).
Defined.


Lemma PrepareChangeStream_Transaction_outcome_witness :
  (exists st',
      PrepareChangeStream_Transaction (Failures.env Failures.CreateStreamFails)
        Scenario.changeStream Scenario.es0
      = (Ret (PrepareChangeStreamOutput.zero,
              Some "could not create changestream resource: quota exceeded"), st'))
  /\ (exists st',
        PrepareChangeStream_Transaction (Failures.env Failures.CheckFails)
          Scenario.changeStream Scenario.es0
        = (Ret (PrepareChangeStreamOutput.zero, Some "permission denied"), st')
        /\ events st'
           = [EvCheckIfChangeStreamExists "smt_rr_cs_abc"
                "projects/p1/instances/inst-1/databases/db-1"]).
Proof.
  split.
  - destruct (PrepareChangeStream_Transaction_outcome
                (Failures.env Failures.CreateStreamFails) Scenario.changeStream Scenario.es0)
      as (out' & e & st' & new & Hrun & _ & _ & _ & _ & _ & _ & _ & Hcreate & _).
    destruct (Hcreate [] "quota exceeded" [] eq_refl eq_refl) as (-> & -> & _).
    exists st'. exact Hrun.
  - destruct (PrepareChangeStream_Transaction_outcome
                (Failures.env Failures.CheckFails) Scenario.changeStream Scenario.es0)
      as (out' & e & st' & new & Hrun & Hev & _ & _ & _ & _ & _ & Hcheck & _).
    destruct (Hcheck true "permission denied" [] eq_refl) as (-> & -> & -> & _).
    exists st'. split; [exact Hrun|exact Hev].
Defined.

Lemma PrepareDataflowReader_Transaction_outcome_witness :
  exists st' cfg' st'',
    PrepareDataflowReader_Transaction (Failures.env Failures.ReadTuningFails)
      (Scenario.reader "" "") Scenario.es0
    = (Ret (PrepareDataflowReaderOutput.zero,
            Some "error reading reader tuning config : no such object"), st')
    /\ events st' = [EvUnmarshalDataflowTuningConfig ""]
    /\ PrepareDataflowReader_Transaction (Failures.env Failures.CreateJobFails)
         (Scenario.reader "" "") Scenario.es0
       = (Ret (PrepareDataflowReaderOutput.zero, Some "launch refused"), st'')
    /\ events st''
       = [EvUnmarshalDataflowTuningConfig "";
          EvGetDataflowLaunchRequest
            (Transaction_params (Failures.env Failures.CreateJobFails)
               (PrepareDataflowReader.Input (Scenario.reader "" ""))) cfg';
          EvCreateDataflowSMTResource "smt-job-abc"
            (Transaction_params (Failures.env Failures.CreateJobFails)
               (PrepareDataflowReader.Input (Scenario.reader "" "")))].
Proof.
  pose proof (PrepareDataflowReader_Transaction_outcome
                (Failures.env Failures.ReadTuningFails) (Scenario.reader "" "")
                Scenario.es0) as Hread.
  pose proof (PrepareDataflowReader_Transaction_outcome
                (Failures.env Failures.CreateJobFails) (Scenario.reader "" "")
                Scenario.es0) as (cfg' & w2 & _ & Hrefused).
  eexists _, cfg', _. split; [exact Hread|]. split; [reflexivity|].
  split; [exact Hrefused|]. reflexivity.
Defined.

Lemma CreateWorkflow_reader_params_witness :
  exists params cfg,
    In (EvGetDataflowLaunchRequest params cfg)
       (events (ext (snd (CreateWorkflow (Scenario.env Scenario.setup) Scenario.request
                            Scenario.os0))))
    /\ params !! "runIdentifier" = Some "smt-job-abc"
    /\ params !! "instanceId" = Some "inst-1"
    /\ (exists v, params !! "sessionFilePath" = Some v /\ HasPrefix v "gs://" = true)
    /\ (exists v, params !! "changeStreamName" = Some v /\ ContainsByte "-" v = false).
Proof.
  destruct (find isLaunchRequest
              (events (ext (snd (CreateWorkflow (Scenario.env Scenario.setup)
                                   Scenario.request Scenario.os0)))))
    as [ev|] eqn:F; [|vm_compute in F; discriminate F].
  apply find_some in F as [Hin Hev].
  destruct ev as [| | | | | | |params cfg| | |]; try discriminate Hev.
  destruct (CreateWorkflow_reader_params (Scenario.env Scenario.setup) Scenario.request
              Scenario.os0 params cfg Hin (fun H : False => H))
    as (_ & Hrun & Hi & _ & _ & Hs & _ & _ & (v & Hcs & Hh & _) & _).
  exists params, cfg. split; [exact Hin|]. split; [exact Hrun|]. split; [exact Hi|].
  split; [exact Hs|]. exists v. split; [exact Hcs|exact Hh].
Defined.

Lemma CreateWorkflow_running_last_witness :
  exists input,
    In (EvExternalTransaction (UpdateSmtJobEntry input))
       (events (ext (snd (CreateWorkflow (Scenario.env Scenario.setup) Scenario.request
                            Scenario.os0))))
    /\ input = UpdateSmtJobEntryInput.mk "smt-job-abc" "RUNNING"
    /\ steps (snd (CreateWorkflow (Scenario.env Scenario.setup) Scenario.request
                     Scenario.os0))
       = BuildActivities 7 :: map InvokeTransaction (seq 0 7).
Proof.
  destruct (find isJobEntryUpdate
              (events (ext (snd (CreateWorkflow (Scenario.env Scenario.setup)
                                   Scenario.request Scenario.os0)))))
    as [ev|] eqn:F; [|vm_compute in F; discriminate F].
  apply find_some in F as [Hin Hev].
  destruct ev as [| | | | | | | | |[| | | |input]|]; try discriminate Hev.
  destruct (CreateWorkflow_running_last (Scenario.env Scenario.setup) Scenario.request
              Scenario.os0 input Hin (fun H : False => H))
    as (Hinput & Hsteps & _).
  exists input. split; [exact Hin|]. split; [exact Hinput|exact Hsteps].
Defined.


Lemma Stop_once_witness :
  exists st1,
    Emulator.Stop (EmulatorRun.env false) (Some 1%positive)
      (EmulatorRun.holding EmulatorRun.running) = (Ret tt, st1)
    /\ Emulator.events st1 = [Emulator.EvRelease 4711%nat]
    /\ Emulator.world st1 = ["released"]
    /\ Emulator.Stop (EmulatorRun.env false) (Some 1%positive) st1 = (Ret tt, st1).
Proof.
  destruct (Stop_once (EmulatorRun.env false) 1%positive EmulatorRun.running
              (EmulatorRun.holding EmulatorRun.running))
    as (st1 & new & Hrun & Hagain & Hev & _ & _ & Hfire & _).
  - apply lookup_insert_eq.
  - intros c [= <-]. discriminate.
  - destruct (Hfire eq_refl) as [_ Hcmd].
    destruct (Hcmd 4711%nat eq_refl) as [-> Hw].
    exists st1. split; [exact Hrun|]. split; [exact Hev|]. split; [exact Hw|exact Hagain].
Defined.

Lemma Start_then_Stop_witness :
  exists p st1 st2,
    Emulator.Start (EmulatorRun.env false) EmulatorRun.options EmulatorRun.st0
    = (Ret (Some p, None), st1)
    /\ Emulator.Stop (EmulatorRun.env false) (Some p) st1 = (Ret tt, st2)
    /\ Emulator.world st2 = ["started"; "released"]
    /\ forallb (fun ev => negb (isKill ev)) (Emulator.events st2) = true.
Proof.
  destruct (Start_then_Stop (EmulatorRun.env false) EmulatorRun.options EmulatorRun.st0
              4711%nat tt Emulator.Done ["started"] ["started"] ["started"]
              eq_refl eq_refl eq_refl eq_refl eq_refl)
    as (st1 & st2 & Hstart & _ & Hstop & Hev & Hw & _).
  eexists _, st1, st2. split; [exact Hstart|]. split; [exact Hstop|].
  split; [exact Hw|]. rewrite Hev. reflexivity.
Defined.

Lemma startEmulatorSubprocess_outcome_witness :
  exists st',
    Emulator.startEmulatorSubprocess (EmulatorRun.env true) 1%positive
      (EmulatorRun.holding EmulatorRun.fresh)
    = (Ret (Some "cannot find cloud spanner emulator binary at /work/emulator_main"), st')
    /\ Emulator.heap st' = Emulator.heap (EmulatorRun.holding EmulatorRun.fresh)
    /\ Emulator.events st' = [Emulator.EvStat "/work/emulator_main"].
Proof.
  destruct (startEmulatorSubprocess_outcome (EmulatorRun.env true) 1%positive
              EmulatorRun.fresh (EmulatorRun.holding EmulatorRun.fresh))
    as (err & st' & e' & Hrun & _ & Hmissing & _).
  - apply lookup_insert_eq.
  - destruct (Hmissing eq_refl) as (-> & _ & Hh & Hev).
    exists st'. split; [exact Hrun|]. split; [exact Hh|exact Hev].
Defined.

Lemma waitForReady_outcome_witness :
  exists st',
    Emulator.waitForReady (EmulatorRun.env false) 1%positive
      (EmulatorRun.holding EmulatorRun.running) = (Ret None, st')
    /\ Emulator.events st'
       = [Emulator.EvNewInstanceAdminClient (readyDialOptions "localhost:9010");
          Emulator.EvListInstanceConfigs "projects/test-project";
          Emulator.EvCancel].
Proof.
  destruct (waitForReady_outcome (EmulatorRun.env false) 1%positive
              EmulatorRun.running (EmulatorRun.holding EmulatorRun.running))
    as (err & st' & new & Hrun & _ & Hev & _ & _ & Hok & _).
  - apply lookup_insert_eq.
  - destruct (Hok tt [] [] Emulator.Done eq_refl eq_refl) as [-> ->].
    exists st'. split; [exact Hrun|exact Hev].
Defined.

Lemma Start_outcome_witness :
  exists p st1 st2,
    Emulator.Start (EmulatorRun.env true) EmulatorRun.options EmulatorRun.st0
    = (Panic "runtime error: invalid memory address or nil pointer dereference", st1)
    /\ Emulator.events st1 = [Emulator.EvStat "/work/emulator_main"]
    /\ Emulator.Start (EmulatorRun.env false) EmulatorRun.options EmulatorRun.st0
       = (Ret (Some p, None), st2)
    /\ Emulator.events st2
       = [Emulator.EvStat "/work/emulator_main";
          Emulator.EvCmdStart
            (subprocessCommand EmulatorRun.options "/work/emulator_main");
          Emulator.EvNewInstanceAdminClient (readyDialOptions "localhost:9010");
          Emulator.EvListInstanceConfigs "projects/test-project";
          Emulator.EvCancel;
          Emulator.EvPrintf "Cloud spanner emulator listening at: localhost:9010"]
    /\ Emulator.heap st2 !! p = Some EmulatorRun.running.
Proof.
  destruct (Start_outcome (EmulatorRun.env true) EmulatorRun.options EmulatorRun.st0)
    as (_ & _ & Hmissing & _).
  destruct (Start_outcome (EmulatorRun.env false) EmulatorRun.options EmulatorRun.st0)
    as (_ & _ & _ & Hthere).
  pose proof (Hthere eq_refl (Emulator.Started 4711%nat) ["started"] eq_refl
                tt None ["started"] eq_refl Emulator.Done ["started"] eq_refl) as Hup.
  eexists _, _, _. split; [exact (Hmissing eq_refl)|]. split; [reflexivity|].
  split; [exact Hup|]. split; [reflexivity|].
  cbn [Emulator.heap]. apply lookup_insert_eq.
Defined.
